(** * ActionMan logger: a shallow embedding of [actionman.logger] and of
    [actionman.pprint.github_log], [github_group_start] and [github_group_end].

    Strings are byte strings ([String.string] over [ascii]).  The markup
    helpers imported from the external [markitup] package and [textwrap.dedent]
    are kept abstract in the class [Markup]; every statement below holds for
    any implementation of them unless a hypothesis says otherwise.  The
    caller name found by [Logger._caller_name] through stack inspection is
    passed in explicitly, and so is the text of [traceback.format_exc()]. *)

From Stdlib Require Import ZArith List Bool Lia String Ascii.
From Stdlib Require Import Numbers.DecimalString.
Import ListNotations.
Open Scope string_scope.

(** ** Small string helpers used by the source *)

Definition nl : string := String (ascii_of_nat 10) EmptyString.
Definition dq : string := String (ascii_of_nat 34) EmptyString.

(** [str(n)] for a Python int. *)
Definition str_Z (n : Z) : string := NilEmpty.string_of_int (Z.to_int n).

(** Python's [str.isspace] on a single (ASCII) character. *)
Definition is_space (c : ascii) : bool :=
  let n := nat_of_ascii c in
  ((9 <=? n) && (n <=? 13))%nat || ((28 <=? n) && (n <=? 32))%nat.

Fixpoint drop_spaces (l : list ascii) : list ascii :=
  match l with
  | [] => []
  | c :: l' => if is_space c then drop_spaces l' else l
  end.

(** [s.lstrip()], [s.rstrip()] and [s.strip()]. *)
Definition lstrip (s : string) : string :=
  string_of_list_ascii (drop_spaces (list_ascii_of_string s)).
Definition rstrip (s : string) : string :=
  string_of_list_ascii (rev (drop_spaces (rev (list_ascii_of_string s)))).
Definition strip (s : string) : string := rstrip (lstrip s).

(** [s.endswith(suf)] and [s.removesuffix(suf)]. *)
Definition endswith (s suf : string) : bool :=
  (String.length suf <=? String.length s)%nat &&
  String.eqb (substring (String.length s - String.length suf) (String.length suf) s) suf.

Definition removesuffix (s suf : string) : string :=
  if negb (String.eqb suf "") && endswith s suf
  then substring 0 (String.length s - String.length suf) s
  else s.

(** [sep.join(xs)]. *)
Fixpoint join (sep : string) (xs : list string) : string :=
  match xs with
  | [] => ""
  | [x] => x
  | x :: xs' => x ++ sep ++ join sep xs'
  end.

(** [sub in s]. *)
Fixpoint contains (s sub : string) : bool :=
  prefix sub s || match s with EmptyString => false | String _ s' => contains s' sub end.

(** Python truthiness of a [str] and of an [int]. *)
Definition truthy_s (s : string) : bool := negb (String.eqb s "").
Definition truthy_Z (n : Z) : bool := negb (Z.eqb n 0).

(** ** [pprint]: GitHub Actions workflow commands *)

Module Pprint.

Inductive message_type := debug | notice | warning | error.

Definition message_type_name (t : message_type) : string :=
  match t with
  | debug => "debug" | notice => "notice" | warning => "warning" | error => "error"
  end.

(** [github_group_start(title, pprint=False)]. *)
Definition github_group_start (title : string) : string := "::group::" ++ title.

(** [github_group_end(pprint=False)]. *)
Definition github_group_end : string := "::endgroup::".

(** The [(arg_name, github_arg_name)] loop of [github_log]: name, rendered
    value, and the truthiness test [if args[arg_name]]. *)
Definition github_args (title filename : string)
    (line_start line_end column_start column_end : Z) : list (string * string * bool) :=
  [ ("title", title, truthy_s title);
    ("file", filename, truthy_s filename);
    ("line", str_Z line_start, truthy_Z line_start);
    ("endLine", str_Z line_end, truthy_Z line_end);
    ("col", str_Z column_start, truthy_Z column_start);
    ("endColumn", str_Z column_end, truthy_Z column_end) ].

Definition add_args (acc : string * bool) (args : list (string * string * bool)) : string * bool :=
  fold_left (fun (acc : string * bool) (arg : string * string * bool) =>
               let '(out, added) := acc in
               let '(name, value, t) := arg in
               if t then (out ++ name ++ "=" ++ value ++ ",", true) else (out, added))
            args acc.

(** [github_log(...)]; the returned string (printed when [pprint=True]). *)
Definition github_log (mt : message_type) (message title filename : string)
    (line_start line_end column_start column_end : Z) : string :=
  let output := "::" ++ message_type_name mt ++ " " in
  let r : string * bool * string :=
    match mt with
    | debug => (output, false, " " ++ message)
    | _ =>
        let (o, a) := add_args (output, false)
                        (github_args title filename line_start line_end column_start column_end) in
        (o, a, message)
    end in
  let '(output, args_added, message) := r in
  let output := removesuffix output (if args_added then "," else " ") in
  output ++ "::" ++ message.

(** The [key=value] texts of the provided arguments. *)
Definition kv_pairs (args : list (string * string * bool)) : list string :=
  map (fun a : string * string * bool => let '(n, v, _) := a in n ++ "=" ++ v)
      (filter (fun a : string * string * bool => let '(_, _, t) := a in t) args).

(** The directive as the spec describes it, for comparison with
    [github_log]: [::{kind} {key=value,...}::{message}]; the debug kind
    carries no metadata and prefixes the message with a space; the other
    kinds list the provided (truthy) arguments, comma-separated. *)
Definition github_log_spec (mt : message_type) (message title filename : string)
    (line_start line_end column_start column_end : Z) : string :=
  match mt with
  | debug => "::debug::" ++ " " ++ message
  | _ =>
      let kvs := kv_pairs (github_args title filename line_start line_end column_start column_end) in
      "::" ++ message_type_name mt
      ++ (match kvs with [] => "" | _ => " " ++ join "," kvs end)
      ++ "::" ++ message
  end.

End Pprint.

(** ** Outcomes of a call: a return, [sys.exit(code)], or a raised exception *)

Inductive exn := ValueError | OSError | IndexError.

Inductive outcome (A : Type) : Type :=
| Ret (a : A)
| Exit (code : option Z)
| Raise (e : exn).
Arguments Ret {A} a.
Arguments Exit {A} code.
Arguments Raise {A} e.

Definition bind {A B} (m : outcome A) (f : A -> outcome B) : outcome B :=
  match m with
  | Ret a => f a
  | Exit c => Exit c
  | Raise e => Raise e
  end.
Notation "x <- m ;; k" := (bind m (fun x => k)) (at level 61, m at next level, right associativity).

(** ** The external markup helpers *)

(** [markitup.sgr.format], [str(markitup.html.h(...))],
    [str(markitup.html.ul([...]))] and [textwrap.dedent]. *)
Class Markup := {
  sgr_format : string -> string -> string;
  html_h : nat -> string -> string;
  html_ul : list string -> string;
  dedent : string -> string
}.

Module Logger.

Inductive LogLevel := DEBUG | INFO | NOTICE | WARNING | ERROR | CRITICAL.

(** The settings fixed by [Logger.__init__].  [style_status] is the control
    sequence built by [sgr.style] for each level; [heading_pprint] renders a
    heading with [pprint.h1..h6] and the [h1_kwargs..h6_kwargs];
    [default_exit_code] is the argument [exit_code_critical]. *)
Record Config := {
  realtime_output : bool;
  github_console : bool;
  print_debug : bool;
  output_html_filepath : option string;
  default_exit_code : option Z;
  symbol_status : LogLevel -> string;
  style_status : LogLevel -> string;
  symbol_caller : string;
  heading_pprint : nat -> string -> string
}.

(** The mutable attributes of a [Logger] object, the lines it printed to
    stdout, and the content of the HTML file at [output_html_filepath]. *)
Record Logger := mkLogger {
  cfg : Config;
  curr_section : string;
  next_section_num : list Z;
  open_grouped_sections : Z;
  out_of_section : bool;
  log_console : string;
  log_html : string;
  stdout : list string;
  html_file : string
}.

Definition set_section (s : Logger) (cur : string) (nums : list Z) (groups : Z) (oos : bool) : Logger :=
  mkLogger (cfg s) cur nums groups oos (log_console s) (log_html s) (stdout s) (html_file s).

Definition set_console (s : Logger) (console : string) (out : list string) : Logger :=
  mkLogger (cfg s) (curr_section s) (next_section_num s) (open_grouped_sections s)
           (out_of_section s) console (log_html s) out (html_file s).

Definition set_html (s : Logger) (html file : string) : Logger :=
  mkLogger (cfg s) (curr_section s) (next_section_num s) (open_grouped_sections s)
           (out_of_section s) (log_console s) html (stdout s) file.

(** [print(text)]. *)
Definition print (s : Logger) (text : string) : Logger :=
  set_console s (log_console s) (stdout s ++ [text])%list.

Definition html_file_end : string := "</body>" ++ nl ++ "</html>" ++ nl.

Definition has_html_path (c : Config) : bool :=
  match output_html_filepath c with Some _ => true | None => false end.

(** [file.seek(-off, 2)] followed by [file.write(data)] on a file opened
    with ['rb+']: a negative position raises [OSError]; the write overwrites
    from the position on and extends the file. *)
Definition seek_end_write (content : string) (off : nat) (data : string) : outcome string :=
  if (String.length content <? off)%nat then Raise OSError
  else
    let pos := (String.length content - off)%nat in
    let stop := (pos + String.length data)%nat in
    Ret (substring 0 pos content ++ data ++
         substring stop (String.length content - stop) content).

Section Ops.
Context `{M : Markup}.

(** [_submit_console]. *)
Definition submit_console (s : Logger) (text : string) (is_debug : bool) : Logger :=
  let s' := set_console s (log_console s ++ text ++ nl) (stdout s) in
  if realtime_output (cfg s) && (negb is_debug || github_console (cfg s) || print_debug (cfg s))
  then print s' text else s'.

(** [_submit_html]. *)
Definition submit_html (s : Logger) (html : string) : outcome Logger :=
  let file_entry := html ++ nl in
  let h := log_html s ++ file_entry in
  if realtime_output (cfg s) && has_html_path (cfg s) then
    f <- seek_end_write (html_file s) (String.length html_file_end) (file_entry ++ html_file_end) ;;
    Ret (set_html s h f)
  else Ret (set_html s h (html_file s)).

(** [_submit]. *)
Definition submit (s : Logger) (console html : string) (is_debug : bool) : outcome Logger :=
  submit_html (submit_console s console is_debug) html.

(** [html_log]. *)
Definition html_log (s : Logger) : string := log_html s ++ html_file_end.

(** [_format_entry]: console text, HTML fragment and annotation message. *)
Definition format_entry (c : Config) (level : LogLevel) (message title code : string)
    : string * string * string :=
  let symbol := symbol_status c level in
  let '(title_console, title_html, title_annotation) :=
    if truthy_s title then
      (sgr_format title (style_status c level) ++ ": ", "<b>" ++ title ++ "</b>: ", title ++ ": ")
    else ("", "", "") in
  let '(code_console, code_html) :=
    if truthy_s code then (nl ++ code, "<pre>" ++ code ++ "</pre>") else ("", "") in
  let output_console := symbol ++ " " ++ title_console ++ message ++ code_console in
  let output_html := html_ul [symbol ++ " " ++ title_html ++ message ++ code_html] in
  let github_annotation_msg := title_annotation ++ message in
  (output_console, output_html, github_annotation_msg).

(** [section(title, group, stack_up)]; [caller] is [_caller_name(stack_up)]. *)
Definition section (s : Logger) (title : string) (group : bool) (caller : string) : outcome Logger :=
  let c := cfg s in
  let section_level := Nat.min (List.length (next_section_num s)) 6 in
  let section_num := join "." (map str_Z (next_section_num s)) in
  let cur := section_num ++ "  " ++ title in
  let caller_entry_html := symbol_caller c ++ " Caller: <code>" ++ caller ++ "</code>" in
  let heading_html := html_h section_level cur in
  let output_html := heading_html ++ nl ++ caller_entry_html in
  let heading_console := heading_pprint c section_level cur in
  let output_console := heading_console ++ "  [" ++ caller ++ "]" in
  let groups := open_grouped_sections s in
  let '(output_console, groups) :=
    if github_console c then
      let oc := if group && negb (truthy_Z groups)
                then Pprint.github_group_start output_console else output_console in
      let g := if group || truthy_Z groups then (groups + 1)%Z else groups in
      (oc, g)
    else (output_console, groups) in
  let s := set_section s cur (next_section_num s) groups (out_of_section s) in
  s <- submit s output_console output_html false ;;
  Ret (set_section s (curr_section s) (next_section_num s ++ [1%Z])%list
                   (open_grouped_sections s) (out_of_section s)).

(** [self._next_section_num[-1] += 1]. *)
Definition incr_last (l : list Z) : outcome (list Z) :=
  match rev l with
  | [] => Raise IndexError
  | x :: r => Ret (rev r ++ [(x + 1)%Z])%list
  end.

(** [section_end()]. *)
Definition section_end (s : Logger) : outcome Logger :=
  let s :=
    if truthy_Z (open_grouped_sections s) then
      let g := (open_grouped_sections s - 1)%Z in
      let s := set_section s (curr_section s) (next_section_num s) g (out_of_section s) in
      if negb (truthy_Z g) then submit_console s Pprint.github_group_end false else s
    else s in
  let nums := if (2 <? List.length (next_section_num s))%nat
              then removelast (next_section_num s) else next_section_num s in
  nums <- incr_last nums ;;
  Ret (set_section s (curr_section s) nums (open_grouped_sections s) true).


(** [debug(message, title, code)]. *)
Definition debug (s : Logger) (message title code : string) : outcome Logger :=
  let '(output_console, output_html, _) := format_entry (cfg s) DEBUG message title code in
  let output_console :=
    if github_console (cfg s)
    then Pprint.github_log Pprint.debug output_console "" "" 0 0 0 0
    else output_console in
  submit s output_console output_html true.

(** [info(message, title, code)]. *)
Definition info (s : Logger) (message title code : string) : outcome Logger :=
  let '(output_console, output_html, _) := format_entry (cfg s) INFO message title code in
  submit s output_console output_html false.

(** The common body of [notice], [warning] and [error]: submit the entry,
    then print the annotation titled with the current section. *)
Definition annotated (level : LogLevel) (mt : Pprint.message_type)
    (s : Logger) (message title code : string) : outcome Logger :=
  let '(output_console, output_html, github_annotation_msg) :=
    format_entry (cfg s) level message title code in
  s <- submit s output_console output_html false ;;
  Ret (if github_console (cfg s)
       then print s (Pprint.github_log mt github_annotation_msg (curr_section s) "" 0 0 0 0)
       else s).

Definition notice := annotated NOTICE Pprint.notice.
Definition warning := annotated WARNING Pprint.warning.
Definition error := annotated ERROR Pprint.error.

(** [exit_code or self._default_exit_code]: [None] and [0] are falsy. *)
Definition or_exit_code (exit_code default : option Z) : option Z :=
  match exit_code with
  | Some n => if Z.eqb n 0 then default else Some n
  | None => default
  end.

(** [critical(message, title, code, sys_exit, exit_code, stack_up)] up to
    [sys.exit]: the entry is submitted, the open group closed when the
    process is to exit, the annotation printed; the result is the state at
    that point and [sys_exit] as resolved.  [traceback] is
    [traceback.format_exc()], [caller] is [_caller_name(stack_up)]. *)
Definition critical_body (s : Logger) (message title code : string)
    (sys_exit : option bool) (traceback caller : string) : outcome (Logger * bool) :=
  let code := if negb (String.eqb traceback ("NoneType: None" ++ nl))
              then strip (code ++ nl ++ nl ++ traceback) else code in
  let '(output_console, output_html, github_annotation_msg) :=
    format_entry (cfg s) CRITICAL message title code in
  s <- submit s output_console output_html false ;;
  let sys_exit := match sys_exit with
                  | None => match default_exit_code (cfg s) with Some _ => true | None => false end
                  | Some b => b
                  end in
  let s := if sys_exit && truthy_Z (open_grouped_sections s)
           then submit_console s Pprint.github_group_end false else s in
  let s := if github_console (cfg s)
           then print s (Pprint.github_log Pprint.error github_annotation_msg
                           ("FATAL ERROR: " ++ curr_section s ++ " (caller: " ++ caller ++ ")")
                           "" 0 0 0 0)
           else s in
  Ret (s, sys_exit).

(** [critical(...)]: [sys.exit(exit_code or self._default_exit_code)] when
    [sys_exit] resolved to true, a return otherwise. *)
Definition critical (s : Logger) (message title code : string)
    (sys_exit : option bool) (exit_code : option Z) (traceback caller : string) : outcome Logger :=
  r <- critical_body s message title code sys_exit traceback caller ;;
  let '(s, sys_exit) := r in
  if sys_exit then Exit (or_exit_code exit_code (default_exit_code (cfg s))) else Ret s.

Definition indent : string := "            ".

(** The f-string passed to [dedent] for the HTML head. *)
Definition html_intro_raw (html_title : string) : string :=
  nl ++ indent ++ "<!DOCTYPE html>" ++ nl
  ++ indent ++ "<html>" ++ nl
  ++ indent ++ "<head>" ++ nl
  ++ indent ++ "<title>" ++ html_title ++ "</title>" ++ nl
  ++ indent ++ "<meta charset=" ++ dq ++ "UTF-8" ++ dq ++ ">" ++ nl
  ++ indent ++ "<meta name=" ++ dq ++ "viewport" ++ dq ++ " content=" ++ dq
  ++ "width=device-width, initial-scale=1.0" ++ dq ++ ">" ++ nl
  ++ indent.

(** [Logger.__init__]: [c] holds the processed arguments, [prior_file] is
    the content of the HTML file before [touch] (empty when absent), and
    [caller] is the caller name recorded for the root section. *)
Definition init (c : Config) (initial_section_number : Z)
    (root_heading html_title html_style prior_file caller : string) : outcome Logger :=
  _ <- match default_exit_code c with
       | Some n => if (n <=? 0)%Z then Raise ValueError else Ret tt
       | None => Ret tt
       end ;;
  let intro := lstrip (dedent (html_intro_raw html_title)) in
  let intro := if truthy_s html_style
               then intro ++ "<style>" ++ nl ++ html_style ++ nl ++ "</style>" ++ nl
               else intro in
  let h := intro ++ "</head>" ++ nl ++ "<body>" ++ nl in
  let file := if realtime_output c && has_html_path c then h ++ html_file_end else prior_file in
  let s := mkLogger c "" [initial_section_number] 0 false "" h [] file in
  section s root_heading false caller.

(** The public calls that mutate a [Logger]. *)
Inductive op :=
| OpSection (title : string) (group : bool) (caller : string)
| OpSectionEnd
| OpDebug (message title code : string)
| OpInfo (message title code : string)
| OpNotice (message title code : string)
| OpWarning (message title code : string)
| OpError (message title code : string)
| OpCritical (message title code : string) (sys_exit : option bool) (exit_code : option Z)
             (traceback caller : string).

Definition step (s : Logger) (o : op) : outcome Logger :=
  match o with
  | OpSection t g k => section s t g k
  | OpSectionEnd => section_end s
  | OpDebug m t c => debug s m t c
  | OpInfo m t c => info s m t c
  | OpNotice m t c => notice s m t c
  | OpWarning m t c => warning s m t c
  | OpError m t c => error s m t c
  | OpCritical m t c se ec tb k => critical s m t c se ec tb k
  end.

Fixpoint run (s : Logger) (ops : list op) : outcome Logger :=
  match ops with
  | [] => Ret s
  | o :: ops' => s' <- step s o ;; run s' ops'
  end.

(** The state the calls [ops] leave behind: the state of the return, or
    the state at [sys.exit] when a [critical] call ends the process. *)
Fixpoint run_end (s : Logger) (ops : list op) : outcome Logger :=
  match ops with
  | [] => Ret s
  | OpCritical m t c se _ tb k :: ops' =>
      r <- critical_body s m t c se tb k ;;
      let '(s', ex) := r in if ex then Ret s' else run_end s' ops'
  | o :: ops' => s' <- step s o ;; run_end s' ops'
  end.

(** States of a [Logger] object reachable through its public calls. *)
Inductive reachable : Logger -> Prop :=
| reachable_init c n rh ht hs pf k s :
    init c n rh ht hs pf k = Ret s -> reachable s
| reachable_step s o s' :
    reachable s -> step s o = Ret s' -> reachable s'.

(** The states a [Logger] leaves behind: the reachable ones, and the state
    at [sys.exit] of a [critical] call that ends the process. *)
Inductive observed : Logger -> Prop :=
| observed_reachable s : reachable s -> observed s
| observed_exit s m t c se tb k s' :
    reachable s -> critical_body s m t c se tb k = Ret (s', true) -> observed s'.

End Ops.
End Logger.

(** ** A concrete instantiation, used to evaluate the model on inputs *)

Module Concrete.
Import Logger.

Definition M0 : Markup :=
  {| sgr_format := fun t cs => cs ++ t ++ "[0m";
     html_h := fun n t => "<h" ++ str_Z (Z.of_nat n) ++ ">" ++ t ++ "</h" ++ str_Z (Z.of_nat n) ++ ">";
     html_ul := fun xs => "<ul>" ++ String.concat "" (map (fun x => "<li>" ++ x ++ "</li>") xs) ++ "</ul>";
     dedent := fun s => s |}.

(** The default arguments of [Logger.__init__]. *)
Definition c0 : Config :=
  {| realtime_output := true; github_console := true; print_debug := true;
     output_html_filepath := Some "log.html"; default_exit_code := Some 1%Z;
     symbol_status := fun _ => "*"; style_status := fun _ => "[1m";
     symbol_caller := "@"; heading_pprint := fun _ t => nl ++ t |}.

Definition fresh : outcome Logger := @init M0 c0 1 "Log" "Log" "" "" "__main__.main".


Definition fresh_state : Logger :=
  match fresh with Ret s => s | _ => mkLogger c0 "" [] 0 false "" "" [] "" end.

(** The state after [logger.section("G", group=True)] on [fresh_state]. *)
Definition grouped_state : Logger :=
  match @section M0 fresh_state "G" true "g" with Ret s => s | _ => fresh_state end.

Definition no_traceback : string := "NoneType: None" ++ nl.

(** The state at [sys.exit] of [logger.critical("boom")] on [fresh_state]. *)
Definition exit_state : Logger :=
  match @critical_body M0 fresh_state "boom" "" "" None no_traceback "k" with
  | Ret (s, _) => s | _ => fresh_state end.

Definition items3 : list (string * string) := [("A", "k"); ("B", "k"); ("C", "k")].

End Concrete.

(** ** [Logger.log]: dispatch on a level given as a [LogLevel] or a string *)

Module LoggerLog.
Import Logger.

(** The [level] argument of [Logger.log]. *)
Inductive level_arg :=
| LvLevel (l : LogLevel)
| LvStr (v : string).

(** [LogLevel(v)]: the enum looked up by value; an unknown value raises
    [ValueError]. *)
Definition LogLevel_of_value (v : string) : outcome LogLevel :=
  if String.eqb v "debug" then Ret DEBUG
  else if String.eqb v "info" then Ret INFO
  else if String.eqb v "notice" then Ret NOTICE
  else if String.eqb v "warning" then Ret WARNING
  else if String.eqb v "error" then Ret ERROR
  else if String.eqb v "critical" then Ret CRITICAL
  else Raise ValueError.

(** [level if isinstance(level, LogLevel) else LogLevel(level)]. *)
Definition resolve_level (level : level_arg) : outcome LogLevel :=
  match level with
  | LvLevel l => Ret l
  | LvStr v => LogLevel_of_value v
  end.

Section Log.
Context `{M : Markup}.

(** [log(level, message, title, code, sys_exit, exit_code, stack_up)]:
    the method named by the level value is called; only [critical] receives
    [sys_exit], [exit_code] and the caller ([stack_up + 1]), passed here as
    [caller] together with [traceback.format_exc()]. *)
Definition log (s : Logger) (level : level_arg) (message title code : string)
    (sys_exit : option bool) (exit_code : option Z) (traceback caller : string) : outcome Logger :=
  lv <- resolve_level level ;;
  match lv with
  | DEBUG => debug s message title code
  | INFO => info s message title code
  | NOTICE => notice s message title code
  | WARNING => warning s message title code
  | ERROR => error s message title code
  | CRITICAL => critical s message title code sys_exit exit_code traceback caller
  end.

End Log.
End LoggerLog.

(** ** More of [pprint]: [entry_console] and the headings [h], [h1..h6] *)

Module PprintMore.

(** [s * n] for a [str] and an [int]: empty when [n <= 0]. *)
Fixpoint str_repeat (s : string) (n : nat) : string :=
  match n with
  | O => ""
  | S n' => s ++ str_repeat s n'
  end.

Definition str_mul (s : string) (n : Z) : string := str_repeat s (Z.to_nat n).

(** [entry_console(title, details, seperator_top, seperator_bottom,
    seperator_title)]; the returned string (printed when [pprint=True]). *)
Definition entry_console (title details seperator_top seperator_bottom seperator_title : string)
    : string :=
  let output := "" in
  let output := if truthy_s seperator_top then output ++ seperator_top ++ nl else output in
  let output := output ++ title in
  let output := if truthy_s seperator_title && truthy_s details
                then output ++ nl ++ seperator_title else output in
  let output := if truthy_s details then output ++ nl ++ details else output in
  let output := if truthy_s seperator_bottom then output ++ nl ++ seperator_bottom else output in
  output.

(** The default separators: ["=" * 35] and ["-" * 20]. *)
Definition seperator_default : string := str_mul "=" 35.
Definition seperator_title_default : string := str_mul "-" 20.

(** CPython's [pad], [str.ljust], [str.rjust] and [str.center] with the
    space fill character; a negative padding counts as zero. *)
Definition pad (s : string) (left right : Z) : string :=
  str_mul " " left ++ s ++ str_mul " " right.

Definition ljust (s : string) (width : Z) : string :=
  if (width <=? Z.of_nat (String.length s))%Z then s
  else pad s 0 (width - Z.of_nat (String.length s)).

Definition rjust (s : string) (width : Z) : string :=
  if (width <=? Z.of_nat (String.length s))%Z then s
  else pad s (width - Z.of_nat (String.length s)) 0.

Definition center (s : string) (width : Z) : string :=
  if (width <=? Z.of_nat (String.length s))%Z then s
  else
    let marg := (width - Z.of_nat (String.length s))%Z in
    let left := (marg / 2 + Z.land marg (Z.land width 1))%Z in
    pad s left (marg - left).

(** [sgr.style(text_styles, text_color, background_color)] of the external
    [markitup] package, kept abstract. *)
Class SgrStyle := {
  text_styles_t : Type;
  color_t : Type;
  sgr_style : text_styles_t -> color_t -> color_t -> string
}.

Section Heading.
Context `{M : Markup} `{St : SgrStyle}.

(** [h(title, width, align, margin_top, margin_bottom, text_styles,
    text_color, background_color)]; the returned string.  [h1..h6] call it
    with their own defaults. *)
Definition h (title : string) (width : Z) (align : string) (margin_top margin_bottom : Z)
    (text_styles : text_styles_t) (text_color background_color : color_t) : string :=
  let control_sequence := sgr_style text_styles text_color background_color in
  let aligned_title :=
    if String.eqb align "left" then ljust title width
    else if String.eqb align "right" then rjust title width
    else center title width in
  let heading_box := sgr_format aligned_title control_sequence in
  str_mul nl margin_top ++ heading_box ++ str_mul nl margin_bottom.

End Heading.
End PprintMore.

(** ** [actionman.io.read_environment_variable(s)], the callers of the logger *)

Module Io.
Import Logger LoggerLog.

(** The [typ] argument: the supported classes, or another class with its
    [__name__] and its [str]. *)
Inductive typ := TStr | TBool | TInt | TFloat | TList | TDict | TOther (name repr : string).

Definition typ_name (t : typ) : string :=
  match t with
  | TStr => "str" | TBool => "bool" | TInt => "int" | TFloat => "float"
  | TList => "list" | TDict => "dict" | TOther n _ => n
  end.

(** [str(typ)] as in the f-strings. *)
Definition typ_repr (t : typ) : string :=
  match t with
  | TStr => "<class 'str'>" | TBool => "<class 'bool'>" | TInt => "<class 'int'>"
  | TFloat => "<class 'float'>" | TList => "<class 'list'>" | TDict => "<class 'dict'>"
  | TOther _ r => r
  end.

(** [str(b)] for a [bool]. *)
Definition py_bool (b : bool) : string := if b then "True" else "False".

(** [str.lower()] on ASCII letters. *)
Definition lower_ascii (c : ascii) : ascii :=
  let n := nat_of_ascii c in
  if ((65 <=? n) && (n <=? 90))%nat then ascii_of_nat (n + 32) else c.

Definition lower (s : string) : string :=
  string_of_list_ascii (map lower_ascii (list_ascii_of_string s)).

(** [traceback.format_exc()] outside an [except] block. *)
Definition no_exception_traceback : string := "NoneType: None" ++ nl.

(** The exceptions the module raises itself. *)
Inductive io_exn :=
| PyTypeError (msg : string)
| PyValueError (msg : string).

(** The outcome of a call taking an optional [Logger]: a return with the
    logger's new state, [sys.exit] from inside the logger, an exception of
    the module (the logger keeps the state it reached), or an exception
    raised inside the logger. *)
Inductive io_res (A : Type) : Type :=
| IoRet (a : A) (lg : option Logger)
| IoExit (code : option Z)
| IoRaise (e : io_exn) (lg : option Logger)
| IoLoggerRaise (e : exn).
Arguments IoRet {A} a lg.
Arguments IoExit {A} code.
Arguments IoRaise {A} e lg.
Arguments IoLoggerRaise {A} e.

Definition io (A : Type) : Type := option Logger -> io_res A.

Definition ret {A} (a : A) : io A := fun lg => IoRet a lg.
Definition raise {A} (e : io_exn) : io A := fun lg => IoRaise e lg.
Definition io_bind {A B} (m : io A) (k : A -> io B) : io B :=
  fun lg => match m lg with
            | IoRet a lg' => k a lg'
            | IoExit c => IoExit c
            | IoRaise e lg' => IoRaise e lg'
            | IoLoggerRaise e => IoLoggerRaise e
            end.
Notation "'let*' x ':=' m 'in' k" := (io_bind m (fun x => k))
  (at level 200, x name, m at level 100, k at level 200).

(** [if logger: logger.<call>(...)]: a [Logger] object is always truthy. *)
Definition with_logger (f : Logger -> outcome Logger) : io unit :=
  fun lg => match lg with
            | None => IoRet tt None
            | Some s => match f s with
                        | Ret s' => IoRet tt (Some s')
                        | Exit c => IoExit c
                        | Raise e => IoLoggerRaise e
                        end
            end.

(** The results of [int(value)], [float(value)] and
    [json.loads(value, strict=False)]: the value, or the text
    [traceback.format_exc()] gives inside the [except] block. *)
Class Casts := {
  float_t : Type;
  json_t : Type;
  py_int : string -> Z + string;
  py_float : string -> float_t + string;
  json_loads : string -> json_t + string
}.

Section IoOps.
Context `{M : Markup} `{C : Casts}.

(** The values [read_environment_variable] returns. *)
Inductive pyval :=
| PNone
| PStr (s : string)
| PBool (b : bool)
| PInt (z : Z)
| PFloat (f : float_t)
| PJson (j : json_t).

(** The logger part of the nested [log] function:
    [logger.log(level=level, message=message, title=title, code=code)]
    then [logger.section_end()].  At [CRITICAL] the nested function then
    raises [exception_type(message)]; the call sites below write that raise
    after it.  [critical] sees the caller [actionman.io.log] ([stack_up=1]
    from [Logger.log]). *)
Definition log_entry (level : LogLevel) (message title code traceback : string) : io unit :=
  let* _ := with_logger (fun s => log s (LvLevel level) message title code None None
                                    traceback "actionman.io.log") in
  with_logger section_end.

(** [read_environment_variable(name, typ, required, mask_value, logger)];
    [env] is [os.environ], whose values are strings. *)
Definition read_environment_variable (env : string -> option string) (name : string) (ty : typ)
    (required mask_value : bool) : io pyval :=
  let raise_casting_error (expected_typ value traceback : string) : io pyval :=
    let message := "Environment variable " ++ name ++ " could not be cast to " ++ expected_typ ++ "." in
    let* _ := log_entry CRITICAL message "Type Error"
                ("Value: " ++ (if mask_value then "**REDACTED**" else value)) traceback in
    raise (PyTypeError message) in
  let* _ := with_logger (fun s => section s ("Read Environment Variable '" ++ name ++ "'") true
                                    "actionman.io.read_environment_variable") in
  let* _ := with_logger (fun s => debug s ("Type: " ++ typ_name ty ++ ", Required: " ++ py_bool required
                                          ++ ", Mask Value: " ++ py_bool mask_value) "" "") in
  match env name with
  | None =>
      let* _ := (if required then
                   let message := "Required environment variable '" ++ name ++ "' is not set." in
                   let* _ := log_entry CRITICAL message "" "" no_exception_traceback in
                   raise (PyValueError message)
                 else ret tt) in
      let* _ := log_entry INFO ("Optional environment variable '" ++ name ++ "' is not set.") "" ""
                  no_exception_traceback in
      ret PNone
  | Some value =>
      let* value_casted :=
        match ty with
        | TStr => ret (PStr value)
        | TBool =>
            let l := lower value in
            if String.eqb l "true" || String.eqb l "false" || String.eqb l ""
            then ret (PBool (String.eqb l "true"))
            else raise_casting_error "boolean" value no_exception_traceback
        | TInt =>
            match py_int value with
            | inl z => ret (PInt z)
            | inr tb => raise_casting_error "integer" value tb
            end
        | TFloat =>
            match py_float value with
            | inl f => ret (PFloat f)
            | inr tb => raise_casting_error "float" value tb
            end
        | TList =>
            match json_loads value with
            | inl j => ret (PJson j)
            | inr tb => raise_casting_error "list" value tb
            end
        | TDict =>
            match json_loads value with
            | inl j => ret (PJson j)
            | inr tb => raise_casting_error "dict" value tb
            end
        | TOther _ _ =>
            raise (PyTypeError ("The specified type '" ++ typ_repr ty ++ "' for environment variable '"
                                ++ name ++ "' is not supported."))
        end in
      let* _ := with_logger (fun s => info s ("Successfully read and cast environment variable '"
                                             ++ name ++ "' to '" ++ typ_repr ty ++ "'.") "" "") in
      let* _ := with_logger (fun s => debug s "Value:" "" (if mask_value then "**REDACTED**" else value)) in
      let* _ := with_logger section_end in
      ret value_casted
  end.

(** [variables[name] = v] on a [dict] kept as an association list in
    insertion order. *)
Fixpoint dict_set {A} (d : list (string * A)) (k : string) (v : A) : list (string * A) :=
  match d with
  | [] => [(k, v)]
  | (k', v') :: d' => if String.eqb k k' then (k, v) :: d' else (k', v') :: dict_set d' k v
  end.

(** [read_environment_variables(variables_data..., name_prefix, logger,
    log_section_name)]. *)
Definition read_environment_variables (env : string -> option string)
    (variables_data : list (string * typ * bool * bool)) (name_prefix log_section_name : string)
    : io (list (string * pyval)) :=
  let* _ := with_logger (fun s => section s log_section_name true
                                    "actionman.io.read_environment_variables") in
  let* variables :=
    fold_left (fun (acc : io (list (string * pyval))) (vd : string * typ * bool * bool) =>
                 let '(name, ty, required, mask_value) := vd in
                 let* vars := acc in
                 let* v := read_environment_variable env (name_prefix ++ name) ty required mask_value in
                 ret (dict_set vars name v))
              variables_data (ret []) in
  let* _ := with_logger section_end in
  ret variables.

End IoOps.
End Io.

(** ** Views used to state properties *)

Module Views.
Import Logger.

(** The texts [section] computes for the heading of a new section. *)
Definition section_level (s : Logger) : nat := Nat.min (List.length (next_section_num s)) 6.
Definition section_title (s : Logger) (title : string) : string :=
  join "." (map str_Z (next_section_num s)) ++ "  " ++ title.
Definition section_console (s : Logger) (title caller : string) : string :=
  heading_pprint (cfg s) (section_level s) (section_title s title) ++ "  [" ++ caller ++ "]".
Definition section_html `{Markup} (s : Logger) (title caller : string) : string :=
  html_h (section_level s) (section_title s title) ++ nl
  ++ symbol_caller (cfg s) ++ " Caller: <code>" ++ caller ++ "</code>".

(** With realtime output and an HTML path, the file holds the document
    followed by the closing tags. *)
Definition file_inv (s : Logger) : Prop :=
  realtime_output (cfg s) && has_html_path (cfg s) = true ->
  html_file s = log_html s ++ html_file_end.

Definition Inv (s : Logger) : Prop :=
  file_inv s /\ (2 <= List.length (next_section_num s))%nat /\ (0 <= open_grouped_sections s)%Z.

(** The nesting of user sections after a sequence of calls: [section_end]
    at the root keeps the depth at zero. *)
Fixpoint open_sections (ops : list op) (d : nat) : nat :=
  match ops with
  | [] => d
  | OpSection _ _ _ :: ops' => open_sections ops' (S d)
  | OpSectionEnd :: ops' => open_sections ops' (Nat.pred d)
  | _ :: ops' => open_sections ops' d
  end.

(** [sys_exit] as [critical] resolves it. *)
Definition resolved_sys_exit (c : Config) (se : option bool) : bool :=
  match se with
  | None => match default_exit_code c with Some _ => true | None => false end
  | Some b => b
  end.

(** The code block [critical] formats. *)
Definition critical_code (c tb : string) : string :=
  if negb (String.eqb tb ("NoneType: None" ++ nl)) then strip (c ++ nl ++ nl ++ tb) else c.


(** Console lines, each followed by a newline; the first one wrapped in
    a group start marker. *)
Fixpoint lines (hs : list string) : string :=
  match hs with
  | [] => ""
  | h :: hs' => h ++ nl ++ lines hs'
  end.

Definition group_block (hs : list string) : string :=
  match hs with
  | [] => ""
  | h :: hs' => Pprint.github_group_start h ++ nl ++ lines hs'
  end.

Definition group_opens (items : list (string * string)) : list op :=
  map (fun it : string * string => OpSection (fst it) true (snd it)) items.

End Views.

(** ** Views used to state the further properties *)

Module ViewsMore.
Import Logger.

(** [s'] extends [s]: same configuration, the transcripts and stdout only
    grow, the HTML file is untouched with realtime output off, nothing is
    printed with realtime output and the GitHub console off, and
    [_out_of_section] is never reset. *)
Definition grows (s s' : Logger) : Prop :=
  cfg s' = cfg s /\
  (exists a, log_console s' = log_console s ++ a) /\
  (exists b, log_html s' = log_html s ++ b) /\
  (exists l, stdout s' = (stdout s ++ l)%list) /\
  (realtime_output (cfg s) = false -> html_file s' = html_file s) /\
  (realtime_output (cfg s) = false -> github_console (cfg s) = false -> stdout s' = stdout s) /\
  (out_of_section s = true -> out_of_section s' = true).

(** The section counters below the root number [n]: [n] followed by at
    least one counter, all positive. *)
Definition rooted_at (n : Z) (l : list Z) : Prop :=
  exists tl, l = n :: tl /\ tl <> [] /\ Forall (fun x => (1 <= x)%Z) tl.

End ViewsMore.

(** The logger calls a call to [read_environment_variable] makes when it
    returns: the section and the debug entry of its arguments, then either
    the info entry of a missing optional variable and the [section_end] of
    the nested [log], or the info and debug entries of a read value and
    [section_end]. *)
Module IoViews.
Import Logger Io.

Definition read_section_ops (name : string) (ty : typ) (required mask_value : bool) : list op :=
  [OpSection ("Read Environment Variable '" ++ name ++ "'") true "actionman.io.read_environment_variable";
   OpDebug ("Type: " ++ typ_name ty ++ ", Required: " ++ py_bool required
            ++ ", Mask Value: " ++ py_bool mask_value) "" ""].

Definition read_ops (env : string -> option string) (name : string) (ty : typ)
    (required mask_value : bool) : list op :=
  read_section_ops name ty required mask_value ++
  match env name with
  | None => [OpInfo ("Optional environment variable '" ++ name ++ "' is not set.") "" "";
             OpSectionEnd]
  | Some value =>
      [OpInfo ("Successfully read and cast environment variable '" ++ name ++ "' to '"
               ++ typ_repr ty ++ "'.") "" "";
       OpDebug "Value:" "" (if mask_value then "**REDACTED**" else value);
       OpSectionEnd]
  end.

(** The names of the [variables_data] of [read_environment_variables]. *)
Definition variable_names (vds : list (string * typ * bool * bool)) : list string :=
  map (fun vd : string * typ * bool * bool => fst (fst (fst vd))) vds.

(** Calls that neither open nor close a section. *)
Definition flat (o : op) : Prop :=
  match o with OpSection _ _ _ | OpSectionEnd => False | _ => True end.

End IoViews.

(** ** Concrete configurations, casts and environments *)

Module Concrete2.
Import Logger Io Concrete.

(** Realtime output and the GitHub console off. *)
Definition c_quiet : Config :=
  {| realtime_output := false; github_console := false; print_debug := false;
     output_html_filepath := None; default_exit_code := Some 1%Z;
     symbol_status := fun _ => "*"; style_status := fun _ => "[1m";
     symbol_caller := "@"; heading_pprint := fun _ t => nl ++ t |}.

(** Realtime output off, the GitHub console on. *)
Definition c_annot : Config :=
  {| realtime_output := false; github_console := true; print_debug := false;
     output_html_filepath := None; default_exit_code := Some 1%Z;
     symbol_status := fun _ => "*"; style_status := fun _ => "[1m";
     symbol_caller := "@"; heading_pprint := fun _ t => nl ++ t |}.

Definition quiet_state : Logger :=
  match @init M0 c_quiet 1 "Log" "Log" "" "prior" "__main__.main" with
  | Ret s => s | _ => fresh_state end.

Definition annot_state : Logger :=
  match @init M0 c_annot 1 "Log" "Log" "" "" "__main__.main" with
  | Ret s => s | _ => fresh_state end.

Definition run_state (s : Logger) (ops : list op) : Logger :=
  match @run M0 s ops with Ret s' => s' | _ => s end.

(** [ops_ex], then [critical("boom")], which ends the process, then a call
    that never runs. *)
Definition ops_exit : list op :=
  [OpSection "Build" true "k"; OpInfo "done" "" ""; OpSectionEnd;
   OpCritical "boom" "" "" None None no_traceback "k"; OpInfo "after" "" ""].

Definition end_state (s : Logger) (ops : list op) : Logger :=
  match @run_end M0 s ops with Ret s' => s' | _ => s end.

Definition ops_ex : list op :=
  [OpSection "Build" true "k"; OpInfo "done" "" ""; OpSectionEnd;
   OpSection "Test" false "k"; OpWarning "slow" "" ""].

(** [int] accepts "1" only; [float] and [json.loads] reject everything. *)
Definition CastsEx : Casts :=
  {| float_t := unit; json_t := unit;
     py_int := fun v => if String.eqb v "1" then inl 1%Z else inr ("Traceback" ++ nl);
     py_float := fun _ => inr ("Traceback" ++ nl);
     json_loads := fun _ => inr ("Traceback" ++ nl) |}.

Definition env_ex (n : string) : option string :=
  if String.eqb n "FLAG" then Some "True" else if String.eqb n "NUM" then Some "1" else None.
Definition env_a (n : string) : option string := if String.eqb n "TOKEN" then Some "abc" else None.
Definition env_b (n : string) : option string := if String.eqb n "TOKEN" then Some "xyz" else None.

Definition read_logger (env : string -> option string) (name : string) (ty : typ)
    (req mask : bool) (s : Logger) : option Logger :=
  match @read_environment_variable M0 CastsEx env name ty req mask (Some s) with
  | IoRet _ lg => lg | _ => None end.

End Concrete2.

(** * Facts about the strings the code builds *)

Module StrFacts.

Lemma app_assoc_s (a b c : string) : (a ++ b) ++ c = a ++ (b ++ c).
Proof. induction a as [|x a IH]; simpl; [reflexivity | now rewrite IH]. Qed.

Lemma app_nil_r_s (a : string) : a ++ "" = a.
Proof. induction a as [|x a IH]; simpl; [reflexivity | now rewrite IH]. Qed.

Lemma length_app_s (a b : string) : String.length (a ++ b) = (String.length a + String.length b)%nat.
Proof. induction a as [|x a IH]; simpl; [reflexivity | now rewrite IH]. Qed.

Lemma substring_len0 (n : nat) (s : string) : substring n 0 s = "".
Proof.
  revert s; induction n as [|n IH]; intros [|c s]; simpl; auto.
Qed.

Lemma substring_whole (s : string) : substring 0 (String.length s) s = s.
Proof. induction s as [|c s IH]; simpl; [reflexivity | now rewrite IH]. Qed.

Lemma substring_app_r (a b : string) (n m : nat) :
  substring (String.length a + n) m (a ++ b) = substring n m b.
Proof. induction a as [|c a IH]; simpl; auto. Qed.

Lemma substring_app_l (a b : string) : substring 0 (String.length a) (a ++ b) = a.
Proof. induction a as [|c a IH]; simpl; [destruct b; reflexivity | now rewrite IH]. Qed.

Lemma list_ascii_app (a b : string) :
  list_ascii_of_string (a ++ b) = (list_ascii_of_string a ++ list_ascii_of_string b)%list.
Proof. induction a as [|c a IH]; simpl; [reflexivity | now rewrite IH]. Qed.

Lemma list_ascii_inj (a b : string) : list_ascii_of_string a = list_ascii_of_string b -> a = b.
Proof.
  intros H. rewrite <- (string_of_list_ascii_of_string a), <- (string_of_list_ascii_of_string b).
  now rewrite H.
Qed.

Lemma length_list_ascii (a : string) : List.length (list_ascii_of_string a) = String.length a.
Proof. induction a as [|c a IH]; simpl; auto. Qed.

Lemma endswith_app (x suf : string) : endswith (x ++ suf) suf = true.
Proof.
  unfold endswith. rewrite length_app_s.
  replace (String.length x + String.length suf - String.length suf)%nat
    with (String.length x + 0)%nat by lia.
  rewrite substring_app_r, substring_whole, String.eqb_refl.
  apply andb_true_intro; split; [apply Nat.leb_le; lia | reflexivity].
Qed.

Lemma removesuffix_app (x suf : string) : suf <> "" -> removesuffix (x ++ suf) suf = x.
Proof.
  intros Hs. unfold removesuffix. rewrite endswith_app.
  destruct (String.eqb_spec suf "") as [E|_]; [contradiction|]. simpl.
  rewrite length_app_s.
  replace (String.length x + String.length suf - String.length suf)%nat with (String.length x) by lia.
  apply substring_app_l.
Qed.

(** Two suffixes of one string: the shorter is a suffix of the longer. *)
Lemma suffix_of_suffix (p q a b : string) :
  p ++ a = q ++ b -> (String.length a <= String.length b)%nat ->
  exists r, list_ascii_of_string b = (r ++ list_ascii_of_string a)%list.
Proof.
  intros E Hl. apply (f_equal list_ascii_of_string) in E.
  rewrite !list_ascii_app in E.
  apply app_eq_app in E as [l [[E1 E2] | [E1 E2]]].
  - exists l. exact E2.
  - exists []%list. destruct l as [|y l].
    + simpl in E2. now rewrite E2.
    + exfalso. apply (f_equal (@List.length ascii)) in E2.
      rewrite length_app, !length_list_ascii in E2. simpl in E2. lia.
Qed.

(** A string ending in [a] does not end in [b] when the last
    [String.length a] characters of [b] are not [a]. *)
Lemma not_both_suffixes (p q a b : string) :
  (String.length a <= String.length b)%nat ->
  skipn (String.length b - String.length a) (list_ascii_of_string b) <> list_ascii_of_string a ->
  p ++ a <> q ++ b.
Proof.
  intros Hl Hne E. destruct (suffix_of_suffix p q a b E Hl) as [r Hr].
  apply Hne. rewrite Hr.
  assert (List.length r = String.length b - String.length a)%nat as Hr'.
  { apply (f_equal (@List.length ascii)) in Hr.
    rewrite length_app, !length_list_ascii in Hr. lia. }
  rewrite <- Hr', skipn_app, Nat.sub_diag, skipn_all. reflexivity.
Qed.

Lemma contains_app_r (a b : string) : contains b a = true -> forall p, contains (p ++ b) a = true.
Proof.
  intros H p. induction p as [|c p IH]; simpl; [exact H|].
  rewrite IH. apply orb_true_r.
Qed.

Lemma prefix_app (a b : string) : prefix a (a ++ b) = true.
Proof.
  induction a as [|c a IH]; simpl; [destruct b; reflexivity|].
  destruct (ascii_dec c c) as [_|n]; [exact IH | now contradiction n].
Qed.

Lemma contains_prefix (s sub : string) : prefix sub s = true -> contains s sub = true.
Proof. intros H. destruct s; simpl in *; rewrite H; reflexivity. Qed.

Lemma contains_mid (p a q : string) : contains (p ++ a ++ q) a = true.
Proof. apply contains_app_r, contains_prefix, prefix_app. Qed.

End StrFacts.

(** * Facts about the logger *)

Module LoggerFacts.
Import Logger Views StrFacts.

Section Facts.
Context `{M : Markup}.

Lemma seek_end_write_app (x d : string) :
  seek_end_write (x ++ html_file_end) (String.length html_file_end) (d ++ html_file_end)
  = Ret (x ++ (d ++ html_file_end)).
Proof.
  unfold seek_end_write. rewrite !length_app_s.
  destruct (Nat.ltb_spec (String.length x + String.length html_file_end)
                         (String.length html_file_end)) as [Hl|_]; [lia|].
  replace (String.length x + String.length html_file_end - String.length html_file_end)%nat
    with (String.length x) by lia.
  rewrite substring_app_l.
  replace (String.length x + String.length html_file_end -
           (String.length x + (String.length d + String.length html_file_end)))%nat with 0%nat by lia.
  rewrite substring_len0, app_nil_r_s. reflexivity.
Qed.

Lemma submit_html_ret (s : Logger) (h : string) :
  file_inv s ->
  submit_html s h =
  Ret (set_html s (log_html s ++ (h ++ nl))
         (if realtime_output (cfg s) && has_html_path (cfg s)
          then log_html s ++ ((h ++ nl) ++ html_file_end) else html_file s)).
Proof.
  intros Hf. unfold submit_html.
  destruct (realtime_output (cfg s) && has_html_path (cfg s)) eqn:E; [|reflexivity].
  rewrite (Hf E), seek_end_write_app. reflexivity.
Qed.

Lemma file_inv_set_html (s : Logger) (h : string) :
  file_inv s ->
  file_inv (set_html s (log_html s ++ (h ++ nl))
              (if realtime_output (cfg s) && has_html_path (cfg s)
               then log_html s ++ ((h ++ nl) ++ html_file_end) else html_file s)).
Proof.
  intros _ E. unfold set_html in *. cbn [cfg log_html html_file] in *. rewrite E. symmetry; apply app_assoc_s.
Qed.

Lemma submit_console_fields (s : Logger) (t : string) (d : bool) :
  cfg (submit_console s t d) = cfg s /\
  curr_section (submit_console s t d) = curr_section s /\
  next_section_num (submit_console s t d) = next_section_num s /\
  open_grouped_sections (submit_console s t d) = open_grouped_sections s /\
  out_of_section (submit_console s t d) = out_of_section s /\
  log_html (submit_console s t d) = log_html s /\
  html_file (submit_console s t d) = html_file s /\
  log_console (submit_console s t d) = log_console s ++ t ++ nl /\
  stdout (submit_console s t d) =
    (stdout s ++ (if realtime_output (cfg s) &&
                     (negb d || github_console (cfg s) || print_debug (cfg s))
                  then [t] else []))%list.
Proof.
  unfold submit_console.
  destruct (realtime_output (cfg s) && (negb d || github_console (cfg s) || print_debug (cfg s)));
    simpl; repeat split; auto using app_nil_r.
Qed.

Lemma file_inv_submit_console (s : Logger) (t : string) (d : bool) :
  file_inv s -> file_inv (submit_console s t d).
Proof.
  destruct (submit_console_fields s t d) as (Hc & _ & _ & _ & _ & Hh & Hf & _).
  unfold file_inv. now rewrite Hc, Hh, Hf.
Qed.

Lemma submit_ret (s : Logger) (c h : string) (d : bool) :
  file_inv s ->
  submit s c h d =
  Ret (set_html (submit_console s c d) (log_html s ++ (h ++ nl))
         (if realtime_output (cfg s) && has_html_path (cfg s)
          then log_html s ++ ((h ++ nl) ++ html_file_end) else html_file s)).
Proof.
  intros Hf. unfold submit.
  destruct (submit_console_fields s c d) as (Hc & _ & _ & _ & _ & Hh & Hfl & _).
  rewrite submit_html_ret by now apply file_inv_submit_console.
  now rewrite Hc, Hh, Hfl.
Qed.

Lemma file_inv_submit (s : Logger) (c h : string) (d : bool) :
  file_inv s ->
  file_inv (set_html (submit_console s c d) (log_html s ++ (h ++ nl))
         (if realtime_output (cfg s) && has_html_path (cfg s)
          then log_html s ++ ((h ++ nl) ++ html_file_end) else html_file s)).
Proof.
  intros _ E. unfold set_html in *. cbn [cfg log_html html_file] in *.
  destruct (submit_console_fields s c d) as (Hc & _).
  rewrite Hc in E. rewrite E. symmetry; apply app_assoc_s.
Qed.

(** What [section] does, field by field. *)
Lemma section_spec (s : Logger) (t : string) (g : bool) (k : string) :
  file_inv s ->
  exists s', section s t g k = Ret s' /\
    cfg s' = cfg s /\
    curr_section s' = section_title s t /\
    next_section_num s' = (next_section_num s ++ [1%Z])%list /\
    open_grouped_sections s' =
      (if github_console (cfg s) && (g || truthy_Z (open_grouped_sections s))
       then open_grouped_sections s + 1 else open_grouped_sections s)%Z /\
    out_of_section s' = out_of_section s /\
    log_console s' = log_console s ++
      (if github_console (cfg s) && g && negb (truthy_Z (open_grouped_sections s))
       then Pprint.github_group_start (section_console s t k) else section_console s t k) ++ nl /\
    log_html s' = log_html s ++ (section_html s t k ++ nl) /\
    file_inv s'.
Proof.
  intros Hf.
  set (s1 := set_section s (section_title s t) (next_section_num s)
               (if github_console (cfg s) && (g || truthy_Z (open_grouped_sections s))
                then open_grouped_sections s + 1 else open_grouped_sections s)%Z
               (out_of_section s)).
  assert (Hf1 : file_inv s1) by exact Hf.
  set (oc := if github_console (cfg s) && g && negb (truthy_Z (open_grouped_sections s))
             then Pprint.github_group_start (section_console s t k) else section_console s t k).
  assert (E : section s t g k =
     (s2 <- submit s1 oc (section_html s t k) false ;;
      Ret (set_section s2 (curr_section s2) (next_section_num s2 ++ [1%Z])%list
                       (open_grouped_sections s2) (out_of_section s2)))).
  { unfold section, s1, oc, section_title, section_console, section_html, section_level.
    destruct (github_console (cfg s)); reflexivity. }
  rewrite E, submit_ret by exact Hf1. cbn [bind].
  destruct (submit_console_fields s1 oc false) as (Hc & Hcur & Hn & Ho & Hoos & Hh & Hfl & Hlc & _).
  eexists; split; [reflexivity|].
  unfold set_section, set_html; cbn [cfg curr_section next_section_num open_grouped_sections
                                     out_of_section log_console log_html html_file].
  rewrite Hc, Hcur, Hn, Ho, Hoos, Hlc.
  subst s1; cbn [cfg curr_section next_section_num open_grouped_sections out_of_section
                 log_console log_html html_file set_section].
  repeat split; try reflexivity.
  all: try (destruct (github_console (cfg s)), g, (truthy_Z (open_grouped_sections s)); reflexivity).
  intros Er. cbn [cfg log_html html_file] in Er |- *. rewrite Er. symmetry; apply app_assoc_s.
Qed.

Lemma incr_last_app (r : list Z) (a : Z) : incr_last (r ++ [a])%list = Ret (r ++ [(a + 1)%Z])%list.
Proof. unfold incr_last. rewrite rev_app_distr. simpl. now rewrite rev_involutive. Qed.

(** What [section_end] does, field by field: the group counter, the end
    marker, and the counters (pop when more than two remain, then increment
    the last one). *)
Lemma section_end_spec (s : Logger) :
  (2 <= List.length (next_section_num s))%nat ->
  exists r a s',
    (if (2 <? List.length (next_section_num s))%nat
     then removelast (next_section_num s) else next_section_num s) = (r ++ [a])%list /\
    section_end s = Ret s' /\
    cfg s' = cfg s /\
    curr_section s' = curr_section s /\
    next_section_num s' = (r ++ [(a + 1)%Z])%list /\
    open_grouped_sections s' =
      (if truthy_Z (open_grouped_sections s) then open_grouped_sections s - 1
       else open_grouped_sections s)%Z /\
    out_of_section s' = true /\
    log_console s' = log_console s ++
      (if truthy_Z (open_grouped_sections s) && negb (truthy_Z (open_grouped_sections s - 1))
       then Pprint.github_group_end ++ nl else "") /\
    log_html s' = log_html s /\
    html_file s' = html_file s.
Proof.
  intros Hl.
  set (l := if (2 <? List.length (next_section_num s))%nat
            then removelast (next_section_num s) else next_section_num s).
  assert (Hne : l <> []).
  { subst l. destruct (Nat.ltb_spec 2 (List.length (next_section_num s))) as [H|H].
    - intros E. apply (f_equal (@List.length Z)) in E.
      destruct (exists_last (l := next_section_num s)) as [r [a Ea]].
      { intros E'. rewrite E' in H. simpl in H. lia. }
      rewrite Ea, removelast_last in E. rewrite Ea, length_app in H. simpl in *. lia.
    - intros E. rewrite E in Hl. simpl in Hl. lia. }
  destruct (exists_last Hne) as [r [a Ea]].
  exists r, a. enough (exists s', section_end s = Ret s' /\ cfg s' = cfg s /\
    curr_section s' = curr_section s /\ next_section_num s' = (r ++ [(a + 1)%Z])%list /\
    open_grouped_sections s' =
      (if truthy_Z (open_grouped_sections s) then open_grouped_sections s - 1
       else open_grouped_sections s)%Z /\
    out_of_section s' = true /\
    log_console s' = log_console s ++
      (if truthy_Z (open_grouped_sections s) && negb (truthy_Z (open_grouped_sections s - 1))
       then Pprint.github_group_end ++ nl else "") /\
    log_html s' = log_html s /\ html_file s' = html_file s) as (s' & H).
  { exists s'. split; [exact Ea | exact H]. }
  unfold section_end.
  destruct (truthy_Z (open_grouped_sections s)) eqn:Ho.
  - destruct (negb (truthy_Z (open_grouped_sections s - 1))) eqn:Hz.
    + set (s1 := set_section s (curr_section s) (next_section_num s)
                   (open_grouped_sections s - 1) (out_of_section s)).
      destruct (submit_console_fields s1 Pprint.github_group_end false)
        as (Hc & Hcur & Hn & Hog & Hoos & Hh & Hfl & Hlc & _).
      rewrite Hn. change (next_section_num s1) with (next_section_num s). fold l.
      rewrite Ea, incr_last_app. cbn [bind].
      eexists; split; [reflexivity|].
      unfold set_section; cbn [cfg curr_section next_section_num open_grouped_sections
                               out_of_section log_console log_html html_file].
      rewrite Hc, Hcur, Hog, Hlc, Hh, Hfl. subst s1. simpl. repeat split; reflexivity.
    + cbn [negb set_section next_section_num]. fold l. rewrite Ea, incr_last_app. cbn [bind].
      eexists; split; [reflexivity|].
      simpl. rewrite app_nil_r_s. repeat split; reflexivity.
  - fold l. rewrite Ea, incr_last_app. cbn [bind].
    eexists; split; [reflexivity|].
    simpl. rewrite app_nil_r_s. repeat split; reflexivity.
Qed.

Lemma file_inv_same (s s' : Logger) :
  cfg s' = cfg s -> log_html s' = log_html s -> html_file s' = html_file s ->
  file_inv s -> file_inv s'.
Proof. unfold file_inv. intros -> -> -> H. exact H. Qed.

(** What [_submit] does, field by field. *)
Lemma submit_spec (s : Logger) (c h : string) (d : bool) :
  file_inv s ->
  exists s', submit s c h d = Ret s' /\
    cfg s' = cfg s /\ curr_section s' = curr_section s /\
    next_section_num s' = next_section_num s /\
    open_grouped_sections s' = open_grouped_sections s /\
    out_of_section s' = out_of_section s /\
    log_console s' = log_console s ++ c ++ nl /\
    stdout s' = (stdout s ++ (if realtime_output (cfg s) &&
                     (negb d || github_console (cfg s) || print_debug (cfg s))
                  then [c] else []))%list /\
    log_html s' = log_html s ++ (h ++ nl) /\
    file_inv s'.
Proof.
  intros Hf. rewrite submit_ret by exact Hf.
  destruct (submit_console_fields s c d) as (Hc & Hcur & Hn & Ho & Hoos & _ & _ & Hlc & Hso).
  eexists; split; [reflexivity|].
  unfold set_html; cbn [cfg curr_section next_section_num open_grouped_sections
                        out_of_section log_console stdout log_html html_file].
  rewrite Hc, Hcur, Hn, Ho, Hoos, Hlc, Hso.
  repeat split; try reflexivity.
  eapply file_inv_same; [| | | exact (file_inv_submit s c h d Hf)]; cbn [set_html cfg log_html html_file]; [symmetry; exact Hc | reflexivity | reflexivity].
Qed.

Lemma debug_eq (s : Logger) (m t c : string) :
  debug s m t c =
  submit s (if github_console (cfg s)
            then Pprint.github_log Pprint.debug (fst (fst (format_entry (cfg s) DEBUG m t c)))
                   "" "" 0 0 0 0
            else fst (fst (format_entry (cfg s) DEBUG m t c)))
         (snd (fst (format_entry (cfg s) DEBUG m t c))) true.
Proof. unfold debug. destruct (format_entry (cfg s) DEBUG m t c) as [[oc oh] ann]. reflexivity. Qed.

Lemma info_eq (s : Logger) (m t c : string) :
  info s m t c =
  submit s (fst (fst (format_entry (cfg s) INFO m t c)))
         (snd (fst (format_entry (cfg s) INFO m t c))) false.
Proof. unfold info. destruct (format_entry (cfg s) INFO m t c) as [[oc oh] ann]. reflexivity. Qed.

Lemma annotated_eq (lv : LogLevel) (mt : Pprint.message_type) (s : Logger) (m t c : string) :
  annotated lv mt s m t c =
  (s' <- submit s (fst (fst (format_entry (cfg s) lv m t c)))
                  (snd (fst (format_entry (cfg s) lv m t c))) false ;;
   Ret (if github_console (cfg s')
        then print s' (Pprint.github_log mt (snd (format_entry (cfg s) lv m t c))
                         (curr_section s') "" 0 0 0 0)
        else s')).
Proof. unfold annotated. destruct (format_entry (cfg s) lv m t c) as [[oc oh] ann]. reflexivity. Qed.

(** The code block [critical] formats: the traceback of the exception
    being handled, if any, is appended and the result stripped. *)
Lemma critical_eq (s : Logger) (m t c : string) se ec tb k :
  critical s m t c se ec tb k =
  let code := if negb (String.eqb tb ("NoneType: None" ++ nl))
              then strip (c ++ nl ++ nl ++ tb) else c in
  let fe := format_entry (cfg s) CRITICAL m t code in
  s <- submit s (fst (fst fe)) (snd (fst fe)) false ;;
  let sys_exit := match se with
                  | None => match default_exit_code (cfg s) with Some _ => true | None => false end
                  | Some b => b
                  end in
  let s := if sys_exit && truthy_Z (open_grouped_sections s)
           then submit_console s Pprint.github_group_end false else s in
  let s := if github_console (cfg s)
           then print s (Pprint.github_log Pprint.error (snd fe)
                           ("FATAL ERROR: " ++ curr_section s ++ " (caller: " ++ k ++ ")")
                           "" 0 0 0 0)
           else s in
  if sys_exit then Exit (or_exit_code ec (default_exit_code (cfg s))) else Ret s.
Proof.
  unfold critical, critical_body. cbv zeta.
  destruct (format_entry (cfg s) CRITICAL m t
              (if negb (String.eqb tb ("NoneType: None" ++ nl))
               then strip (c ++ nl ++ nl ++ tb) else c)) as [[oc oh] ann].
  cbn [fst snd]. destruct (submit s oc oh false); reflexivity.
Qed.

(** What [notice], [warning] and [error] do, field by field. *)
Lemma annotated_spec (lv : LogLevel) (mt : Pprint.message_type) (s : Logger) (m t c : string) :
  file_inv s ->
  exists s', annotated lv mt s m t c = Ret s' /\
    cfg s' = cfg s /\ curr_section s' = curr_section s /\
    next_section_num s' = next_section_num s /\
    open_grouped_sections s' = open_grouped_sections s /\
    out_of_section s' = out_of_section s /\
    log_console s' = log_console s ++ fst (fst (format_entry (cfg s) lv m t c)) ++ nl /\
    stdout s' = (stdout s
                 ++ (if realtime_output (cfg s) &&
                        (negb false || github_console (cfg s) || print_debug (cfg s))
                     then [fst (fst (format_entry (cfg s) lv m t c))] else [])
                 ++ (if github_console (cfg s)
                     then [Pprint.github_log mt (snd (format_entry (cfg s) lv m t c))
                             (curr_section s) "" 0 0 0 0] else []))%list /\
    log_html s' = log_html s ++ (snd (fst (format_entry (cfg s) lv m t c)) ++ nl) /\
    file_inv s'.
Proof.
  intros Hf. rewrite annotated_eq.
  destruct (submit_spec s (fst (fst (format_entry (cfg s) lv m t c)))
              (snd (fst (format_entry (cfg s) lv m t c))) false Hf)
    as (s1 & E & Hc & Hcur & Hn & Ho & Hoos & Hlc & Hso & Hh & Hf1).
  rewrite E. cbn [bind]. rewrite Hc, Hcur.
  destruct (github_console (cfg s)) eqn:Hg.
  - eexists; split; [reflexivity|].
    cbn [print set_console cfg curr_section next_section_num open_grouped_sections
         out_of_section log_console stdout log_html html_file].
    rewrite Hc, Hcur, Hn, Ho, Hoos, Hlc, Hso, Hh, <- app_assoc.
    repeat split; try reflexivity.
    eapply file_inv_same; [| | | exact Hf1]; reflexivity.
  - eexists; split; [reflexivity|].
    rewrite Hc, Hcur, Hn, Ho, Hoos, Hlc, Hso, Hh, app_nil_r.
    repeat split; try reflexivity. exact Hf1.
Qed.

(** What [critical] does: with exit resolved to true, [sys.exit] with
    [exit_code or default]; otherwise a return, field by field. *)
Lemma critical_spec (s : Logger) (m t c : string) se ec tb k :
  file_inv s ->
  (resolved_sys_exit (cfg s) se = true ->
   critical s m t c se ec tb k = Exit (or_exit_code ec (default_exit_code (cfg s)))) /\
  (resolved_sys_exit (cfg s) se = false ->
   exists s', critical s m t c se ec tb k = Ret s' /\
    cfg s' = cfg s /\ curr_section s' = curr_section s /\
    next_section_num s' = next_section_num s /\
    open_grouped_sections s' = open_grouped_sections s /\
    out_of_section s' = out_of_section s /\
    log_console s' = log_console s
                     ++ fst (fst (format_entry (cfg s) CRITICAL m t (critical_code c tb))) ++ nl /\
    stdout s' = (stdout s
                 ++ (if realtime_output (cfg s) &&
                        (negb false || github_console (cfg s) || print_debug (cfg s))
                     then [fst (fst (format_entry (cfg s) CRITICAL m t (critical_code c tb)))]
                     else [])
                 ++ (if github_console (cfg s)
                     then [Pprint.github_log Pprint.error
                             (snd (format_entry (cfg s) CRITICAL m t (critical_code c tb)))
                             ("FATAL ERROR: " ++ curr_section s ++ " (caller: " ++ k ++ ")")
                             "" 0 0 0 0] else []))%list /\
    log_html s' = log_html s
                  ++ (snd (fst (format_entry (cfg s) CRITICAL m t (critical_code c tb))) ++ nl) /\
    file_inv s').
Proof.
  intros Hf. rewrite critical_eq. fold (critical_code c tb). cbv zeta.
  set (fe := format_entry (cfg s) CRITICAL m t (critical_code c tb)).
  destruct (submit_spec s (fst (fst fe)) (snd (fst fe)) false Hf)
    as (s1 & E & Hc & Hcur & Hn & Ho & Hoos & Hlc & Hso & Hh & Hf1).
  rewrite E. cbn [bind].
  unfold resolved_sys_exit. rewrite Hc.
  destruct (match se with
            | Some b => b
            | None => match default_exit_code (cfg s) with Some _ => true | None => false end
            end) eqn:Hse.
  - split; [|discriminate]. intros _.
    destruct (truthy_Z (open_grouped_sections s1)); cbn [andb];
      [destruct (submit_console_fields s1 Pprint.github_group_end false) as (Hc2 & _); rewrite Hc2|];
      destruct (github_console (cfg s1)); cbn [print set_console cfg]; rewrite ?Hc2, Hc; reflexivity.
  - split; [discriminate|]. intros _. cbn [andb]. rewrite Hc, Hcur.
    destruct (github_console (cfg s)) eqn:Hg.
    + eexists; split; [reflexivity|].
      cbn [print set_console cfg curr_section next_section_num open_grouped_sections
           out_of_section log_console stdout log_html html_file].
      rewrite Hc, Hcur, Hn, Ho, Hoos, Hlc, Hso, Hh, <- app_assoc.
      repeat split; try reflexivity.
      eapply file_inv_same; [| | | exact Hf1]; reflexivity.
    + eexists; split; [reflexivity|].
      rewrite Hc, Hcur, Hn, Ho, Hoos, Hlc, Hso, Hh, app_nil_r.
      repeat split; try reflexivity. exact Hf1.
Qed.

Lemma critical_body_eq (s : Logger) (m t c : string) se tb k :
  critical_body s m t c se tb k =
  let fe := format_entry (cfg s) CRITICAL m t (critical_code c tb) in
  s <- submit s (fst (fst fe)) (snd (fst fe)) false ;;
  let sys_exit := resolved_sys_exit (cfg s) se in
  let s := if sys_exit && truthy_Z (open_grouped_sections s)
           then submit_console s Pprint.github_group_end false else s in
  let s := if github_console (cfg s)
           then print s (Pprint.github_log Pprint.error (snd fe)
                           ("FATAL ERROR: " ++ curr_section s ++ " (caller: " ++ k ++ ")")
                           "" 0 0 0 0)
           else s in
  Ret (s, sys_exit).
Proof.
  unfold critical_body, critical_code, resolved_sys_exit. cbv zeta.
  destruct (format_entry (cfg s) CRITICAL m t
              (if negb (String.eqb tb ("NoneType: None" ++ nl))
               then strip (c ++ nl ++ nl ++ tb) else c)) as [[oc oh] ann].
  reflexivity.
Qed.

(** The writes of [critical] before [sys.exit] keep the file invariant and
    append the entry to the document. *)
Lemma critical_body_spec (s : Logger) (m t c : string) se tb k :
  file_inv s ->
  exists s', critical_body s m t c se tb k = Ret (s', resolved_sys_exit (cfg s) se) /\
    cfg s' = cfg s /\
    log_html s' = log_html s
                  ++ (snd (fst (format_entry (cfg s) CRITICAL m t (critical_code c tb))) ++ nl) /\
    file_inv s'.
Proof.
  intros Hf. rewrite critical_body_eq. cbv zeta.
  set (fe := format_entry (cfg s) CRITICAL m t (critical_code c tb)).
  destruct (submit_spec s (fst (fst fe)) (snd (fst fe)) false Hf)
    as (s1 & E & Hc & _ & _ & _ & _ & _ & _ & Hh & Hf1).
  rewrite E. cbn [bind]. rewrite Hc.
  eexists; split; [reflexivity|].
  assert (K : forall y, cfg y = cfg s1 -> log_html y = log_html s1 -> html_file y = html_file s1 ->
            cfg y = cfg s /\ log_html y = log_html s ++ (snd (fst fe) ++ nl) /\ file_inv y).
  { intros y Hy1 Hy2 Hy3. rewrite Hy1, Hy2. split; [exact Hc|]. split; [exact Hh|].
    exact (file_inv_same s1 y Hy1 Hy2 Hy3 Hf1). }
  destruct (submit_console_fields s1 Pprint.github_group_end false)
    as (Hc2 & _ & _ & _ & _ & Hh2 & Hf2 & _).
  apply K;
    (destruct (resolved_sys_exit (cfg s) se && truthy_Z (open_grouped_sections s1));
     [destruct (github_console (cfg (submit_console s1 Pprint.github_group_end false)))
     | destruct (github_console (cfg s1))];
     cbn [print set_console cfg log_html html_file]; rewrite ?Hc2, ?Hh2, ?Hf2; reflexivity).
Qed.

Lemma length_pop_ge2 (l : list Z) :
  (2 <= List.length l)%nat ->
  (2 <= List.length (if (2 <? List.length l)%nat then removelast l else l))%nat.
Proof.
  intros H. destruct (Nat.ltb_spec 2 (List.length l)) as [H'|H']; [|exact H].
  destruct (exists_last (l := l)) as [r [a ->]].
  { intros ->. simpl in H. lia. }
  rewrite removelast_last. rewrite length_app in H'. simpl in H'. lia.
Qed.

Lemma section_html_ends (s : Logger) (t k : string) :
  exists p, section_html s t k ++ nl = p ++ "</code>" ++ nl.
Proof.
  exists (html_h (section_level s) (section_title s t) ++ nl ++ symbol_caller (cfg s)
          ++ " Caller: <code>" ++ k).
  unfold section_html. rewrite !app_assoc_s. reflexivity.
Qed.

(** The invariant is established by [__init__]. *)
Lemma init_spec c n rh ht hs pf k s :
  init c n rh ht hs pf k = Ret s ->
  (forall d, default_exit_code c = Some d -> (0 < d)%Z) /\
  cfg s = c /\ next_section_num s = [n; 1%Z] /\ open_grouped_sections s = 0%Z /\
  curr_section s = str_Z n ++ "  " ++ rh /\ Inv s /\
  exists p, log_html s = p ++ "</code>" ++ nl.
Proof.
  unfold init. intros E.
  assert (Hv : forall d, default_exit_code c = Some d -> (0 < d)%Z).
  { intros d Hd. rewrite Hd in E. destruct (Z.leb_spec d 0); [discriminate | lia]. }
  assert (E' : section (mkLogger c "" [n] 0 false ""
              ((if truthy_s hs
                then lstrip (dedent (html_intro_raw ht)) ++ "<style>" ++ nl ++ hs ++ nl ++ "</style>" ++ nl
                else lstrip (dedent (html_intro_raw ht))) ++ "</head>" ++ nl ++ "<body>" ++ nl)
              []
              (if realtime_output c && has_html_path c
               then ((if truthy_s hs
                      then lstrip (dedent (html_intro_raw ht)) ++ "<style>" ++ nl ++ hs ++ nl
                           ++ "</style>" ++ nl
                      else lstrip (dedent (html_intro_raw ht))) ++ "</head>" ++ nl ++ "<body>" ++ nl)
                    ++ html_file_end
               else pf)) rh false k = Ret s).
  { destruct (default_exit_code c) as [d|]; [|exact E].
    destruct (d <=? 0)%Z; [discriminate | exact E]. }
  clear E. split; [exact Hv|].
  match type of E' with section ?x _ _ _ = _ => set (s0 := x) in E' end.
  assert (Hf0 : file_inv s0).
  { intros H. subst s0. cbn [cfg html_file log_html] in *. rewrite H. reflexivity. }
  destruct (section_spec s0 rh false k Hf0)
    as (s1 & E1 & Hc & Hcur & Hn & Ho & _ & _ & Hh & Hf1).
  rewrite E1 in E'. injection E' as <-.
  assert (Hend : exists p, log_html s1 = p ++ "</code>" ++ nl).
  { rewrite Hh. destruct (section_html_ends s0 rh k) as [p Hp].
    exists (log_html s0 ++ p). rewrite Hp, app_assoc_s. reflexivity. }
  rewrite Hc, Hcur, Hn, Ho. subst s0.
  cbn [cfg next_section_num open_grouped_sections] in *.
  repeat split; try reflexivity; try exact Hf1; try lia.
  - destruct (github_console c); reflexivity.
  - rewrite Hn. simpl. lia.
  - rewrite Ho. destruct (github_console c); simpl; lia.
  - exact Hend.
Qed.

(** The invariant is kept by every call that returns. *)
Lemma step_inv (s : Logger) (o : op) (s' : Logger) :
  Inv s -> step s o = Ret s' -> Inv s'.
Proof.
  intros (Hf & Hl & Ho) E. destruct o; cbn [step] in E.
  - destruct (section_spec s title group caller Hf)
      as (s1 & E1 & _ & _ & Hn & Ho1 & _ & _ & _ & Hf1).
    rewrite E1 in E. injection E as <-.
    split; [exact Hf1|]. rewrite Hn, Ho1, length_app. simpl.
    split; [lia|]. destruct (_ && _); lia.
  - destruct (section_end_spec s Hl)
      as (r & a & s1 & Hra & E1 & Hc & _ & Hn & Ho1 & _ & _ & Hh & Hfl).
    rewrite E1 in E. injection E as <-.
    split; [eapply file_inv_same; eauto|].
    split.
    + rewrite Hn. pose proof (length_pop_ge2 _ Hl) as H2. rewrite Hra in H2.
      rewrite length_app in *. simpl in *. lia.
    + rewrite Ho1. unfold truthy_Z. destruct (Z.eqb_spec (open_grouped_sections s) 0); simpl; lia.
  - rewrite debug_eq in E.
    edestruct submit_spec as (s1 & E1 & _ & _ & Hn & Ho1 & _ & _ & _ & _ & Hf1); [exact Hf|].
    rewrite E1 in E. injection E as <-. split; [exact Hf1|]. rewrite Hn, Ho1. split; assumption.
  - rewrite info_eq in E.
    edestruct submit_spec as (s1 & E1 & _ & _ & Hn & Ho1 & _ & _ & _ & _ & Hf1); [exact Hf|].
    rewrite E1 in E. injection E as <-. split; [exact Hf1|]. rewrite Hn, Ho1. split; assumption.
  - edestruct annotated_spec as (s1 & E1 & _ & _ & Hn & Ho1 & _ & _ & _ & _ & Hf1); [exact Hf|].
    unfold notice in E. rewrite E1 in E. injection E as <-. split; [exact Hf1|]. rewrite Hn, Ho1. split; assumption.
  - edestruct annotated_spec as (s1 & E1 & _ & _ & Hn & Ho1 & _ & _ & _ & _ & Hf1); [exact Hf|].
    unfold warning in E. rewrite E1 in E. injection E as <-. split; [exact Hf1|]. rewrite Hn, Ho1. split; assumption.
  - edestruct annotated_spec as (s1 & E1 & _ & _ & Hn & Ho1 & _ & _ & _ & _ & Hf1); [exact Hf|].
    unfold error in E. rewrite E1 in E. injection E as <-. split; [exact Hf1|]. rewrite Hn, Ho1. split; assumption.
  - destruct (critical_spec s message title code sys_exit exit_code traceback caller Hf) as [Hx Hr].
    destruct (resolved_sys_exit (cfg s) sys_exit) eqn:Hse.
    + rewrite (Hx eq_refl) in E. discriminate.
    + destruct (Hr eq_refl) as (s1 & E1 & _ & _ & Hn & Ho1 & _ & _ & _ & _ & Hf1).
      rewrite E1 in E. injection E as <-. split; [exact Hf1|]. rewrite Hn, Ho1. split; assumption.
Qed.

Lemma reachable_inv (s : Logger) : reachable s -> Inv s.
Proof.
  induction 1 as [c n rh ht hs pf k s E | s o s' _ IH E].
  - apply (init_spec _ _ _ _ _ _ _ _ E).
  - exact (step_inv s o s' IH E).
Qed.

Lemma run_app (s : Logger) (l1 l2 : list op) :
  run s (l1 ++ l2)%list = (s' <- run s l1 ;; run s' l2).
Proof.
  revert s; induction l1 as [|o l1 IH]; intros s; simpl; [reflexivity|].
  destruct (step s o); simpl; auto.
Qed.

Lemma run_reachable (s : Logger) (ops : list op) (s' : Logger) :
  reachable s -> run s ops = Ret s' -> reachable s'.
Proof.
  revert s; induction ops as [|o ops IH]; intros s Hr E; simpl in E.
  - injection E as <-. exact Hr.
  - destruct (step s o) as [s1| |] eqn:E1; try discriminate.
    apply (IH s1); [exact (reachable_step s o s1 Hr E1) | exact E].
Qed.

(** How each call changes the number of section counters. *)
Lemma step_next_length (s : Logger) (o : op) (s' : Logger) :
  Inv s -> step s o = Ret s' ->
  List.length (next_section_num s') =
  match o with
  | OpSection _ _ _ => S (List.length (next_section_num s))
  | OpSectionEnd => if (2 <? List.length (next_section_num s))%nat
                    then Nat.pred (List.length (next_section_num s))
                    else List.length (next_section_num s)
  | _ => List.length (next_section_num s)
  end.
Proof.
  intros (Hf & Hl & Ho) E. destruct o; cbn [step] in E.
  - destruct (section_spec s title group caller Hf) as (s1 & E1 & _ & _ & Hn & _).
    rewrite E1 in E. injection E as <-. rewrite Hn, length_app. simpl. lia.
  - destruct (section_end_spec s Hl) as (r & a & s1 & Hra & E1 & _ & _ & Hn & _).
    rewrite E1 in E. injection E as <-. rewrite Hn.
    apply (f_equal (@List.length Z)) in Hra. rewrite !length_app in *. simpl in *.
    rewrite <- Hra.
    destruct (Nat.ltb_spec 2 (List.length (next_section_num s))) as [H|H]; [|reflexivity].
    destruct (exists_last (l := next_section_num s)) as [r' [a' Ea]].
    { intros E'. rewrite E' in H. simpl in H. lia. }
    rewrite Ea, removelast_last, length_app. simpl. lia.
  - rewrite debug_eq in E. edestruct submit_spec as (s1 & E1 & _ & _ & Hn & _); [exact Hf|].
    rewrite E1 in E. injection E as <-. now rewrite Hn.
  - rewrite info_eq in E. edestruct submit_spec as (s1 & E1 & _ & _ & Hn & _); [exact Hf|].
    rewrite E1 in E. injection E as <-. now rewrite Hn.
  - edestruct annotated_spec as (s1 & E1 & _ & _ & Hn & _); [exact Hf|].
    unfold notice in E. rewrite E1 in E. injection E as <-. now rewrite Hn.
  - edestruct annotated_spec as (s1 & E1 & _ & _ & Hn & _); [exact Hf|].
    unfold warning in E. rewrite E1 in E. injection E as <-. now rewrite Hn.
  - edestruct annotated_spec as (s1 & E1 & _ & _ & Hn & _); [exact Hf|].
    unfold error in E. rewrite E1 in E. injection E as <-. now rewrite Hn.
  - destruct (critical_spec s message title code sys_exit exit_code traceback caller Hf) as [Hx Hr].
    destruct (resolved_sys_exit (cfg s) sys_exit) eqn:Hse.
    + rewrite (Hx eq_refl) in E. discriminate.
    + destruct (Hr eq_refl) as (s1 & E1 & _ & _ & Hn & _).
      rewrite E1 in E. injection E as <-. now rewrite Hn.
Qed.

(** The counters number one more than the open user sections. *)
Lemma run_depth (s : Logger) (ops : list op) (s' : Logger) (d : nat) :
  reachable s -> List.length (next_section_num s) = (2 + d)%nat -> run s ops = Ret s' ->
  List.length (next_section_num s') = (2 + open_sections ops d)%nat.
Proof.
  revert s d; induction ops as [|o ops IH]; intros s d Hr Hl E; simpl in E.
  - injection E as <-. exact Hl.
  - destruct (step s o) as [s1| |] eqn:E1; try discriminate.
    pose proof (step_next_length s o s1 (reachable_inv s Hr) E1) as Hn.
    pose proof (reachable_step s o s1 Hr E1) as Hr1.
    destruct o; cbn [open_sections]; apply (IH s1); auto; rewrite Hn, ?Hl; try reflexivity.
    destruct d; simpl; reflexivity.
Qed.

(** [n] group sections opened from group depth [d]. *)
Lemma run_group_opens (items : list (string * string)) (s : Logger) (d : Z) :
  reachable s -> github_console (cfg s) = true -> open_grouped_sections s = d -> (0 <= d)%Z ->
  exists hs s', run s (group_opens items) = Ret s' /\
    List.length hs = List.length items /\
    Forall2 (fun h it => exists si, reachable si /\ h = section_console si (fst it) (snd it)) hs items /\
    log_console s' = log_console s ++ (if Z.eqb d 0 then group_block hs else lines hs) /\
    open_grouped_sections s' = (d + Z.of_nat (List.length items))%Z /\
    cfg s' = cfg s /\ reachable s'.
Proof.
  revert s d; induction items as [|[t k] items IH]; intros s d Hr Hg Ho Hd.
  - exists [], s. split; [reflexivity|]. split; [reflexivity|]. split; [constructor|].
    split; [destruct (Z.eqb d 0); cbn [group_block lines]; now rewrite app_nil_r_s|].
    split; [simpl; lia|]. split; [reflexivity | exact Hr].
  - destruct (reachable_inv s Hr) as (Hf & _ & _).
    destruct (section_spec s t true k Hf)
      as (s1 & E1 & Hc & _ & _ & Ho1 & _ & Hlc & _ & _).
    pose proof (reachable_step s (OpSection t true k) s1 Hr E1) as Hr1.
    rewrite Hg, Ho in Ho1. cbn [andb orb] in Ho1.
    destruct (IH s1 (d + 1)%Z Hr1 ltac:(now rewrite Hc) Ho1 ltac:(lia))
      as (hs & s2 & E2 & Hlen & HF & Hlc2 & Ho2 & Hc2 & Hr2).
    exists (section_console s t k :: hs), s2.
    cbn [group_opens map run step fst snd] in *. fold (group_opens items) in *.
    rewrite E1. cbn [bind]. rewrite E2.
    split; [reflexivity|]. split; [simpl; lia|]. split.
    { constructor; [exists s; split; [exact Hr | reflexivity] | exact HF]. }
    split; [|split; [rewrite Ho2; cbn [List.length]; rewrite Nat2Z.inj_succ; lia | split; [congruence | exact Hr2]]].
    rewrite Hlc2, Hlc, Hg, Ho. cbn [andb].
    replace (Z.eqb (d + 1) 0) with false by (symmetry; apply Z.eqb_neq; lia).
    unfold truthy_Z. destruct (Z.eqb_spec d 0) as [->|Hd0]; cbn [negb group_block lines];
      rewrite !app_assoc_s; reflexivity.
Qed.

(** [m + 1] section ends from group depth [m + 1]. *)
Lemma run_group_closes (m : nat) (s : Logger) :
  reachable s -> open_grouped_sections s = Z.of_nat (S m) ->
  exists s', run s (repeat OpSectionEnd (S m)) = Ret s' /\
    log_console s' = log_console s ++ Pprint.github_group_end ++ nl /\
    open_grouped_sections s' = 0%Z /\ reachable s'.
Proof.
  revert s; induction m as [|m IH]; intros s Hr Ho.
  - destruct (reachable_inv s Hr) as (_ & Hl & _).
    destruct (section_end_spec s Hl) as (r & a & s1 & _ & E1 & _ & _ & _ & Ho1 & _ & Hlc & _).
    exists s1. simpl. rewrite E1. cbn [bind].
    rewrite Ho in Ho1, Hlc. simpl in Ho1, Hlc.
    repeat split; auto. exact (reachable_step s OpSectionEnd s1 Hr E1).
  - destruct (reachable_inv s Hr) as (_ & Hl & _).
    destruct (section_end_spec s Hl) as (r & a & s1 & _ & E1 & _ & _ & _ & Ho1 & _ & Hlc & _).
    pose proof (reachable_step s OpSectionEnd s1 Hr E1) as Hr1.
    assert (Ho1' : open_grouped_sections s1 = Z.of_nat (S m)).
    { rewrite Ho1, Ho. unfold truthy_Z.
      replace (Z.of_nat (S (S m)) =? 0)%Z with false by (symmetry; apply Z.eqb_neq; lia).
      simpl negb. cbv iota. lia. }
    destruct (IH s1 Hr1 Ho1') as (s2 & E2 & Hlc2 & Ho2 & Hr2).
    exists s2. change (repeat OpSectionEnd (S (S m))) with (OpSectionEnd :: repeat OpSectionEnd (S m)).
    cbn [run step]. rewrite E1. cbn [bind]. rewrite E2.
    repeat split; auto. rewrite Hlc2, Hlc, Ho.
    unfold truthy_Z.
    replace (Z.of_nat (S (S m)) =? 0)%Z with false by (symmetry; apply Z.eqb_neq; lia).
    replace (Z.of_nat (S (S m)) - 1 =? 0)%Z with false by (symmetry; apply Z.eqb_neq; lia).
    simpl. rewrite app_nil_r_s. reflexivity.
Qed.

Lemma format_entry_html (c : Config) (lv : LogLevel) (m t code : string) :
  exists xs, snd (fst (format_entry c lv m t code)) = html_ul xs.
Proof. unfold format_entry. destruct (truthy_s t), (truthy_s code); eexists; reflexivity. Qed.

Lemma html_appended_ul (s s' : Logger) (lv : LogLevel) (m t code : string) :
  log_html s' = log_html s ++ (snd (fst (format_entry (cfg s) lv m t code)) ++ nl) ->
  exists p xs, log_html s' = p ++ html_ul xs ++ nl.
Proof.
  intros E. destruct (format_entry_html (cfg s) lv m t code) as [xs Hx].
  exists (log_html s), xs. now rewrite E, Hx.
Qed.

(** Every reachable document ends with the caller line of a section or
    with a [ul] entry. *)
Lemma reachable_html_ends (s : Logger) :
  reachable s ->
  (exists p, log_html s = p ++ "</code>" ++ nl) \/ (exists p xs, log_html s = p ++ html_ul xs ++ nl).
Proof.
  induction 1 as [c n rh ht hs pf k s E | s o s' Hr IH E].
  - left. apply (init_spec _ _ _ _ _ _ _ _ E).
  - destruct (reachable_inv s Hr) as (Hf & Hl & _).
    destruct o; cbn [step] in E.
    + destruct (section_spec s title group caller Hf) as (s1 & E1 & _ & _ & _ & _ & _ & _ & Hh & _).
      rewrite E1 in E. injection E as <-. left.
      destruct (section_html_ends s title caller) as [p Hp].
      exists (log_html s ++ p). rewrite Hh, Hp, app_assoc_s. reflexivity.
    + destruct (section_end_spec s Hl) as (r & a & s1 & _ & E1 & _ & _ & _ & _ & _ & _ & Hh & _).
      rewrite E1 in E. injection E as <-. now rewrite Hh.
    + rewrite debug_eq in E.
      edestruct submit_spec as (s1 & E1 & _ & _ & _ & _ & _ & _ & _ & Hh & _); [exact Hf|].
      rewrite E1 in E. injection E as <-. right. eapply html_appended_ul. exact Hh.
    + rewrite info_eq in E.
      edestruct submit_spec as (s1 & E1 & _ & _ & _ & _ & _ & _ & _ & Hh & _); [exact Hf|].
      rewrite E1 in E. injection E as <-. right. eapply html_appended_ul. exact Hh.
    + edestruct annotated_spec as (s1 & E1 & _ & _ & _ & _ & _ & _ & _ & Hh & _); [exact Hf|].
      unfold notice in E. rewrite E1 in E. injection E as <-. right. eapply html_appended_ul. exact Hh.
    + edestruct annotated_spec as (s1 & E1 & _ & _ & _ & _ & _ & _ & _ & Hh & _); [exact Hf|].
      unfold warning in E. rewrite E1 in E. injection E as <-. right. eapply html_appended_ul. exact Hh.
    + edestruct annotated_spec as (s1 & E1 & _ & _ & _ & _ & _ & _ & _ & Hh & _); [exact Hf|].
      unfold error in E. rewrite E1 in E. injection E as <-. right. eapply html_appended_ul. exact Hh.
    + destruct (critical_spec s message title code sys_exit exit_code traceback caller Hf) as [Hx Hr'].
      destruct (resolved_sys_exit (cfg s) sys_exit) eqn:Hse.
      * rewrite (Hx eq_refl) in E. discriminate.
      * destruct (Hr' eq_refl) as (s1 & E1 & _ & _ & _ & _ & _ & _ & _ & Hh & _).
        rewrite E1 in E. injection E as <-. right. eapply html_appended_ul. exact Hh.
Qed.

(** The same for the states left behind, the state at [sys.exit] of a
    [critical] call included. *)
Lemma observed_html (s : Logger) :
  observed s ->
  file_inv s /\
  ((exists p, log_html s = p ++ "</code>" ++ nl) \/ (exists p xs, log_html s = p ++ html_ul xs ++ nl)).
Proof.
  destruct 1 as [s Hr | s m t c se tb k s' Hr E].
  - split; [apply (reachable_inv s Hr) | exact (reachable_html_ends s Hr)].
  - destruct (reachable_inv s Hr) as (Hf & _ & _).
    destruct (critical_body_spec s m t c se tb k Hf) as (s1 & E1 & _ & Hh & Hf1).
    rewrite E1 in E. injection E as <- _. split; [exact Hf1|].
    right. eapply html_appended_ul. exact Hh.
Qed.

(** [j] section ends from group depth [j + k + 1] write nothing. *)
Lemma run_group_closes_keep (j k : nat) (s : Logger) :
  reachable s -> open_grouped_sections s = Z.of_nat (j + S k) ->
  exists s', run s (repeat OpSectionEnd j) = Ret s' /\ log_console s' = log_console s /\
    open_grouped_sections s' = Z.of_nat (S k) /\ reachable s'.
Proof.
  revert s; induction j as [|j IH]; intros s Hr Ho.
  - exists s. split; [reflexivity|]. split; [reflexivity|]. split; [exact Ho | exact Hr].
  - destruct (reachable_inv s Hr) as (_ & Hl & _).
    destruct (section_end_spec s Hl) as (r & a & s1 & _ & E1 & _ & _ & _ & Ho1 & _ & Hlc & _).
    pose proof (reachable_step s OpSectionEnd s1 Hr E1) as Hr1.
    assert (T1 : truthy_Z (open_grouped_sections s) = true).
    { rewrite Ho. unfold truthy_Z. apply negb_true_iff, Z.eqb_neq. lia. }
    assert (T2 : truthy_Z (open_grouped_sections s - 1) = true).
    { rewrite Ho. unfold truthy_Z. apply negb_true_iff, Z.eqb_neq. lia. }
    rewrite T1 in Ho1. rewrite T1, T2 in Hlc. cbn [andb negb] in Hlc.
    assert (Ho1' : open_grouped_sections s1 = Z.of_nat (j + S k)) by (rewrite Ho1, Ho; lia).
    destruct (IH s1 Hr1 Ho1') as (s2 & E2 & Hlc2 & Ho2 & Hr2).
    exists s2. cbn [repeat run step]. rewrite E1. cbn [bind]. rewrite E2.
    split; [reflexivity|]. split; [|split; [exact Ho2 | exact Hr2]].
    rewrite Hlc2, Hlc. apply app_nil_r_s.
Qed.

Lemma section_end_next (s : Logger) (r : list Z) (a : Z) :
  Inv s ->
  (if (2 <? List.length (next_section_num s))%nat
   then removelast (next_section_num s) else next_section_num s) = (r ++ [a])%list ->
  exists s', section_end s = Ret s' /\ next_section_num s' = (r ++ [(a + 1)%Z])%list /\ Inv s'.
Proof.
  intros Hv Hp. destruct (section_end_spec s (proj1 (proj2 Hv))) as (r' & a' & s' & Hp' & E & _ & _ & Hn & _).
  rewrite Hp in Hp'. apply app_inj_tail in Hp' as [<- <-].
  exists s'. split; [exact E|]. split; [exact Hn|].
  apply (step_inv s OpSectionEnd s' Hv E).
Qed.

End Facts.
End LoggerFacts.

Module PprintFacts.
Import Pprint StrFacts.

Lemma join_cons (sep x : string) (xs : list string) :
  xs <> [] -> join sep (x :: xs) = x ++ sep ++ join sep xs.
Proof. destruct xs; [contradiction|reflexivity]. Qed.

Lemma add_args_spec (args : list (string * string * bool)) (o : string) (a : bool) :
  add_args (o, a) args =
  match kv_pairs args with
  | [] => (o, a)
  | ks => (o ++ join "," ks ++ ",", true)
  end.
Proof.
  revert o a; induction args as [|[[n v] t] args IH]; intros o a; [reflexivity|].
  unfold add_args in *. cbn [fold_left]. unfold kv_pairs in *. cbn [filter].
  destruct t; [|apply IH].
  rewrite IH. cbn [map].
  destruct (map _ (filter _ args)) as [|k ks] eqn:Hk.
  - cbn [join]. rewrite !app_assoc_s. reflexivity.
  - rewrite (join_cons "," (n ++ "=" ++ v) (k :: ks)) by discriminate.
    rewrite !app_assoc_s. reflexivity.
Qed.

End PprintFacts.

(** * The claims *)

Import Logger Views StrFacts LoggerFacts PprintFacts.

Section Claims.
Context `{M : Markup}.

(** C3: with realtime output and an HTML file path, after [__init__] and
    after every call, a [critical] call that ends the process included, the
    file holds the in-memory document followed by the closing [</body>] and
    [</html>] tags, [html_log] returns the same text, and the tags are there
    once: the document itself does not end with them (given that
    [markitup] renders a [ul] element ending in [</ul>]). *)
Theorem html_file_is_document_and_end_tags
    (Hul : forall xs, exists p, html_ul xs = p ++ "</ul>") (s : Logger) :
  observed s -> realtime_output (cfg s) = true -> has_html_path (cfg s) = true ->
  html_file s = log_html s ++ html_file_end /\
  html_log s = log_html s ++ html_file_end /\
  ~ (exists p, log_html s = p ++ html_file_end).
Proof.
  intros Hr Hrt Hp. destruct (observed_html s Hr) as (Hf & Hends).
  split; [apply Hf; now rewrite Hrt, Hp|]. split; [reflexivity|].
  intros [q Hq].
  destruct Hends as [[p Ep] | [p [xs Ep]]].
  - rewrite Ep in Hq. revert Hq. apply not_both_suffixes; [simpl; lia|].
    vm_compute. discriminate.
  - destruct (Hul xs) as [p' Hp'].
    assert (Ex : log_html s = (p ++ p') ++ "</ul>" ++ nl)
      by (rewrite Ep, Hp', !app_assoc_s; reflexivity).
    rewrite Ex in Hq. revert Hq. apply not_both_suffixes; [simpl; lia|].
    vm_compute. discriminate.
Qed.

(** C1 (corrected): on a reachable [Logger], when [sys_exit] resolves to
    false ([False] passed, or [None] with no default exit code), [critical]
    returns; the entry is then in the console transcript and in the HTML
    document, and with annotations on the error annotation was printed.
    When [sys_exit] resolves to true, [critical] ends the process and no
    later call runs; the code is the explicit [exit_code] when it is given
    and non-zero, and the configured default when it is absent or zero. *)
Theorem critical_exit_or_return (s : Logger) (m t c : string) (se : option bool)
    (ec : option Z) (tb k : string) :
  reachable s ->
  let fe := format_entry (cfg s) CRITICAL m t (critical_code c tb) in
  (resolved_sys_exit (cfg s) se = false ->
   exists s', critical s m t c se ec tb k = Ret s' /\
     log_console s' = log_console s ++ fst (fst fe) ++ nl /\
     log_html s' = log_html s ++ (snd (fst fe) ++ nl) /\
     (github_console (cfg s) = true ->
      In (Pprint.github_log Pprint.error (snd fe)
            ("FATAL ERROR: " ++ curr_section s ++ " (caller: " ++ k ++ ")") "" 0 0 0 0)
         (stdout s'))) /\
  (resolved_sys_exit (cfg s) se = true ->
   (forall ops, run s (OpCritical m t c se ec tb k :: ops)
                = Exit (or_exit_code ec (default_exit_code (cfg s)))) /\
   ((ec = None \/ ec = Some 0%Z) ->
    critical s m t c se ec tb k = Exit (default_exit_code (cfg s))) /\
   (forall n, ec = Some n -> n <> 0%Z -> critical s m t c se ec tb k = Exit (Some n))).
Proof.
  intros Hr fe. destruct (reachable_inv s Hr) as (Hf & _ & _).
  destruct (critical_spec s m t c se ec tb k Hf) as [Hx Hn]. split.
  - intros Hse. destruct (Hn Hse) as (s' & E & _ & _ & _ & _ & _ & Hc & Ho & Hh & _).
    exists s'. split; [exact E|]. split; [exact Hc|]. split; [exact Hh|].
    intros Hg. rewrite Ho, Hg. apply in_or_app. right. apply in_or_app. right. left. reflexivity.
  - intros Hse. specialize (Hx Hse). split; [|split].
    + intros ops. cbn [run step]. rewrite Hx. reflexivity.
    + intros [-> | ->]; rewrite Hx; reflexivity.
    + intros n -> Hn0. rewrite Hx. cbn [or_exit_code].
      apply Z.eqb_neq in Hn0. rewrite Hn0. reflexivity.
Qed.

(** C2 (corrected): [__init__] itself opens the root section, numbered by
    [initial_section_number] [n]; three nested [section] calls then get the
    paths [n.1], [n.1.1] and [n.1.1.1], and after three [section_end] calls
    the next [section] gets [n.2].  On every reachable state [section]
    appends a counter 1, [section_end] drops the last counter (unless only
    the root's two are left) and adds one to the new last one, and the list
    of counters has the number of open user sections plus two elements. *)
Theorem section_numbering (c : Config) (n : Z) (rh ht hs pf k : string) (s0 : Logger)
    (t1 t2 t3 t4 k1 k2 k3 k4 : string) (g1 g2 g3 g4 : bool) :
  init c n rh ht hs pf k = Ret s0 ->
  (forall s t g k', reachable s ->
     exists s', section s t g k' = Ret s' /\
       next_section_num s' = (next_section_num s ++ [1%Z])%list) /\
  (forall s, reachable s ->
     exists r a s',
       (if (2 <? List.length (next_section_num s))%nat
        then removelast (next_section_num s) else next_section_num s) = (r ++ [a])%list /\
       section_end s = Ret s' /\ next_section_num s' = (r ++ [(a + 1)%Z])%list) /\
  (forall s ops s' d, reachable s -> List.length (next_section_num s) = (2 + d)%nat ->
     run s ops = Ret s' -> List.length (next_section_num s') = (2 + open_sections ops d)%nat) /\
  (curr_section s0 = str_Z n ++ "  " ++ rh /\
   exists s1 s2 s3 s4 s5 s6 s7,
     section s0 t1 g1 k1 = Ret s1 /\ section s1 t2 g2 k2 = Ret s2 /\
     section s2 t3 g3 k3 = Ret s3 /\ section_end s3 = Ret s4 /\
     section_end s4 = Ret s5 /\ section_end s5 = Ret s6 /\
     section s6 t4 g4 k4 = Ret s7 /\
     curr_section s1 = str_Z n ++ ".1  " ++ t1 /\
     curr_section s2 = str_Z n ++ ".1.1  " ++ t2 /\
     curr_section s3 = str_Z n ++ ".1.1.1  " ++ t3 /\
     curr_section s7 = str_Z n ++ ".2  " ++ t4).
Proof.
  intros Hi. split; [|split; [|split]].
  - intros s t g k' Hr. destruct (reachable_inv s Hr) as (Hf & _ & _).
    destruct (section_spec s t g k' Hf) as (s' & E & _ & _ & Hn & _). eauto.
  - intros s Hr. destruct (reachable_inv s Hr) as (_ & Hl & _).
    destruct (section_end_spec s Hl) as (r & a & s' & Hp & E & _ & _ & Hn & _).
    exists r, a, s'. auto.
  - intros s ops s' d Hr Hl E. exact (run_depth s ops s' d Hr Hl E).
  - destruct (init_spec _ _ _ _ _ _ _ _ Hi) as (_ & _ & Hn0 & _ & Hc0 & Hv0 & _).
    split; [exact Hc0|].
    destruct (section_spec s0 t1 g1 k1 (proj1 Hv0)) as (s1 & E1 & _ & Hc1 & Hn1 & _ & _ & _ & _ & Hf1).
    rewrite Hn0 in Hn1. cbn [app] in Hn1.
    destruct (section_spec s1 t2 g2 k2 Hf1) as (s2 & E2 & _ & Hc2 & Hn2 & _ & _ & _ & _ & Hf2).
    rewrite Hn1 in Hn2. cbn [app] in Hn2.
    destruct (section_spec s2 t3 g3 k3 Hf2) as (s3 & E3 & _ & Hc3 & Hn3 & _ & _ & _ & _ & Hf3).
    rewrite Hn2 in Hn3. cbn [app] in Hn3.
    assert (Hv3 : Inv s3).
    { apply (step_inv s2 (OpSection t3 g3 k3)); [|exact E3].
      apply (step_inv s1 (OpSection t2 g2 k2)); [|exact E2].
      apply (step_inv s0 (OpSection t1 g1 k1)); [exact Hv0 | exact E1]. }
    destruct (section_end_next s3 [n; 1; 1]%Z 1%Z Hv3) as (s4 & E4 & Hn4 & Hv4);
      [rewrite Hn3; reflexivity|].
    destruct (section_end_next s4 [n; 1]%Z 1%Z Hv4) as (s5 & E5 & Hn5 & Hv5);
      [rewrite Hn4; reflexivity|].
    destruct (section_end_next s5 [n]%Z 1%Z Hv5) as (s6 & E6 & Hn6 & Hv6);
      [rewrite Hn5; reflexivity|].
    destruct (section_spec s6 t4 g4 k4 (proj1 Hv6)) as (s7 & E7 & _ & Hc7 & _).
    exists s1, s2, s3, s4, s5, s6, s7.
    repeat split; try assumption.
    + rewrite Hc1. unfold section_title. rewrite Hn0. cbn [map join]. rewrite app_assoc_s. reflexivity.
    + rewrite Hc2. unfold section_title. rewrite Hn1. cbn [map join]. rewrite app_assoc_s. reflexivity.
    + rewrite Hc3. unfold section_title. rewrite Hn2. cbn [map join]. rewrite app_assoc_s. reflexivity.
    + rewrite Hc7. unfold section_title. rewrite Hn6. cbn [map join List.app]. rewrite app_assoc_s. reflexivity.
Qed.

(** C4: with annotations on and no group open, [N >= 1] nested
    [section(group=True)] calls followed by [N] [section_end] calls add to
    the console transcript the [N] headings, only the first wrapped in a
    [::group::] start marker, and then one [::endgroup::] line; the group
    depth is back to zero.  Call by call: the first opening writes its
    heading inside the start marker and takes the depth from 0 to 1, each
    later opening writes its plain heading; the closes before the last one
    write nothing, the last one takes the depth from 1 to 0 and writes the
    end marker.  The group depth is never negative in a reachable state. *)
Theorem group_markers_balanced (items : list (string * string)) (m : nat) (s : Logger) :
  reachable s -> github_console (cfg s) = true -> open_grouped_sections s = 0%Z ->
  List.length items = S m ->
  (exists hs s', run s (group_opens items ++ repeat OpSectionEnd (S m))%list = Ret s' /\
     List.length hs = List.length items /\
     Forall2 (fun h it => exists si, reachable si /\ h = section_console si (fst it) (snd it))
             hs items /\
     log_console s' = log_console s ++ group_block hs ++ Pprint.github_group_end ++ nl /\
     open_grouped_sections s' = 0%Z) /\
  (forall i it, nth_error items i = Some it ->
     exists si si', run s (group_opens (firstn i items)) = Ret si /\
       step si (OpSection (fst it) true (snd it)) = Ret si' /\
       open_grouped_sections si = Z.of_nat i /\ open_grouped_sections si' = Z.of_nat (S i) /\
       log_console si' = log_console si ++
         (if Nat.eqb i 0 then Pprint.github_group_start (section_console si (fst it) (snd it))
          else section_console si (fst it) (snd it)) ++ nl) /\
  (forall j, (j <= m)%nat ->
     exists sj sj', run s (group_opens items ++ repeat OpSectionEnd j)%list = Ret sj /\
       step sj OpSectionEnd = Ret sj' /\
       open_grouped_sections sj = Z.of_nat (S m - j) /\
       open_grouped_sections sj' = Z.of_nat (m - j) /\
       log_console sj' = log_console sj ++
         (if Nat.eqb j m then Pprint.github_group_end ++ nl else "")) /\
  (forall s'', reachable s'' -> (0 <= open_grouped_sections s'')%Z).
Proof.
  intros Hr Hg H0 Hl. split; [|split; [|split]].
  - destruct (run_group_opens items s 0%Z Hr Hg H0 (Z.le_refl 0))
      as (hs & s1 & E1 & Hhl & Hhs & Hc1 & Ho1 & _ & Hr1).
    destruct (run_group_closes m s1 Hr1) as (s2 & E2 & Hc2 & Ho2 & _);
      [rewrite Ho1, Hl; lia|].
    exists hs, s2. rewrite run_app, E1. cbn [bind]. split; [exact E2|].
    split; [exact Hhl|]. split; [exact Hhs|]. split; [|exact Ho2].
    rewrite Hc2, Hc1. cbn [Z.eqb]. rewrite app_assoc_s. reflexivity.
  - intros i it Hi.
    assert (Hlt : (i < List.length items)%nat) by (apply nth_error_Some; congruence).
    destruct (run_group_opens (firstn i items) s 0%Z Hr Hg H0 (Z.le_refl 0))
      as (hs & si & E1 & _ & _ & _ & Ho1 & Hc1 & Hr1).
    rewrite length_firstn, Nat.min_l in Ho1 by lia.
    destruct (reachable_inv si Hr1) as (Hf & _ & _).
    destruct (section_spec si (fst it) true (snd it) Hf)
      as (si' & E2 & _ & _ & _ & Ho2 & _ & Hlc & _).
    exists si, si'. split; [exact E1|]. split; [exact E2|]. split; [rewrite Ho1; lia|].
    rewrite Hc1, Hg in Ho2, Hlc. cbn [andb orb] in Ho2, Hlc.
    split; [rewrite Ho2, Ho1; lia|].
    rewrite Hlc, Ho1. destruct i as [|i]; [reflexivity|].
    replace (truthy_Z (0 + Z.of_nat (S i))) with true
      by (symmetry; unfold truthy_Z; apply negb_true_iff, Z.eqb_neq; lia).
    reflexivity.
  - intros j Hj.
    destruct (run_group_opens items s 0%Z Hr Hg H0 (Z.le_refl 0))
      as (hs & s1 & E1 & _ & _ & _ & Ho1 & _ & Hr1).
    destruct (run_group_closes_keep j (m - j) s1 Hr1) as (sj & E2 & _ & Hoj & Hrj);
      [rewrite Ho1, Hl; lia|].
    destruct (reachable_inv sj Hrj) as (_ & Hlj & _).
    destruct (section_end_spec sj Hlj) as (r & a & sj' & _ & E3 & _ & _ & _ & Ho3 & _ & Hlc & _).
    assert (T1 : truthy_Z (open_grouped_sections sj) = true).
    { rewrite Hoj. unfold truthy_Z. apply negb_true_iff, Z.eqb_neq. lia. }
    rewrite T1 in Ho3, Hlc. cbn [andb] in Hlc.
    exists sj, sj'. rewrite run_app, E1. cbn [bind].
    split; [exact E2|]. split; [exact E3|]. split; [rewrite Hoj; lia|].
    split; [rewrite Ho3, Hoj; lia|].
    rewrite Hlc, Hoj. destruct (Nat.eqb_spec j m) as [->|Hne].
    + replace (truthy_Z (Z.of_nat (S (m - m)) - 1)) with false
        by (symmetry; unfold truthy_Z; apply negb_false_iff, Z.eqb_eq; lia).
      reflexivity.
    + replace (truthy_Z (Z.of_nat (S (m - j)) - 1)) with true
        by (symmetry; unfold truthy_Z; apply negb_true_iff, Z.eqb_neq; lia).
      reflexivity.
  - intros s'' Hr''. apply (reachable_inv s'' Hr'').
Qed.

(** C5 (corrected): with an empty title the three renderings have no title
    and no [": "] separator; with a non-empty title and code the console
    text and the HTML fragment have the title and the code block, while the
    annotation message has the title only: it is [title: message] whatever
    the code. *)
Theorem format_entry_title_and_code (c : Config) (lv : LogLevel) (m t code : string) :
  format_entry c lv m "" code =
    (symbol_status c lv ++ " " ++ m ++ (if truthy_s code then nl ++ code else ""),
     html_ul [symbol_status c lv ++ " " ++ m
              ++ (if truthy_s code then "<pre>" ++ code ++ "</pre>" else "")],
     m) /\
  (truthy_s t = true -> truthy_s code = true ->
   format_entry c lv m t code =
     (symbol_status c lv ++ " " ++ sgr_format t (style_status c lv) ++ ": " ++ m ++ nl ++ code,
      html_ul [symbol_status c lv ++ " " ++ "<b>" ++ t ++ "</b>: " ++ m
               ++ "<pre>" ++ code ++ "</pre>"],
      t ++ ": " ++ m)) /\
  (forall code', snd (format_entry c lv m t code') = snd (format_entry c lv m t code)).
Proof.
  unfold format_entry. split; [|split].
  - cbn [truthy_s String.eqb negb]. destruct (truthy_s code); rewrite ?app_nil_r_s; reflexivity.
  - intros -> ->. rewrite !app_assoc_s. reflexivity.
  - intros code'. destruct (truthy_s t), (truthy_s code), (truthy_s code'); reflexivity.
Qed.

(** C6 (corrected): at the root (only the root section open: two
    counters) [section_end] raises nothing and keeps the depth, but it does
    change the numbering: the last counter goes up by one. *)
Theorem section_end_at_root (s : Logger) (a b : Z) :
  reachable s -> next_section_num s = [a; b] ->
  exists s', section_end s = Ret s' /\
    next_section_num s' = [a; (b + 1)%Z] /\
    curr_section s' = curr_section s /\
    log_html s' = log_html s /\ html_file s' = html_file s.
Proof.
  intros Hr Hn. destruct (reachable_inv s Hr) as (_ & Hl & _).
  destruct (section_end_spec s Hl) as (r & a' & s' & Hp & E & _ & Hc & Hn' & _ & _ & _ & Hh & Hf).
  rewrite Hn in Hp. cbn in Hp.
  change [a; b] with ([a] ++ [b])%list in Hp.
  apply app_inj_tail in Hp as [<- <-].
  exists s'. repeat split; assumption.
Qed.

(** C8: a console write always appends the text and a newline to the
    transcript; it is printed (appended to stdout) exactly when realtime
    output is on and the entry is not debug, or debug printing or the
    GitHub console is on.  On a reachable state [debug] returns and its
    console text is in the transcript. *)
Theorem console_write_always_recorded (s : Logger) (text : string) (is_debug : bool) :
  log_console (submit_console s text is_debug) = log_console s ++ text ++ nl /\
  (stdout (submit_console s text is_debug) = (stdout s ++ [text])%list <->
   realtime_output (cfg s) && (negb is_debug || print_debug (cfg s) || github_console (cfg s))
   = true) /\
  (reachable s -> forall m t c,
     exists s', debug s m t c = Ret s' /\
       log_console s' = log_console s
         ++ (if github_console (cfg s)
             then Pprint.github_log Pprint.debug (fst (fst (format_entry (cfg s) DEBUG m t c)))
                    "" "" 0 0 0 0
             else fst (fst (format_entry (cfg s) DEBUG m t c))) ++ nl).
Proof.
  destruct (submit_console_fields s text is_debug) as (_ & _ & _ & _ & _ & _ & _ & Hc & Ho).
  split; [exact Hc|]. split.
  - rewrite Ho.
    replace (negb is_debug || print_debug (cfg s) || github_console (cfg s))
      with (negb is_debug || github_console (cfg s) || print_debug (cfg s))
      by (destruct (negb is_debug), (print_debug (cfg s)), (github_console (cfg s)); reflexivity).
    destruct (realtime_output (cfg s) && _); split; intros H; try reflexivity; try discriminate.
    apply (f_equal (@List.length string)) in H. rewrite !length_app in H.
    cbn in H. lia.
  - intros Hr m t c. destruct (reachable_inv s Hr) as (Hf & _ & _).
    rewrite debug_eq.
    match goal with |- exists s', submit s ?x ?y true = Ret s' /\ _ =>
      destruct (submit_spec s x y true Hf) as (s' & E & _ & _ & _ & _ & _ & Hc' & _)
    end.
    eauto.
Qed.

(** C9: with annotations on and a group open, [section(group=False)]
    raises the group depth by one and prints no start marker; a
    [section_end] prints the end marker exactly when the depth goes from 1
    to 0, so a non-grouped section opened inside a group and closed again
    leaves the depth as it was and prints no end marker. *)
Theorem nested_plain_section_counts_in_group (s : Logger) (t k : string) :
  reachable s -> github_console (cfg s) = true -> (0 < open_grouped_sections s)%Z ->
  (exists s', section s t false k = Ret s' /\
     open_grouped_sections s' = (open_grouped_sections s + 1)%Z /\
     log_console s' = log_console s ++ section_console s t k ++ nl) /\
  (exists s', section_end s = Ret s' /\
     log_console s' = log_console s
       ++ (if Z.eqb (open_grouped_sections s) 1 then Pprint.github_group_end ++ nl else "")) /\
  (exists s', run s [OpSection t false k; OpSectionEnd] = Ret s' /\
     open_grouped_sections s' = open_grouped_sections s /\
     log_console s' = log_console s ++ section_console s t k ++ nl).
Proof.
  intros Hr Hg Hp. destruct (reachable_inv s Hr) as (Hf & Hl & _).
  assert (Ht : truthy_Z (open_grouped_sections s) = true)
    by (unfold truthy_Z; destruct (Z.eqb_spec (open_grouped_sections s) 0); [lia | reflexivity]).
  destruct (section_spec s t false k Hf) as (s1 & E1 & Hcf1 & _ & Hn1 & Ho1 & _ & Hc1 & _).
  rewrite Hg, Ht in Ho1. cbn [andb orb] in Ho1.
  rewrite Hg in Hc1. cbn [andb] in Hc1.
  split; [exists s1; auto|]. split.
  - destruct (section_end_spec s Hl) as (r & a & s' & _ & E & _ & _ & _ & _ & _ & Hc & _).
    exists s'. split; [exact E|]. rewrite Hc, Ht. cbn [andb].
    unfold truthy_Z. destruct (Z.eqb_spec (open_grouped_sections s) 1) as [->|Hne]; [reflexivity|].
    destruct (Z.eqb_spec (open_grouped_sections s - 1) 0); [lia | reflexivity].
  - assert (Hl1 : (2 <= List.length (next_section_num s1))%nat)
      by (rewrite Hn1, length_app; cbn; lia).
    destruct (section_end_spec s1 Hl1) as (r & a & s2 & _ & E2 & _ & _ & _ & Ho2 & _ & Hc2 & _).
    exists s2. cbn [run step]. rewrite E1. cbn [bind]. rewrite E2. split; [reflexivity|].
    assert (Ht1 : truthy_Z (open_grouped_sections s1) = true)
      by (unfold truthy_Z; rewrite Ho1; destruct (Z.eqb_spec (open_grouped_sections s + 1) 0);
          [lia | reflexivity]).
    assert (Ht2 : truthy_Z (open_grouped_sections s1 - 1) = true)
      by (unfold truthy_Z; rewrite Ho1; destruct (Z.eqb_spec (open_grouped_sections s + 1 - 1) 0);
          [lia | reflexivity]).
    rewrite Ht1 in Ho2. rewrite Ht1, Ht2 in Hc2. cbn [andb negb] in Hc2.
    split; [rewrite Ho2, Ho1; lia|].
    rewrite Hc2, Hc1, app_nil_r_s. reflexivity.
Qed.

(** C10: when the default exit code is a positive [d], [critical] with
    [sys_exit=True] and [exit_code=0] exits with [d], not with 0: a zero
    [exit_code] counts as absent. *)
Theorem critical_zero_exit_code_uses_default (s : Logger) (m t c tb k : string) (d : Z) :
  reachable s -> default_exit_code (cfg s) = Some d -> (0 < d)%Z ->
  critical s m t c (Some true) (Some 0%Z) tb k = Exit (Some d) /\
  critical s m t c (Some true) (Some 0%Z) tb k <> Exit (Some 0%Z).
Proof.
  intros Hr Hd Hp. destruct (reachable_inv s Hr) as (Hf & _ & _).
  destruct (critical_spec s m t c (Some true) (Some 0%Z) tb k Hf) as [Hx _].
  rewrite (Hx eq_refl), Hd. cbn [or_exit_code Z.eqb]. split; [reflexivity|].
  intros E. injection E. lia.
Qed.

End Claims.

(** C7: [github_log] produces [::{kind} {key=value,...}::{message}]: for
    the debug kind no metadata and the message prefixed with one space; for
    the other kinds the provided arguments among title, file, line, endLine,
    col and endColumn, comma-separated, with no trailing comma. *)
Theorem github_log_directive_format (mt : Pprint.message_type) (message title filename : string)
    (line_start line_end column_start column_end : Z) :
  Pprint.github_log mt message title filename line_start line_end column_start column_end =
  Pprint.github_log_spec mt message title filename line_start line_end column_start column_end.
Proof.
  unfold Pprint.github_log, Pprint.github_log_spec.
  destruct mt; [reflexivity | ..];
    cbv zeta; rewrite add_args_spec;
    destruct (Pprint.kv_pairs _) as [|k ks]; cbv beta iota.
  all: first
    [ rewrite <- (app_assoc_s "::" _ " "), removesuffix_app by discriminate
    | rewrite <- (app_assoc_s _ (join "," _) ","), removesuffix_app by discriminate ];
    rewrite !app_assoc_s; reflexivity.
Qed.

(** * The model evaluated on concrete inputs *)

Module Examples.
Import Concrete.
#[local] Existing Instance M0.

Lemma fresh_eq : init c0 1 "Log" "Log" "" "" "__main__.main" = Ret fresh_state.
Proof. vm_compute. reflexivity. Qed.

Lemma fresh_reachable : reachable fresh_state.
Proof. exact (reachable_init _ _ _ _ _ _ _ _ fresh_eq). Qed.

Lemma grouped_reachable : reachable grouped_state.
Proof.
  apply (reachable_step fresh_state (OpSection "G" true "g")); [exact fresh_reachable|].
  vm_compute. reflexivity.
Qed.

Lemma M0_ul_ends (xs : list string) : exists p, html_ul xs = p ++ "</ul>".
Proof.
  exists ("<ul>" ++ String.concat "" (map (fun x => "<li>" ++ x ++ "</li>") xs)).
  cbn [html_ul M0]. rewrite app_assoc_s. reflexivity.
Qed.

(** C1: with the default exit code 1, [critical] exits with 1 and the
    following [info] call never runs. *)
Lemma critical_exit_or_return_witness :
  reachable fresh_state /\ resolved_sys_exit (cfg fresh_state) None = true /\
  run fresh_state [OpCritical "boom" "" "" None None no_traceback "k"; OpInfo "after" "" ""]
  = Exit (Some 1%Z).
Proof.
  split; [exact fresh_reachable|]. split; [vm_compute; reflexivity|].
  destruct (critical_exit_or_return fresh_state "boom" "" "" None None no_traceback "k"
              fresh_reachable) as [_ Hx].
  rewrite (proj1 (Hx ltac:(vm_compute; reflexivity))). vm_compute. reflexivity.
Defined.

(** C1: an explicit [exit_code=0] with [sys_exit] on exits with the
    default code 1, not with the given override 0. *)
Lemma critical_exit_code_zero_counterexample :
  critical fresh_state "boom" "" "" None (Some 0%Z) no_traceback "k" = Exit (Some 1%Z).
Proof. vm_compute. reflexivity. Qed.

(** C2: on a fresh logger the first user section is [1.1], then [1.1.1],
    [1.1.1.1], and after three [section_end] calls [1.2]. *)
Lemma section_numbering_witness :
  init c0 1 "Log" "Log" "" "" "__main__.main" = Ret fresh_state /\
  curr_section fresh_state = "1  Log" /\
  exists s1 s2 s3 s4 s5 s6 s7,
    section fresh_state "A" false "k" = Ret s1 /\ section s1 "B" false "k" = Ret s2 /\
    section s2 "C" false "k" = Ret s3 /\ section_end s3 = Ret s4 /\
    section_end s4 = Ret s5 /\ section_end s5 = Ret s6 /\
    section s6 "D" false "k" = Ret s7 /\
    curr_section s1 = "1.1  A" /\ curr_section s2 = "1.1.1  B" /\
    curr_section s3 = "1.1.1.1  C" /\ curr_section s7 = "1.2  D".
Proof.
  split; [exact fresh_eq|].
  destruct (section_numbering c0 1 "Log" "Log" "" "" "__main__.main" fresh_state
              "A" "B" "C" "D" "k" "k" "k" "k" false false false false fresh_eq)
    as (_ & _ & _ & H).
  exact H.
Defined.

(** C2: the first [section] call on a fresh logger gets the path [1.1]:
    the path [1] is the root section opened by the constructor. *)
Lemma section_numbering_counterexample :
  curr_section fresh_state = "1  Log" /\
  match section fresh_state "A" false "k" with Ret s => curr_section s | _ => "" end = "1.1  A".
Proof. split; vm_compute; reflexivity. Qed.

(** C3: the HTML file when [logger.critical("boom")] ends the process
    (with the default exit code 1) on the fresh logger. *)
Lemma html_file_is_document_and_end_tags_witness :
  observed exit_state /\
  critical fresh_state "boom" "" "" None None no_traceback "k" = Exit (Some 1%Z) /\
  realtime_output (cfg exit_state) = true /\ has_html_path (cfg exit_state) = true /\
  html_file exit_state = log_html exit_state ++ html_file_end /\
  ~ (exists p, log_html exit_state = p ++ html_file_end).
Proof.
  assert (Ho : observed exit_state).
  { apply (observed_exit fresh_state "boom" "" "" None no_traceback "k" exit_state fresh_reachable).
    vm_compute. reflexivity. }
  split; [exact Ho|]. split; [vm_compute; reflexivity|].
  split; [vm_compute; reflexivity|]. split; [vm_compute; reflexivity|].
  destruct (html_file_is_document_and_end_tags M0_ul_ends exit_state Ho
              ltac:(vm_compute; reflexivity) ltac:(vm_compute; reflexivity)) as (H1 & _ & H3).
  split; [exact H1 | exact H3].
Defined.

(** C4: three grouped sections "A", "B", "C" opened and closed on the
    fresh logger: the second opening writes its plain heading, the first
    close writes nothing, the third close writes the end marker. *)
Lemma group_markers_balanced_witness :
  open_grouped_sections fresh_state = 0%Z /\
  (exists s1 s1', run fresh_state (group_opens (firstn 1 items3)) = Ret s1 /\
     step s1 (OpSection "B" true "k") = Ret s1' /\
     log_console s1' = log_console s1 ++ section_console s1 "B" "k" ++ nl) /\
  (exists s2 s2', run fresh_state (group_opens items3 ++ repeat OpSectionEnd 0)%list = Ret s2 /\
     step s2 OpSectionEnd = Ret s2' /\ log_console s2' = log_console s2) /\
  (exists s3 s3', run fresh_state (group_opens items3 ++ repeat OpSectionEnd 2)%list = Ret s3 /\
     step s3 OpSectionEnd = Ret s3' /\
     open_grouped_sections s3' = 0%Z /\
     log_console s3' = log_console s3 ++ Pprint.github_group_end ++ nl).
Proof.
  split; [vm_compute; reflexivity|].
  destruct (group_markers_balanced items3 2 fresh_state fresh_reachable
              ltac:(vm_compute; reflexivity) ltac:(vm_compute; reflexivity) ltac:(reflexivity))
    as (_ & Hop & Hcl & _).
  split; [|split].
  - destruct (Hop 1%nat ("B", "k") eq_refl) as (s1 & s1' & E1 & E2 & _ & _ & Hc).
    exists s1, s1'. split; [exact E1|]. split; [exact E2 | exact Hc].
  - destruct (Hcl 0%nat ltac:(lia)) as (s2 & s2' & E1 & E2 & _ & _ & Hc).
    exists s2, s2'. split; [exact E1|]. split; [exact E2|].
    rewrite Hc. apply app_nil_r_s.
  - destruct (Hcl 2%nat ltac:(lia)) as (s3 & s3' & E1 & E2 & _ & Ho & Hc).
    exists s3, s3'. split; [exact E1|]. split; [exact E2|]. split; [exact Ho | exact Hc].
Defined.

(** C5: title ["t"], message ["x"], code ["c"]. *)
Lemma format_entry_title_and_code_witness :
  truthy_s "t" = true /\ truthy_s "c" = true /\
  format_entry c0 INFO "x" "t" "c" =
    ("* [1mt[0m: x" ++ nl ++ "c", "<ul><li>* <b>t</b>: x<pre>c</pre></li></ul>", "t: x").
Proof.
  split; [reflexivity|]. split; [reflexivity|].
  rewrite (proj1 (proj2 (format_entry_title_and_code c0 INFO "x" "t" "c")) eq_refl eq_refl).
  vm_compute. reflexivity.
Defined.

(** C5: the annotation message for title ["t"], message ["x"] and code
    ["c"] is ["t: x"]: it has no code block. *)
Lemma format_entry_annotation_counterexample :
  snd (format_entry c0 INFO "x" "t" "c") = "t: x" /\ contains "t: x" "c" = false.
Proof. split; vm_compute; reflexivity. Qed.

(** C6: [section_end] at the root of the fresh logger. *)
Lemma section_end_at_root_witness :
  next_section_num fresh_state = [1%Z; 1%Z] /\
  exists s', section_end fresh_state = Ret s' /\ next_section_num s' = [1%Z; 2%Z].
Proof.
  split; [vm_compute; reflexivity|].
  destruct (section_end_at_root fresh_state 1 1 fresh_reachable ltac:(vm_compute; reflexivity))
    as (s' & E & Hn & _).
  exists s'. split; [exact E | exact Hn].
Defined.

(** C6: at the root [section_end] turns the counters [[1; 1]] into
    [[1; 2]]: the next section is numbered [1.2], not [1.1]. *)
Lemma section_end_at_root_counterexample :
  next_section_num fresh_state = [1%Z; 1%Z] /\
  match section_end fresh_state with
  | Ret s' => Some (next_section_num s') | _ => None end = Some [1%Z; 2%Z].
Proof. split; vm_compute; reflexivity. Qed.

(** C8: a debug entry on the fresh logger (GitHub console on). *)
Lemma console_write_always_recorded_witness :
  exists s', debug fresh_state "x" "" "" = Ret s' /\
    log_console s' = log_console fresh_state ++ "::debug:: * x" ++ nl.
Proof.
  destruct (proj2 (proj2 (console_write_always_recorded fresh_state "" false)) fresh_reachable
              "x" "" "") as (s' & E & H).
  exists s'. split; [exact E|]. rewrite H. vm_compute. reflexivity.
Defined.

(** C9: a plain section opened and closed inside the group of
    [grouped_state]. *)
Lemma nested_plain_section_counts_in_group_witness :
  open_grouped_sections grouped_state = 1%Z /\
  exists s', run grouped_state [OpSection "P" false "k"; OpSectionEnd] = Ret s' /\
    open_grouped_sections s' = 1%Z /\
    log_console s' = log_console grouped_state ++ section_console grouped_state "P" "k" ++ nl.
Proof.
  assert (Ho : open_grouped_sections grouped_state = 1%Z) by (vm_compute; reflexivity).
  split; [exact Ho|].
  destruct (nested_plain_section_counts_in_group grouped_state "P" "k" grouped_reachable
              ltac:(vm_compute; reflexivity) ltac:(rewrite Ho; lia)) as (_ & _ & s' & E & Ho' & Hc).
  exists s'. rewrite Ho' , Ho. auto.
Defined.

(** C10: [critical(sys_exit=True, exit_code=0)] on the fresh logger. *)
Lemma critical_zero_exit_code_uses_default_witness :
  default_exit_code (cfg fresh_state) = Some 1%Z /\
  critical fresh_state "boom" "" "" (Some true) (Some 0%Z) no_traceback "k" = Exit (Some 1%Z).
Proof.
  split; [vm_compute; reflexivity|].
  exact (proj1 (critical_zero_exit_code_uses_default fresh_state "boom" "" "" no_traceback "k" 1
                  fresh_reachable ltac:(vm_compute; reflexivity) ltac:(lia))).
Defined.

End Examples.

(** * Further properties of the logger *)

Module LoggerMoreFacts.
Import Logger Views ViewsMore StrFacts LoggerFacts LoggerLog.

Section MoreFacts.
Context `{M : Markup}.

Lemma bind_ret_inv {A B} (m : outcome A) (f : A -> outcome B) (b : B) :
  bind m f = Ret b -> exists a, m = Ret a /\ f a = Ret b.
Proof. destruct m; simpl; [eauto | discriminate | discriminate]. Qed.

Lemma grows_refl (s : Logger) : grows s s.
Proof.
  unfold grows. repeat split; auto.
  - exists "". symmetry. apply app_nil_r_s.
  - exists "". symmetry. apply app_nil_r_s.
  - exists []. symmetry. apply app_nil_r.
Qed.

Lemma grows_trans (s1 s2 s3 : Logger) : grows s1 s2 -> grows s2 s3 -> grows s1 s3.
Proof.
  intros (C1 & [a1 A1] & [b1 B1] & [l1 L1] & F1 & P1 & O1)
         (C2 & [a2 A2] & [b2 B2] & [l2 L2] & F2 & P2 & O2).
  repeat split.
  - congruence.
  - exists (a1 ++ a2). rewrite A2, A1, app_assoc_s. reflexivity.
  - exists (b1 ++ b2). rewrite B2, B1, app_assoc_s. reflexivity.
  - exists (l1 ++ l2)%list. rewrite L2, L1, app_assoc. reflexivity.
  - intros R. assert (R2 : realtime_output (cfg s2) = false) by (rewrite C1; exact R).
    rewrite (F2 R2), (F1 R). reflexivity.
  - intros R G. assert (R2 : realtime_output (cfg s2) = false) by (rewrite C1; exact R).
    assert (G2 : github_console (cfg s2) = false) by (rewrite C1; exact G).
    rewrite (P2 R2 G2), (P1 R G). reflexivity.
  - auto.
Qed.

Lemma grows_then_set_section (s x : Logger) cur nums g o :
  grows s x -> (out_of_section x = true -> o = true) -> grows s (set_section x cur nums g o).
Proof.
  intros Hg Ho. apply (grows_trans s x); [exact Hg|].
  unfold grows, set_section; cbn. repeat split; auto.
  - exists "". symmetry. apply app_nil_r_s.
  - exists "". symmetry. apply app_nil_r_s.
  - exists []. symmetry. apply app_nil_r.
Qed.

Lemma grows_then_submit_console (s x : Logger) (t : string) (d : bool) :
  grows s x -> grows s (submit_console x t d).
Proof.
  intros Hg. apply (grows_trans s x); [exact Hg|].
  destruct (submit_console_fields x t d) as (Hc & _ & _ & _ & Hoos & Hh & Hf & Hlc & Ho).
  repeat split.
  - exact Hc.
  - exists (t ++ nl). exact Hlc.
  - exists "". rewrite Hh. symmetry. apply app_nil_r_s.
  - eexists. exact Ho.
  - intros _. exact Hf.
  - intros R _. rewrite Ho, R. apply app_nil_r.
  - rewrite Hoos. auto.
Qed.

Lemma grows_then_print (s x : Logger) (t : string) :
  grows s x -> github_console (cfg x) = true -> grows s (print x t).
Proof.
  intros Hg G. apply (grows_trans s x); [exact Hg|].
  unfold print, set_console, grows; cbn. repeat split; auto.
  - exists "". symmetry. apply app_nil_r_s.
  - exists "". symmetry. apply app_nil_r_s.
  - exists [t]. reflexivity.
  - intros _ G'. congruence.
Qed.

Lemma grows_then_submit (s x : Logger) (c h : string) (d : bool) (y : Logger) :
  grows s x -> submit x c h d = Ret y -> grows s y.
Proof.
  intros Hg E. unfold submit, submit_html in E.
  set (x1 := submit_console x c d) in E.
  assert (G1 : grows s x1) by (apply grows_then_submit_console; exact Hg).
  apply (grows_trans s x1); [exact G1|].
  destruct (realtime_output (cfg x1) && has_html_path (cfg x1)) eqn:R.
  - destruct (seek_end_write _ _ _) eqn:W; cbn [bind] in E; try discriminate.
    injection E as <-. unfold set_html, grows; cbn. repeat split; auto.
    + exists "". symmetry. apply app_nil_r_s.
    + exists (h ++ nl). reflexivity.
    + exists []. symmetry. apply app_nil_r.
    + intros R'. rewrite R' in R. discriminate.
  - injection E as <-. unfold set_html, grows; cbn. repeat split; auto.
    + exists "". symmetry. apply app_nil_r_s.
    + exists (h ++ nl). reflexivity.
    + exists []. symmetry. apply app_nil_r.
Qed.

(** Every call only appends to the transcripts and to stdout. *)
Lemma step_grows (s : Logger) (o : op) (s' : Logger) : step s o = Ret s' -> grows s s'.
Proof.
  destruct o; cbn [step]; intros E.
  - unfold section in E.
    destruct (github_console (cfg s)); cbv beta iota zeta in E;
      apply bind_ret_inv in E as (s1 & E1 & E2); injection E2 as <-;
      (apply grows_then_set_section; [|auto]);
      (eapply grows_then_submit; [|exact E1]);
      (apply grows_then_set_section; [apply grows_refl | auto]).
  - unfold section_end in E. cbv beta iota zeta in E.
    destruct (truthy_Z (open_grouped_sections s));
      [destruct (negb (truthy_Z (open_grouped_sections s - 1)))|]; cbv beta iota in E;
      apply bind_ret_inv in E as (l & _ & E2); injection E2 as <-;
      (apply grows_then_set_section; [|auto]).
    + apply grows_then_submit_console. apply grows_then_set_section; [apply grows_refl | auto].
    + apply grows_then_set_section; [apply grows_refl | auto].
    + apply grows_refl.
  - rewrite debug_eq in E. eapply grows_then_submit; [apply grows_refl | exact E].
  - rewrite info_eq in E. eapply grows_then_submit; [apply grows_refl | exact E].
  - unfold notice in E. rewrite annotated_eq in E.
    apply bind_ret_inv in E as (s1 & E1 & E2). injection E2 as <-.
    assert (G1 : grows s s1) by (eapply grows_then_submit; [apply grows_refl | exact E1]).
    destruct (github_console (cfg s1)) eqn:G; [apply grows_then_print; assumption | exact G1].
  - unfold warning in E. rewrite annotated_eq in E.
    apply bind_ret_inv in E as (s1 & E1 & E2). injection E2 as <-.
    assert (G1 : grows s s1) by (eapply grows_then_submit; [apply grows_refl | exact E1]).
    destruct (github_console (cfg s1)) eqn:G; [apply grows_then_print; assumption | exact G1].
  - unfold error in E. rewrite annotated_eq in E.
    apply bind_ret_inv in E as (s1 & E1 & E2). injection E2 as <-.
    assert (G1 : grows s s1) by (eapply grows_then_submit; [apply grows_refl | exact E1]).
    destruct (github_console (cfg s1)) eqn:G; [apply grows_then_print; assumption | exact G1].
  - rewrite critical_eq in E. cbv zeta in E.
    apply bind_ret_inv in E as (s1 & E1 & E2).
    assert (G1 : grows s s1) by (eapply grows_then_submit; [apply grows_refl | exact E1]).
    cbv zeta in E2.
    destruct sys_exit as [[|]|]; [| | destruct (default_exit_code (cfg s1))];
      cbv beta iota delta [andb] in E2; try discriminate;
      injection E2 as <-;
      (destruct (github_console (cfg s1)) eqn:G; [apply grows_then_print; assumption | exact G1]).
Qed.

Lemma run_grows (s : Logger) (ops : list op) (s' : Logger) : run s ops = Ret s' -> grows s s'.
Proof.
  revert s; induction ops as [|o ops IH]; intros s E; simpl in E.
  - injection E as <-. apply grows_refl.
  - destruct (step s o) as [s1| |] eqn:E1; try discriminate.
    apply (grows_trans s s1); [exact (step_grows s o s1 E1) | exact (IH s1 E)].
Qed.

(** The writes of [critical] before [sys.exit] only append as well. *)
Lemma critical_body_grows (s : Logger) (m t c : string) se tb k (s' : Logger) (b : bool) :
  critical_body s m t c se tb k = Ret (s', b) -> grows s s'.
Proof.
  intros E. rewrite critical_body_eq in E. cbv zeta in E.
  apply bind_ret_inv in E as (s1 & E1 & E2). injection E2 as <- _.
  assert (G1 : grows s s1) by (eapply grows_then_submit; [apply grows_refl | exact E1]).
  assert (G2 : grows s (if resolved_sys_exit (cfg s1) se && truthy_Z (open_grouped_sections s1)
                        then submit_console s1 Pprint.github_group_end false else s1)).
  { destruct (_ && _); [apply grows_then_submit_console|]; exact G1. }
  destruct (github_console _) eqn:G; [apply grows_then_print; assumption | exact G2].
Qed.

(** The state the calls leave behind, at a return or at [sys.exit],
    extends the state they started from. *)
Lemma run_end_grows (s : Logger) (ops : list op) (s' : Logger) :
  run_end s ops = Ret s' -> grows s s'.
Proof.
  revert s; induction ops as [|o ops IH]; intros s E.
  - cbn [run_end] in E. injection E as <-. apply grows_refl.
  - destruct o; cbn [run_end] in E;
      try (apply bind_ret_inv in E as (s1 & E1 & E2);
           apply (grows_trans s s1); [exact (step_grows s _ s1 E1) | exact (IH s1 E2)]).
    apply bind_ret_inv in E as ([s1 ex] & E1 & E2).
    apply (grows_trans s s1); [exact (critical_body_grows _ _ _ _ _ _ _ s1 ex E1)|].
    destruct ex; [injection E2 as <-; apply grows_refl | exact (IH s1 E2)].
Qed.


(** How each call changes the counters, the open groups and the current
    section. *)
Lemma step_fields (s : Logger) (o : op) (s' : Logger) :
  Inv s -> step s o = Ret s' ->
  (match o with
   | OpSection _ _ _ => next_section_num s' = (next_section_num s ++ [1%Z])%list
   | OpSectionEnd =>
       exists r a, (if (2 <? List.length (next_section_num s))%nat
                    then removelast (next_section_num s) else next_section_num s) = (r ++ [a])%list /\
                   next_section_num s' = (r ++ [(a + 1)%Z])%list
   | _ => next_section_num s' = next_section_num s
   end) /\
  open_grouped_sections s' =
    (match o with
     | OpSection _ g _ =>
         if github_console (cfg s) && (g || truthy_Z (open_grouped_sections s))
         then open_grouped_sections s + 1 else open_grouped_sections s
     | OpSectionEnd =>
         if truthy_Z (open_grouped_sections s) then open_grouped_sections s - 1
         else open_grouped_sections s
     | _ => open_grouped_sections s
     end)%Z /\
  (match o with OpSection t _ _ => curr_section s' = section_title s t | _ => True end).
Proof.
  intros (Hf & Hl & Ho) E. destruct o; cbn [step] in E.
  - destruct (section_spec s title group caller Hf)
      as (s1 & E1 & _ & Hcur & Hn & Ho1 & _).
    rewrite E1 in E. injection E as <-. cbv iota. repeat split; assumption.
  - destruct (section_end_spec s Hl)
      as (r & a & s1 & Hra & E1 & _ & _ & Hn & Ho1 & _).
    rewrite E1 in E. injection E as <-. cbv iota. split; [eauto|split; [assumption|exact I]].
  - rewrite debug_eq in E.
    edestruct submit_spec as (s1 & E1 & _ & _ & Hn & Ho1 & _); [exact Hf|].
    rewrite E1 in E. injection E as <-. cbv iota. repeat split; assumption.
  - rewrite info_eq in E.
    edestruct submit_spec as (s1 & E1 & _ & _ & Hn & Ho1 & _); [exact Hf|].
    rewrite E1 in E. injection E as <-. cbv iota. repeat split; assumption.
  - edestruct annotated_spec as (s1 & E1 & _ & _ & Hn & Ho1 & _); [exact Hf|].
    unfold notice in E. rewrite E1 in E. injection E as <-. cbv iota. repeat split; assumption.
  - edestruct annotated_spec as (s1 & E1 & _ & _ & Hn & Ho1 & _); [exact Hf|].
    unfold warning in E. rewrite E1 in E. injection E as <-. cbv iota. repeat split; assumption.
  - edestruct annotated_spec as (s1 & E1 & _ & _ & Hn & Ho1 & _); [exact Hf|].
    unfold error in E. rewrite E1 in E. injection E as <-. cbv iota. repeat split; assumption.
  - destruct (critical_spec s message title code sys_exit exit_code traceback caller Hf) as [Hx Hr].
    destruct (resolved_sys_exit (cfg s) sys_exit) eqn:Hse.
    + rewrite (Hx eq_refl) in E. discriminate.
    + destruct (Hr eq_refl) as (s1 & E1 & _ & _ & Hn & Ho1 & _).
      rewrite E1 in E. injection E as <-. cbv iota. repeat split; assumption.
Qed.

Lemma rooted_pop (n : Z) (l : list Z) :
  rooted_at n l ->
  exists tl0, (if (2 <? List.length l)%nat then removelast l else l) = n :: tl0 /\
              tl0 <> [] /\ Forall (fun x => (1 <= x)%Z) tl0.
Proof.
  intros (tl & -> & Hne & Hp).
  destruct (Nat.ltb_spec 2 (List.length (n :: tl))) as [H|H].
  - destruct (exists_last Hne) as (u & v & Ev).
    exists u. rewrite Ev in *. simpl in H. rewrite length_app in H. simpl in H.
    apply Forall_app in Hp as [Hu _].
    split; [|split; [|exact Hu]].
    + destruct u as [|x u]; [simpl in H; lia|].
      change (n :: (x :: u) ++ [v])%list with ((n :: x :: u) ++ [v])%list.
      rewrite removelast_last. reflexivity.
    + intros ->. simpl in H. lia.
  - exists tl. auto.
Qed.

Lemma rooted_incr (n : Z) (tl0 r : list Z) (a : Z) :
  n :: tl0 = (r ++ [a])%list -> tl0 <> [] -> Forall (fun x => (1 <= x)%Z) tl0 ->
  rooted_at n (r ++ [(a + 1)%Z])%list.
Proof.
  intros E Hne Hp. destruct r as [|y r'].
  - simpl in E. injection E as _ E. contradiction.
  - simpl in E. injection E as -> E. subst tl0.
    apply Forall_app in Hp as [Hr Ha]. inversion Ha as [|? ? Ha1 _]; subst.
    exists (r' ++ [(a + 1)%Z])%list. split; [reflexivity|]. split.
    + intros H. apply app_eq_nil in H as [_ H]. discriminate.
    + apply Forall_app. split; [exact Hr|]. constructor; [lia | constructor].
Qed.

Lemma rooted_step (n : Z) (s : Logger) (o : op) (s' : Logger) :
  Inv s -> rooted_at n (next_section_num s) -> step s o = Ret s' ->
  rooted_at n (next_section_num s').
Proof.
  intros Hv Hr E. destruct (step_fields s o s' Hv E) as (Hn & _).
  destruct o; try (rewrite Hn; exact Hr).
  - destruct Hr as (tl & Et & Hne & Hp). rewrite Hn, Et.
    exists (tl ++ [1%Z])%list. split; [reflexivity|]. split.
    + intros H. apply app_eq_nil in H as [_ H]. discriminate.
    + apply Forall_app. split; [exact Hp|]. constructor; [lia | constructor].
  - destruct Hn as (r & a & Hra & Hn). rewrite Hn.
    destruct (rooted_pop n _ Hr) as (tl0 & Ep & Hne & Hp).
    rewrite Ep in Hra. exact (rooted_incr n tl0 r a Hra Hne Hp).
Qed.

Lemma rooted_run (n : Z) (s : Logger) (ops : list op) (s' : Logger) :
  reachable s -> rooted_at n (next_section_num s) -> run s ops = Ret s' ->
  rooted_at n (next_section_num s').
Proof.
  revert s; induction ops as [|o ops IH]; intros s Hs Hr E; simpl in E.
  - injection E as <-. exact Hr.
  - destruct (step s o) as [s1| |] eqn:E1; try discriminate.
    apply (IH s1); [exact (reachable_step s o s1 Hs E1) | | exact E].
    exact (rooted_step n s o s1 (reachable_inv s Hs) Hr E1).
Qed.

Lemma open_run_github_off (s : Logger) (ops : list op) (s' : Logger) :
  reachable s -> github_console (cfg s) = false -> open_grouped_sections s = 0%Z ->
  run s ops = Ret s' -> open_grouped_sections s' = 0%Z.
Proof.
  revert s; induction ops as [|o ops IH]; intros s Hs G Ho E; simpl in E.
  - injection E as <-. exact Ho.
  - destruct (step s o) as [s1| |] eqn:E1; try discriminate.
    destruct (step_fields s o s1 (reachable_inv s Hs) E1) as (_ & Ho1 & _).
    destruct (step_grows s o s1 E1) as (C1 & _).
    apply (IH s1); [exact (reachable_step s o s1 Hs E1) | rewrite C1; exact G | | exact E].
    rewrite Ho1, G, Ho. destruct o; reflexivity.
Qed.

(** The state [__init__] builds before opening the root section. *)
Lemma init_start c n rh ht hs pf k s0 :
  init c n rh ht hs pf k = Ret s0 ->
  exists S0, section S0 rh false k = Ret s0 /\ cfg S0 = c /\ stdout S0 = [] /\
             (realtime_output c = false -> html_file S0 = pf).
Proof.
  unfold init. intros E.
  destruct (default_exit_code c) as [d|]; [destruct (d <=? 0)%Z; [discriminate|]|];
    cbn [bind] in E; cbv zeta in E;
    (match type of E with section ?x _ _ _ = _ => exists x end);
    (split; [exact E|]); cbn [cfg stdout html_file];
    (split; [reflexivity|]); (split; [reflexivity|]); intros R; rewrite R; reflexivity.
Qed.

(** Every call but [critical] returns on a state that keeps the invariant. *)
Lemma step_noncritical_ret (s : Logger) (o : op) :
  Inv s ->
  match o with
  | OpCritical _ _ _ _ _ _ _ => True
  | _ => exists s', step s o = Ret s'
  end.
Proof.
  intros (Hf & Hl & _). destruct o; cbn [step]; try exact I.
  - destruct (section_spec s title group caller Hf) as (s1 & E1 & _). eauto.
  - destruct (section_end_spec s Hl) as (r & a & s1 & _ & E1 & _). eauto.
  - rewrite debug_eq. edestruct submit_spec as (s1 & E1 & _); [exact Hf|]. eauto.
  - rewrite info_eq. edestruct submit_spec as (s1 & E1 & _); [exact Hf|]. eauto.
  - edestruct annotated_spec as (s1 & E1 & _); [exact Hf|]. eauto.
  - edestruct annotated_spec as (s1 & E1 & _); [exact Hf|]. eauto.
  - edestruct annotated_spec as (s1 & E1 & _); [exact Hf|]. eauto.
Qed.

(** [__init__] returns when the default exit code is absent or positive. *)
Lemma init_ok c n rh ht hs pf k :
  (forall d, default_exit_code c = Some d -> (0 < d)%Z) ->
  exists s, init c n rh ht hs pf k = Ret s.
Proof.
  intros Hd. unfold init.
  destruct (default_exit_code c) as [d|] eqn:D;
    [destruct (Z.leb_spec d 0); [specialize (Hd d eq_refl); lia|]|];
    cbn [bind]; cbv zeta;
    (match goal with |- exists s, section ?x _ _ _ = Ret s =>
       assert (Hf : file_inv x) by (intros R; cbn [cfg html_file log_html] in *; rewrite R; reflexivity);
       destruct (section_spec x rh false k Hf) as (s1 & E1 & _) end);
    eauto.
Qed.

End MoreFacts.
End LoggerMoreFacts.

(** * Further properties of [Logger] *)

Module LoggerExtras.
Import Logger Views ViewsMore StrFacts LoggerFacts LoggerLog LoggerMoreFacts.

Section Extras.
Context `{M : Markup}.

(** X1: [Logger.log] on a reachable logger: a level value that names no
    [LogLevel] raises [ValueError]; a level other than [CRITICAL] returns a
    reachable logger; the program can only exit when the level is
    [CRITICAL]. *)
Theorem log_level_dispatch (s : Logger) (lv : level_arg) (m t c : string)
    (se : option bool) (ec : option Z) (tb k : string) :
  reachable s ->
  (resolve_level lv = Raise ValueError -> log s lv m t c se ec tb k = Raise ValueError) /\
  (forall l, resolve_level lv = Ret l -> l <> CRITICAL ->
     exists s', log s lv m t c se ec tb k = Ret s' /\ reachable s') /\
  (forall code, log s lv m t c se ec tb k = Exit code -> resolve_level lv = Ret CRITICAL).
Proof.
  intros Hs. pose proof (reachable_inv s Hs) as Hv.
  assert (Hnc : forall o, match o with OpCritical _ _ _ _ _ _ _ => False | _ => True end ->
                  exists s', step s o = Ret s' /\ reachable s').
  { intros o Ho. pose proof (step_noncritical_ret s o Hv) as H.
    destruct o; try contradiction; destruct H as (s' & E);
      exists s'; exact (conj E (reachable_step s _ s' Hs E)). }
  split; [|split].
  - intros R. unfold log. rewrite R. reflexivity.
  - intros l R Hl. unfold log. rewrite R. cbn [bind].
    destruct l; [| | | | | contradiction].
    + exact (Hnc (OpDebug m t c) I).
    + exact (Hnc (OpInfo m t c) I).
    + exact (Hnc (OpNotice m t c) I).
    + exact (Hnc (OpWarning m t c) I).
    + exact (Hnc (OpError m t c) I).
  - intros code E. unfold log in E.
    destruct (resolve_level lv) as [l|x|x] eqn:R; cbn [bind] in E; try discriminate.
    + destruct l; try reflexivity; exfalso.
      * destruct (Hnc (OpDebug m t c) I) as (s' & E' & _). cbn [step] in E'. congruence.
      * destruct (Hnc (OpInfo m t c) I) as (s' & E' & _). cbn [step] in E'. congruence.
      * destruct (Hnc (OpNotice m t c) I) as (s' & E' & _). cbn [step] in E'. congruence.
      * destruct (Hnc (OpWarning m t c) I) as (s' & E' & _). cbn [step] in E'. congruence.
      * destruct (Hnc (OpError m t c) I) as (s' & E' & _). cbn [step] in E'. congruence.
    + exfalso. destruct lv as [l|v]; cbn [resolve_level] in R; [discriminate|].
      unfold LogLevel_of_value in R. repeat destruct (String.eqb _ _); discriminate.
Qed.

(** X4: the root number given to [__init__] stays the first counter
    through any calls, followed by at least one counter, all positive; every
    section opened afterwards is titled with the root number, a dot, the
    lower counters and two spaces. *)
Theorem section_numbers_keep_root (c : Config) (n : Z) (rh ht hs pf k : string)
    (s0 : Logger) (ops : list op) (s : Logger) :
  init c n rh ht hs pf k = Ret s0 -> run s0 ops = Ret s ->
  rooted_at n (next_section_num s) /\
  (forall t g k' s', section s t g k' = Ret s' ->
     exists tl, tl <> [] /\ Forall (fun x => (1 <= x)%Z) tl /\
       curr_section s' = str_Z n ++ "." ++ join "." (map str_Z tl) ++ "  " ++ t).
Proof.
  intros Hi Hr. pose proof (reachable_init _ _ _ _ _ _ _ _ Hi) as Hs0.
  destruct (init_spec _ _ _ _ _ _ _ _ Hi) as (_ & _ & Hn0 & _).
  assert (R0 : rooted_at n (next_section_num s0)).
  { rewrite Hn0. exists [1%Z]. split; [reflexivity|]. split; [discriminate|].
    constructor; [lia | constructor]. }
  pose proof (rooted_run n s0 ops s Hs0 R0 Hr) as Rs. split; [exact Rs|].
  intros t g k' s' E. pose proof (run_reachable _ _ _ Hs0 Hr) as Hs.
  destruct (step_fields s (OpSection t g k') s' (reachable_inv s Hs) E) as (_ & _ & Hc).
  destruct Rs as (tl & Et & Hne & Hp). exists tl. split; [exact Hne|]. split; [exact Hp|].
  rewrite Hc. unfold section_title. rewrite Et.
  destruct tl as [|x tl']; [contradiction|].
  change (map str_Z (n :: x :: tl')) with (str_Z n :: str_Z x :: map str_Z tl').
  rewrite join_cons by discriminate. rewrite !app_assoc_s. reflexivity.
Qed.

(** X5: the calls only append: the configuration is fixed, the console
    and HTML transcripts and stdout only grow, the HTML file is untouched
    with realtime output off, nothing is printed with realtime output and
    the GitHub console off, and once a section was closed the logger stays
    out of the root section. *)
Theorem calls_only_append (s : Logger) (ops : list op) (s' : Logger) :
  run s ops = Ret s' -> grows s s'.
Proof. exact (run_grows s ops s'). Qed.

(** X6: with realtime output off, the HTML file is never written: it
    keeps its prior content through [__init__] and any calls, up to their
    return or to the [sys.exit] of a [critical] call; with the GitHub
    console also off, nothing is printed. *)
Theorem realtime_off_writes_nothing (c : Config) (n : Z) (rh ht hs pf k : string)
    (s0 : Logger) (ops : list op) (s : Logger) :
  init c n rh ht hs pf k = Ret s0 -> realtime_output c = false -> run_end s0 ops = Ret s ->
  html_file s = pf /\ (github_console c = false -> stdout s = []).
Proof.
  intros Hi R Hr.
  destruct (init_start c n rh ht hs pf k s0 Hi) as (S0 & E0 & Hc & Hst & Hf).
  destruct (grows_trans S0 s0 s (step_grows S0 (OpSection rh false k) s0 E0) (run_end_grows s0 ops s Hr))
    as (_ & _ & _ & _ & F & P & _).
  rewrite Hc in F, P. split.
  - rewrite (F R). exact (Hf R).
  - intros G. rewrite (P R G). exact Hst.
Qed.

(** X7: with the GitHub console on, [notice], [warning] and [error] print
    their annotation even with realtime output off, and print nothing else. *)
Theorem annotation_printed_without_realtime (lv : LogLevel) (mt : Pprint.message_type)
    (s : Logger) (m t c : string) :
  reachable s -> realtime_output (cfg s) = false -> github_console (cfg s) = true ->
  exists s', annotated lv mt s m t c = Ret s' /\
    stdout s' = (stdout s ++ [Pprint.github_log mt (snd (format_entry (cfg s) lv m t c))
                                 (curr_section s) "" 0 0 0 0])%list.
Proof.
  intros Hs R G. destruct (reachable_inv s Hs) as (Hf & _).
  destruct (annotated_spec lv mt s m t c Hf) as (s' & E & _ & _ & _ & _ & _ & _ & Hst & _).
  exists s'. split; [exact E|]. rewrite Hst, R, G. reflexivity.
Qed.

(** X8: with the GitHub console off, no group is ever opened: the count of
    open groups stays 0, [section] writes its plain heading even when asked
    to group, and [section_end] writes nothing to the console. *)
Theorem github_off_no_groups (c : Config) (n : Z) (rh ht hs pf k : string)
    (s0 : Logger) (ops : list op) (s : Logger) :
  init c n rh ht hs pf k = Ret s0 -> github_console c = false -> run s0 ops = Ret s ->
  open_grouped_sections s = 0%Z /\
  (forall t g k' s', section s t g k' = Ret s' ->
     log_console s' = log_console s ++ section_console s t k' ++ nl /\
     open_grouped_sections s' = 0%Z) /\
  (forall s', section_end s = Ret s' ->
     log_console s' = log_console s /\ open_grouped_sections s' = 0%Z).
Proof.
  intros Hi G Hr. pose proof (reachable_init _ _ _ _ _ _ _ _ Hi) as Hs0.
  destruct (init_spec _ _ _ _ _ _ _ _ Hi) as (_ & Hc0 & _ & Ho0 & _).
  pose proof (run_reachable _ _ _ Hs0 Hr) as Hs.
  destruct (reachable_inv s Hs) as (Hf & Hl & _).
  destruct (run_grows s0 ops s Hr) as (Hc & _).
  assert (Gs : github_console (cfg s) = false) by (rewrite Hc, Hc0; exact G).
  assert (Ho : open_grouped_sections s = 0%Z).
  { apply (open_run_github_off s0 ops s Hs0); [rewrite Hc0; exact G | exact Ho0 | exact Hr]. }
  split; [exact Ho|]. split.
  - intros t g k' s' E.
    destruct (section_spec s t g k' Hf) as (s1 & E1 & _ & _ & _ & Ho1 & _ & Hlc & _).
    rewrite E1 in E. injection E as <-. rewrite Hlc, Ho1, Gs.
    split; [reflexivity | exact Ho].
  - intros s' E.
    destruct (section_end_spec s Hl) as (r & a & s1 & _ & E1 & _ & _ & _ & Ho1 & _ & Hlc & _).
    rewrite E1 in E. injection E as <-. rewrite Hlc, Ho1, Ho.
    split; [apply app_nil_r_s | reflexivity].
Qed.

End Extras.
End LoggerExtras.

(** * Further properties of [pprint] *)

Module PprintMoreFacts.
Import StrFacts PprintMore.

Lemma str_mul_nonpos (s : string) (k : Z) : (k <= 0)%Z -> str_mul s k = "".
Proof. intros H. unfold str_mul. replace (Z.to_nat k) with O by lia. reflexivity. Qed.

Lemma str_mul_max0 (s : string) (k : Z) : str_mul s k = str_mul s (Z.max 0 k).
Proof. unfold str_mul. f_equal. lia. Qed.

Lemma length_str_repeat (s : string) (n : nat) :
  String.length (str_repeat s n) = (n * String.length s)%nat.
Proof. induction n as [|n IH]; simpl; [reflexivity|]. rewrite length_app_s, IH. reflexivity. Qed.

Lemma length_spaces (k : Z) : Z.of_nat (String.length (str_mul " " k)) = Z.max 0 k.
Proof. unfold str_mul. rewrite length_str_repeat. simpl. lia. Qed.

Lemma ljust_eq (s : string) (w : Z) :
  ljust s w = s ++ str_mul " " (w - Z.of_nat (String.length s)).
Proof.
  unfold ljust, pad. destruct (Z.leb_spec w (Z.of_nat (String.length s))).
  - rewrite str_mul_nonpos by lia. symmetry. apply app_nil_r_s.
  - reflexivity.
Qed.

Lemma rjust_eq (s : string) (w : Z) :
  rjust s w = str_mul " " (w - Z.of_nat (String.length s)) ++ s.
Proof.
  unfold rjust, pad. destruct (Z.leb_spec w (Z.of_nat (String.length s))).
  - rewrite str_mul_nonpos by lia. reflexivity.
  - change (str_mul " " 0) with "". cbn [String.append]. rewrite app_nil_r_s. reflexivity.
Qed.

Lemma land_1 (x : Z) : Z.land x 1 = (x mod 2)%Z.
Proof. pose proof (Z.land_ones x 1 ltac:(lia)) as H. exact H. Qed.

Lemma center_eq (s : string) (w : Z) :
  exists l r, center s w = str_mul " " l ++ s ++ str_mul " " r /\
    (0 <= l /\ 0 <= r /\ l + r = Z.max 0 (w - Z.of_nat (String.length s)))%Z /\
    (l = r \/ (l = r + 1 /\ w mod 2 = 1) \/ (r = l + 1 /\ w mod 2 = 0))%Z.
Proof.
  unfold center. destruct (Z.leb_spec w (Z.of_nat (String.length s))).
  - exists 0%Z, 0%Z. split; [|split; [lia | left; reflexivity]].
    change (str_mul " " 0) with "". cbn [String.append]. symmetry. apply app_nil_r_s.
  - cbv zeta. set (marg := (w - Z.of_nat (String.length s))%Z).
    set (l := (marg / 2 + Z.land marg (Z.land w 1))%Z).
    exists l, (marg - l)%Z. split; [reflexivity|].
    assert (Hw : (w mod 2 = 0 \/ w mod 2 = 1)%Z) by (pose proof (Z.mod_pos_bound w 2); lia).
    assert (Hm : (marg mod 2 = 0 \/ marg mod 2 = 1)%Z) by (pose proof (Z.mod_pos_bound marg 2); lia).
    pose proof (Z.div_mod marg 2 ltac:(lia)) as Hd.
    subst l. rewrite (land_1 w).
    destruct Hw as [Hw|Hw]; rewrite Hw.
    + rewrite Z.land_0_r. lia.
    + rewrite land_1. lia.
Qed.

Lemma length_pad_spaces (s : string) (l r : Z) :
  Z.of_nat (String.length (str_mul " " l ++ s ++ str_mul " " r)) =
  (Z.max 0 l + Z.of_nat (String.length s) + Z.max 0 r)%Z.
Proof.
  rewrite !length_app_s, !Nat2Z.inj_add, !length_spaces. lia.
Qed.

End PprintMoreFacts.

Module PprintExtras.
Import StrFacts PprintMore PprintMoreFacts.

(** X9: [entry_console] joins with newlines, in this order, the top
    separator if non-empty, the title, the title separator if both it and
    the details are non-empty, the details if non-empty, and the bottom
    separator if non-empty. *)
Theorem entry_console_lines (title details top bottom stt : string) :
  entry_console title details top bottom stt =
  join nl ((if truthy_s top then [top] else [])
           ++ [title]
           ++ (if truthy_s stt && truthy_s details then [stt] else [])
           ++ (if truthy_s details then [details] else [])
           ++ (if truthy_s bottom then [bottom] else []))%list.
Proof.
  unfold entry_console.
  destruct (truthy_s top), (truthy_s stt), (truthy_s details), (truthy_s bottom);
    cbn [andb List.app join String.append]; rewrite ?app_assoc_s; reflexivity.
Qed.

(** X10: [str.ljust], [str.rjust] and [str.center] pad the text with
    spaces up to the width and never cut it: the result has the length of
    the larger of the width and the text; [ljust] pads on the right,
    [rjust] on the left, and [center] on both sides, the two paddings
    differing by at most one, the extra space going to the left when the
    width is odd and to the right when it is even. *)
Theorem justify_layout (s : string) (width : Z) :
  ljust s width = s ++ str_mul " " (width - Z.of_nat (String.length s)) /\
  rjust s width = str_mul " " (width - Z.of_nat (String.length s)) ++ s /\
  (exists l r, center s width = str_mul " " l ++ s ++ str_mul " " r /\
     (0 <= l /\ 0 <= r /\ l + r = Z.max 0 (width - Z.of_nat (String.length s)))%Z /\
     (l = r \/ (l = r + 1 /\ width mod 2 = 1) \/ (r = l + 1 /\ width mod 2 = 0))%Z) /\
  Z.of_nat (String.length (ljust s width)) = Z.max width (Z.of_nat (String.length s)) /\
  Z.of_nat (String.length (rjust s width)) = Z.max width (Z.of_nat (String.length s)) /\
  Z.of_nat (String.length (center s width)) = Z.max width (Z.of_nat (String.length s)).
Proof.
  destruct (center_eq s width) as (l & r & Ec & Hlr & Hp).
  split; [apply ljust_eq|]. split; [apply rjust_eq|]. split; [eauto|].
  split; [|split].
  - rewrite ljust_eq, length_app_s, Nat2Z.inj_add, length_spaces. lia.
  - rewrite rjust_eq, length_app_s, Nat2Z.inj_add, length_spaces. lia.
  - rewrite Ec, length_pad_spaces. lia.
Qed.

Section Heading.
Context `{M : Markup} `{St : SgrStyle}.

(** X11: [h] returns [margin_top] newlines, the title padded with spaces
    to the width and wrapped by [sgr.format] with the control sequence of
    the style, then [margin_bottom] newlines; the title is padded only on
    the right for align "left", only on the left for "right", and on both
    sides, differing by at most one, for any other value. *)
Theorem heading_layout (title : string) (width : Z) (align : string) (mt mb : Z)
    (ts : text_styles_t) (tc bc : color_t) :
  exists l r,
    h title width align mt mb ts tc bc =
      str_mul nl mt ++ sgr_format (str_mul " " l ++ title ++ str_mul " " r) (sgr_style ts tc bc)
      ++ str_mul nl mb /\
    (0 <= l /\ 0 <= r /\ l + r = Z.max 0 (width - Z.of_nat (String.length title)))%Z /\
    (align = "left" -> l = 0%Z) /\
    (align = "right" -> r = 0%Z) /\
    (align <> "left" -> align <> "right" ->
       (l = r \/ (l = r + 1 /\ width mod 2 = 1) \/ (r = l + 1 /\ width mod 2 = 0))%Z).
Proof.
  unfold h. cbv zeta.
  destruct (String.eqb_spec align "left") as [Hl|Hl];
    [|destruct (String.eqb_spec align "right") as [Hr|Hr]].
  - exists 0%Z, (Z.max 0 (width - Z.of_nat (String.length title)))%Z.
    rewrite ljust_eq, (str_mul_max0 " "). change (str_mul " " 0) with "". cbn [String.append].
    split; [reflexivity|]. split; [lia|].
    split; [reflexivity|]. split; [intros E; rewrite Hl in E; discriminate|].
    intros H. contradiction.
  - exists (Z.max 0 (width - Z.of_nat (String.length title)))%Z, 0%Z.
    rewrite rjust_eq, (str_mul_max0 " " (width - _)). change (str_mul " " 0) with "". rewrite app_nil_r_s.
    split; [reflexivity|]. split; [lia|].
    split; [intros E; rewrite Hr in E; discriminate|]. split; [reflexivity|].
    intros _ H. contradiction.
  - destruct (center_eq title width) as (l & r & Ec & Hlr & Hp).
    exists l, r. rewrite Ec. split; [reflexivity|]. split; [exact Hlr|].
    split; [intros E; contradiction|]. split; [intros E; contradiction|].
    intros _ _. exact Hp.
Qed.

End Heading.
End PprintExtras.

(** * Facts about [actionman.io] *)

Module IoFacts.
Import Logger Views ViewsMore StrFacts LoggerFacts LoggerLog LoggerMoreFacts Io IoViews.

Section IoFacts.
Context `{M : Markup} `{C : Casts}.

Lemma io_bind_ret {A B} (a : A) (k : A -> io B) lg : io_bind (ret a) k lg = k a lg.
Proof. reflexivity. Qed.

Lemma io_bind_raise {A B} (e : io_exn) (k : A -> io B) lg : io_bind (raise e) k lg = IoRaise e lg.
Proof. reflexivity. Qed.

Lemma ret_apply {A} (a : A) lg : ret a lg = IoRet a lg.
Proof. reflexivity. Qed.

Lemma raise_apply {A} (e : io_exn) lg : @raise A e lg = IoRaise e lg.
Proof. reflexivity. Qed.

Lemma io_bind_assoc {A B D} (m : io A) (k1 : A -> io B) (k2 : B -> io D) lg :
  io_bind (io_bind m k1) k2 lg = io_bind m (fun a => io_bind (k1 a) k2) lg.
Proof. unfold io_bind. destruct (m lg); reflexivity. Qed.

Lemma io_bind_wl_none {B} (f : Logger -> outcome Logger) (k : unit -> io B) :
  io_bind (with_logger f) k None = k tt None.
Proof. reflexivity. Qed.

Lemma io_bind_wl_ret {B} (f : Logger -> outcome Logger) (k : unit -> io B) s s' :
  f s = Ret s' -> io_bind (with_logger f) k (Some s) = k tt (Some s').
Proof. intros E. unfold io_bind, with_logger. rewrite E. reflexivity. Qed.

Lemma io_bind_wl_exit {B} (f : Logger -> outcome Logger) (k : unit -> io B) s c :
  f s = Exit c -> io_bind (with_logger f) k (Some s) = IoExit c.
Proof. intros E. unfold io_bind, with_logger. rewrite E. reflexivity. Qed.

Lemma bind_never_ret {A B} (m : io A) (k : A -> io B) lg x lg' :
  (forall a lg1, k a lg1 <> IoRet x lg') -> io_bind m k lg <> IoRet x lg'.
Proof. intros Hk. unfold io_bind. destruct (m lg); try discriminate. apply Hk. Qed.

Lemma lower_empty (v : string) : lower v = "" -> v = "".
Proof. destruct v; [reflexivity | discriminate]. Qed.

(** With the GitHub console off no group is open in a reachable state. *)
Lemma reachable_github_off_open (s : Logger) :
  reachable s -> github_console (cfg s) = false -> open_grouped_sections s = 0%Z.
Proof.
  induction 1 as [c n rh ht hs pf k s E | s o s' Hs IH E]; intros G.
  - destruct (init_spec _ _ _ _ _ _ _ _ E) as (_ & _ & _ & Ho & _). exact Ho.
  - destruct (step_fields s o s' (reachable_inv s Hs) E) as (_ & Ho1 & _).
    destruct (step_grows s o s' E) as (Hc & _).
    rewrite Hc in G. rewrite Ho1, G, (IH G). destruct o; reflexivity.
Qed.

Lemma run_flat (s : Logger) (ops : list op) (s' : Logger) :
  reachable s -> Forall flat ops -> run s ops = Ret s' ->
  reachable s' /\ next_section_num s' = next_section_num s /\
  open_grouped_sections s' = open_grouped_sections s.
Proof.
  revert s; induction ops as [|o ops IH]; intros s Hs Hf E; simpl in E.
  - injection E as <-. auto.
  - destruct (step s o) as [s1| |] eqn:E1; try discriminate.
    inversion Hf as [|? ? Ho Hf']; subst.
    destruct (step_fields s o s1 (reachable_inv s Hs) E1) as (Hn & Ho1 & _).
    destruct (IH s1 (reachable_step s o s1 Hs E1) Hf' E) as (Hr & Hn' & Ho').
    split; [exact Hr|].
    destruct o; try contradiction; rewrite Hn', Ho'; split; assumption.
Qed.

(** A grouped section with calls inside and its [section_end]: the open
    groups are restored and the last counter of the enclosing level is
    incremented. *)
Lemma run_grouped_block (s : Logger) (t k : string) (ops : list op) (s' : Logger) :
  reachable s -> Forall flat ops ->
  run s (OpSection t true k :: ops ++ [OpSectionEnd])%list = Ret s' ->
  reachable s' /\ open_grouped_sections s' = open_grouped_sections s /\
  (forall r a, next_section_num s = (r ++ [a])%list ->
               next_section_num s' = (r ++ [(a + 1)%Z])%list).
Proof.
  intros Hs Hf E. cbn [run] in E.
  destruct (step s (OpSection t true k)) as [s1| |] eqn:E1; try discriminate.
  cbn [bind] in E. rewrite run_app in E.
  destruct (run s1 ops) as [s2| |] eqn:E2; try discriminate.
  cbn [bind run] in E.
  destruct (step s2 OpSectionEnd) as [s3| |] eqn:E3; try discriminate.
  cbn [bind] in E. injection E as <-.
  pose proof (reachable_step s _ s1 Hs E1) as Hs1.
  destruct (run_flat s1 ops s2 Hs1 Hf E2) as (Hs2 & Hn2 & Ho2).
  destruct (step_fields s _ s1 (reachable_inv s Hs) E1) as (Hn1 & Ho1 & _).
  destruct (step_fields s2 _ s3 (reachable_inv s2 Hs2) E3) as ((r' & a' & Hp & Hn3) & Ho3 & _).
  cbv beta iota in Hn1, Ho1, Hn3, Ho3.
  destruct (reachable_inv s Hs) as (_ & Hl & Hpos).
  split; [exact (reachable_step s2 _ s3 Hs2 E3)|]. split.
  - rewrite Ho3, Ho2, Ho1.
    destruct (github_console (cfg s)) eqn:G; cbn [andb orb].
    + unfold truthy_Z. destruct (Z.eqb_spec (open_grouped_sections s + 1) 0); simpl; lia.
    + rewrite (reachable_github_off_open s Hs G). reflexivity.
  - intros r a Hra. rewrite Hn3.
    assert (L : (2 < List.length (next_section_num s2))%nat)
      by (rewrite Hn2, Hn1, length_app; simpl; lia).
    apply Nat.ltb_lt in L. rewrite L in Hp.
    rewrite Hn2, Hn1, Hra, removelast_last in Hp.
    apply app_inj_tail in Hp as [<- <-]. reflexivity.
Qed.

End IoFacts.

(** Rewriting steps of an [io] computation run on a given logger, in a
    hypothesis. *)
Ltac io_simp H :=
  match type of H with
  | context [io_bind (io_bind ?m ?k1) ?k2 ?lg] => rewrite (io_bind_assoc m k1 k2 lg) in H
  | context [io_bind (ret ?a) ?k ?lg] => rewrite (io_bind_ret a k lg) in H
  | context [io_bind (raise ?e) ?k ?lg] => rewrite (io_bind_raise e k lg) in H
  | context [io_bind (with_logger ?f) ?k None] => rewrite (io_bind_wl_none f k) in H
  | context [log_entry ?l ?m ?t ?c ?tb] => unfold log_entry in H
  | context [ret ?a ?lg] => rewrite (ret_apply a lg) in H
  | context [raise ?e ?lg] => rewrite (raise_apply e lg) in H
  end; cbv beta in H.

(** The call a logger method makes, as an [op]. *)
Ltac logger_op t :=
  match t with
  | section _ ?ti ?g ?ca => constr:(OpSection ti g ca)
  | section_end _ => constr:(OpSectionEnd)
  | debug _ ?m ?ti ?c => constr:(OpDebug m ti c)
  | info _ ?m ?ti ?c => constr:(OpInfo m ti c)
  | log _ (LvLevel INFO) ?m ?ti ?c _ _ _ _ => constr:(OpInfo m ti c)
  | log _ (LvLevel DEBUG) ?m ?ti ?c _ _ _ _ => constr:(OpDebug m ti c)
  end.

(** A call other than [critical] on a reachable logger returns a reachable
    logger. *)
Ltac io_call H :=
  match type of H with
  | context [io_bind (with_logger ?f) ?k (Some ?s)] =>
      let t := eval cbv beta in (f s) in
      let o := logger_op t in
      let Hr := match goal with Hr : reachable s |- _ => Hr end in
      let E := fresh "E" in
      let s' := fresh "s" in
      let Hr' := fresh "Hr" in
      destruct (step_noncritical_ret s o (reachable_inv s Hr)) as (s' & E);
      pose proof (reachable_step s o s' Hr E) as Hr';
      rewrite (io_bind_wl_ret f k s s' E) in H; cbv beta in H
  end.

Ltac io_run H := repeat (first [io_simp H | io_call H]).

(** The run ends in an exception: it never returns. *)
Ltac never_ret :=
  let Hc := fresh "Hc" in
  first [ intro Hc; rewrite ?io_bind_assoc, ?io_bind_raise, ?raise_apply in Hc; discriminate Hc
        | rewrite io_bind_assoc; never_ret
        | apply bind_never_ret; let a := fresh "a" in let l := fresh "l" in
          intros a l; cbv beta; never_ret ].

(** Replays the recorded calls in a goal [run s ops = Ret s']. *)
Ltac run_trace :=
  cbn [run List.app];
  repeat match goal with
         | E : step ?a ?o = Ret ?b |- context [step ?a ?o] => rewrite E; cbn [bind]
         end;
  reflexivity.

Section ReadFacts.
Context `{M : Markup} `{C : Casts}.

(** A read that returns on a reachable logger returns what it returns
    without a logger, and the logger records the calls of [read_ops]. *)
Lemma read_success (env : string -> option string) (name : string) (ty : typ)
    (req mask : bool) (s : Logger) (x : pyval) (lg' : option Logger) :
  reachable s -> read_environment_variable env name ty req mask (Some s) = IoRet x lg' ->
  read_environment_variable env name ty req mask None = IoRet x None /\
  exists s', lg' = Some s' /\ run s (read_ops env name ty req mask) = Ret s'.
Proof.
  intros Hs H. unfold read_environment_variable in H. cbv zeta in H.
  io_run H.
  destruct (env name) as [v|] eqn:Henv; cbv beta iota in H.
  2: { destruct req; cbv beta iota in H; [exfalso; revert H; never_ret|].
       io_run H. injection H as <- <-. split.
       - unfold read_environment_variable. cbv zeta. rewrite Henv. reflexivity.
       - eexists. split; [reflexivity|]. unfold read_ops, read_section_ops. rewrite Henv.
         run_trace. }
  destruct ty; cbv beta iota in H;
    try (match type of H with
         | context [io_bind (if ?b then _ else _) _ _] => destruct b eqn:Hb
         | context [match ?m with inl _ => _ | inr _ => _ end] => destruct m eqn:Hb
         end; cbv beta iota in H);
    try (exfalso; revert H; never_ret);
    io_run H; try discriminate H;
    injection H as <- <-; (split;
    [ unfold read_environment_variable; cbv zeta; rewrite Henv; try rewrite Hb; reflexivity
    | eexists; split; [reflexivity|]; unfold read_ops, read_section_ops; rewrite Henv;
      run_trace ]).
Qed.

End ReadFacts.
End IoFacts.

Module IoMoreFacts.
Import Logger Views ViewsMore StrFacts LoggerFacts LoggerLog LoggerMoreFacts Io IoViews IoFacts.

Section IoMoreFacts.
Context `{M : Markup} `{C : Casts}.

(** The section a read opens, and the debug entry of its arguments. *)
Lemma run_section_debug (s : Logger) (t k m ti c : string) (s' : Logger) :
  reachable s -> run s [OpSection t true k; OpDebug m ti c] = Ret s' ->
  reachable s' /\ next_section_num s' = (next_section_num s ++ [1%Z])%list /\
  open_grouped_sections s' =
    (if github_console (cfg s) then open_grouped_sections s + 1 else open_grouped_sections s)%Z.
Proof.
  intros Hs E. cbn [run] in E.
  destruct (step s (OpSection t true k)) as [s1| |] eqn:E1; try discriminate.
  cbn [bind] in E.
  destruct (step s1 (OpDebug m ti c)) as [s2| |] eqn:E2; try discriminate.
  cbn [bind] in E. injection E as <-.
  pose proof (reachable_step s _ s1 Hs E1) as Hs1.
  destruct (step_fields s _ s1 (reachable_inv s Hs) E1) as (Hn1 & Ho1 & _).
  destruct (step_fields s1 _ s2 (reachable_inv s1 Hs1) E2) as (Hn2 & Ho2 & _).
  cbv beta iota in Hn1, Ho1, Hn2, Ho2.
  split; [exact (reachable_step s1 _ s2 Hs1 E2)|].
  rewrite Hn2, Hn1, Ho2, Ho1. split; [reflexivity|].
  destruct (github_console (cfg s)); reflexivity.
Qed.

(** A read without a logger returns without a logger. *)
Lemma read_none_logger (env : string -> option string) (name : string) (ty : typ)
    (req mask : bool) (x : pyval) (lg' : option Logger) :
  read_environment_variable env name ty req mask None = IoRet x lg' -> lg' = None.
Proof.
  intros H. unfold read_environment_variable in H. cbv zeta in H.
  io_run H.
  destruct (env name) as [v|] eqn:Henv; cbv beta iota in H.
  2: { destruct req; cbv beta iota in H; io_run H; [discriminate H|].
       injection H as _ <-. reflexivity. }
  destruct ty; cbv beta iota in H;
    try (match type of H with
         | context [io_bind (if ?b then _ else _) _ _] => destruct b eqn:Hb
         | context [match ?m with inl _ => _ | inr _ => _ end] => destruct m eqn:Hb
         end; cbv beta iota in H);
    io_run H; try discriminate H; injection H as _ <-; reflexivity.
Qed.

Lemma dict_set_keys {A} (d : list (string * A)) (k : string) (v : A) (x : string) :
  In x (map fst (dict_set d k v)) <-> x = k \/ In x (map fst d).
Proof.
  induction d as [|[k' v'] d IH]; cbn [dict_set map fst].
  - simpl. intuition congruence.
  - destruct (String.eqb_spec k k') as [->|Hne]; cbn [map fst In].
    + intuition congruence.
    + rewrite IH. intuition congruence.
Qed.

Lemma dict_set_nodup {A} (d : list (string * A)) (k : string) (v : A) :
  NoDup (map fst d) -> NoDup (map fst (dict_set d k v)).
Proof.
  induction d as [|[k' v'] d IH]; intros Hd; cbn [dict_set map fst].
  - constructor; [intros []|constructor].
  - inversion Hd as [|? ? Hn Hd']; subst.
    destruct (String.eqb_spec k k') as [->|Hne]; cbn [map fst].
    + constructor; assumption.
    + constructor; [|exact (IH Hd')].
      rewrite dict_set_keys. intros [E|E]; [congruence | contradiction].
Qed.

Lemma dict_set_in {A} (d : list (string * A)) (k : string) (v : A) (x : string) (val : A) :
  NoDup (map fst d) -> In (x, val) (dict_set d k v) ->
  (x = k /\ val = v) \/ (x <> k /\ In (x, val) d).
Proof.
  induction d as [|[k' v'] d IH]; intros Hd Hin; cbn [dict_set] in Hin.
  - destruct Hin as [E|[]]. injection E as <- <-. left. auto.
  - inversion Hd as [|? ? Hn Hd']; subst.
    destruct (String.eqb_spec k k') as [->|Hne].
    + destruct Hin as [E|Hin]; [injection E as <- <-; left; auto|].
      right. split; [|right; exact Hin].
      intros ->. apply Hn. apply (in_map fst) in Hin. exact Hin.
    + destruct Hin as [E|Hin].
      * injection E as <- <-. right. split; [congruence | left; reflexivity].
      * destruct (IH Hd' Hin) as [H|[H1 H2]]; [left; exact H | right; split; [exact H1 | right; exact H2]].
Qed.

End IoMoreFacts.
End IoMoreFacts.

(** * Further properties of [actionman.io] *)

Module IoExtras.
Import Logger Views ViewsMore StrFacts LoggerFacts LoggerLog LoggerMoreFacts Io IoViews IoFacts
       IoMoreFacts.

Section IoExtras.
Context `{M : Markup} `{C : Casts}.

(** X12: a boolean variable is read case-insensitively: its lowercase form
    "true" gives [True]; "false" in any case and the empty string give
    [False]; any other value raises [TypeError] "Environment variable NAME
    could not be cast to boolean.". *)
Theorem read_bool_variable (env : string -> option string) (name : string) (req mask : bool)
    (v : string) :
  env name = Some v ->
  (lower v = "true" ->
   read_environment_variable env name TBool req mask None = IoRet (PBool true) None) /\
  (lower v = "false" \/ v = "" ->
   read_environment_variable env name TBool req mask None = IoRet (PBool false) None) /\
  (lower v <> "true" -> lower v <> "false" -> v <> "" ->
   read_environment_variable env name TBool req mask None =
   IoRaise (PyTypeError ("Environment variable " ++ name ++ " could not be cast to boolean.")) None).
Proof.
  intros Henv. unfold read_environment_variable. cbv zeta. rewrite Henv.
  split; [|split].
  - intros Hl. rewrite Hl. reflexivity.
  - intros [Hl | ->]; [rewrite Hl|]; reflexivity.
  - intros H1 H2 H3.
    assert (H4 : lower v <> "") by (intros E; apply H3; exact (lower_empty v E)).
    apply String.eqb_neq in H1, H2, H4. rewrite H1, H2, H4. reflexivity.
Qed.

(** X13: a variable that is not set: read as optional it gives [None],
    logging an info entry; read as required without a logger it raises
    [ValueError] "Required environment variable 'NAME' is not set."; with a
    reachable logger that has a default exit code the critical entry exits
    the program with that code; with a reachable logger without one it
    raises the [ValueError] and leaves a reachable logger. *)
Theorem missing_variable (env : string -> option string) (name : string) (ty : typ) (mask : bool)
    (s : Logger) :
  env name = None -> reachable s ->
  read_environment_variable env name ty false mask None = IoRet PNone None /\
  (exists s', read_environment_variable env name ty false mask (Some s) = IoRet PNone (Some s') /\
              reachable s') /\
  read_environment_variable env name ty true mask None =
    IoRaise (PyValueError ("Required environment variable '" ++ name ++ "' is not set.")) None /\
  (forall d, default_exit_code (cfg s) = Some d ->
     read_environment_variable env name ty true mask (Some s) = IoExit (Some d)) /\
  (default_exit_code (cfg s) = None ->
     exists s', read_environment_variable env name ty true mask (Some s) =
                IoRaise (PyValueError ("Required environment variable '" ++ name ++ "' is not set."))
                        (Some s') /\ reachable s').
Proof.
  intros Henv Hs.
  split; [unfold read_environment_variable; cbv zeta; rewrite Henv; reflexivity|].
  split.
  { remember (read_environment_variable env name ty false mask (Some s)) as X eqn:H.
    unfold read_environment_variable in H. cbv zeta in H. io_run H.
    rewrite Henv in H. cbv beta iota in H. io_run H.
    match type of H with _ = IoRet _ (Some ?s4) => exists s4 end.
    split; [exact H | assumption]. }
  split; [unfold read_environment_variable; cbv zeta; rewrite Henv; reflexivity|].
  remember (read_environment_variable env name ty true mask (Some s)) as X eqn:H.
  unfold read_environment_variable in H. cbv zeta in H. io_run H.
  rewrite Henv in H. cbv beta iota in H. io_run H.
  match type of H with
  | context [io_bind (with_logger ?f) ?k (Some ?s2)] =>
      assert (Hc : cfg s2 = cfg s);
      [ repeat match goal with E : step _ _ = Ret _ |- _ =>
                 apply step_grows in E; destruct E as (?Hc & _) end; congruence |];
      assert (Hr2 : reachable s2) by assumption;
      destruct (critical_spec s2 ("Required environment variable '" ++ name ++ "' is not set.")
                  "" "" None None no_exception_traceback "actionman.io.log"
                  (proj1 (reachable_inv s2 Hr2))) as [Hx Hret];
      split;
      [ intros d Hd;
        assert (Hse : resolved_sys_exit (cfg s2) None = true)
          by (unfold resolved_sys_exit; rewrite Hc, Hd; reflexivity);
        rewrite (io_bind_wl_exit f k s2 _ (Hx Hse)) in H; rewrite H, Hc, Hd; reflexivity
      | intros Hd;
        assert (Hse : resolved_sys_exit (cfg s2) None = false)
          by (unfold resolved_sys_exit; rewrite Hc, Hd; reflexivity);
        destruct (Hret Hse) as (s3 & E3 & _);
        pose proof (reachable_step s2 (OpCritical ("Required environment variable '" ++ name
                      ++ "' is not set.") "" "" None None no_exception_traceback "actionman.io.log")
                      s3 Hr2 E3) as Hr3;
        rewrite (io_bind_wl_ret f k s2 s3 E3) in H; cbv beta in H; io_run H;
        match type of H with _ = IoRaise _ (Some ?s4) => exists s4 end;
        split; [exact H | assumption] ]
  end.
Qed.

(** X14: a read that returns on a reachable logger returns the same value
    as without a logger; the logger records exactly the calls of
    [read_ops] (the grouped section, the debug entry of the arguments, the
    info entries, the masked or plain value, [section_end]), stays
    reachable, keeps its count of open groups, and moves to the next
    section number of its level. *)
Theorem read_logger_transparent (env : string -> option string) (name : string) (ty : typ)
    (req mask : bool) (s : Logger) (x : pyval) (lg' : option Logger) :
  reachable s -> read_environment_variable env name ty req mask (Some s) = IoRet x lg' ->
  read_environment_variable env name ty req mask None = IoRet x None /\
  exists s', lg' = Some s' /\ run s (read_ops env name ty req mask) = Ret s' /\
    reachable s' /\ open_grouped_sections s' = open_grouped_sections s /\
    (forall r a, next_section_num s = (r ++ [a])%list ->
                 next_section_num s' = (r ++ [(a + 1)%Z])%list).
Proof.
  intros Hs H. destruct (read_success env name ty req mask s x lg' Hs H) as (Hn & s' & -> & Hr).
  split; [exact Hn|]. exists s'. split; [reflexivity|]. split; [exact Hr|].
  unfold read_ops, read_section_ops in Hr. destruct (env name); cbn [List.app] in Hr.
  - refine (run_grouped_block s _ _ [_; _; _] s' Hs _ Hr). repeat constructor.
  - refine (run_grouped_block s _ _ [_; _] s' Hs _ Hr). repeat constructor.
Qed.

(** X15: a type other than [str], [bool], [int], [float], [list] and
    [dict] raises [TypeError] for a set variable, after the logger opened
    the section of the read; the section is left open: the logger has one
    more section counter and, with the GitHub console on, one more open
    group. *)
Theorem unsupported_type_leaves_section_open (env : string -> option string) (name : string)
    (tn tr : string) (req mask : bool) (s : Logger) (v : string) :
  env name = Some v -> reachable s ->
  exists s', read_environment_variable env name (TOther tn tr) req mask (Some s) =
    IoRaise (PyTypeError ("The specified type '" ++ tr ++ "' for environment variable '"
                          ++ name ++ "' is not supported.")) (Some s') /\
    reachable s' /\ next_section_num s' = (next_section_num s ++ [1%Z])%list /\
    open_grouped_sections s' =
      (if github_console (cfg s) then open_grouped_sections s + 1 else open_grouped_sections s)%Z.
Proof.
  intros Henv Hs.
  remember (read_environment_variable env name (TOther tn tr) req mask (Some s)) as X eqn:H.
  unfold read_environment_variable in H. cbv zeta in H. io_run H.
  rewrite Henv in H. cbv beta iota in H. io_run H.
  match type of H with _ = IoRaise _ (Some ?s2) => exists s2 end.
  split; [exact H|].
  match type of H with
  | _ = IoRaise _ (Some ?s2) =>
      assert (Hrun : run s (read_section_ops name (TOther tn tr) req mask) = Ret s2)
        by (unfold read_section_ops; run_trace)
  end.
  exact (run_section_debug s _ _ _ _ _ _ Hs Hrun).
Qed.

(** X16: with [mask_value], what a successful read logs does not depend
    on the value: two reads of a set variable from the same logger, with
    different values, leave the same logger. *)
Theorem masked_value_not_logged (env1 env2 : string -> option string) (name : string) (ty : typ)
    (req : bool) (s : Logger) (v1 v2 : string) (x1 x2 : pyval) (lg1 lg2 : option Logger) :
  reachable s -> env1 name = Some v1 -> env2 name = Some v2 ->
  read_environment_variable env1 name ty req true (Some s) = IoRet x1 lg1 ->
  read_environment_variable env2 name ty req true (Some s) = IoRet x2 lg2 ->
  lg1 = lg2.
Proof.
  intros Hs Hv1 Hv2 H1 H2.
  destruct (read_success env1 name ty req true s x1 lg1 Hs H1) as (_ & s1 & -> & R1).
  destruct (read_success env2 name ty req true s x2 lg2 Hs H2) as (_ & s2 & -> & R2).
  assert (Eo : read_ops env1 name ty req true = read_ops env2 name ty req true)
    by (unfold read_ops; rewrite Hv1, Hv2; reflexivity).
  rewrite Eo, R2 in R1. injection R1 as ->. reflexivity.
Qed.

(** X17: [read_environment_variables] without a logger: the returned dict
    has each name of [variables_data] once, and no other key; the value of
    a name is what [read_environment_variable] returns for the prefixed
    name and the type and flags of its last entry. *)
Theorem read_variables_without_logger (env : string -> option string)
    (vds : list (string * typ * bool * bool)) (prefix lsn : string)
    (vars : list (string * pyval)) :
  read_environment_variables env vds prefix lsn None = IoRet vars None ->
  NoDup (map fst vars) /\
  (forall k, In k (map fst vars) <-> In k (variable_names vds)) /\
  (forall k val, In (k, val) vars ->
     exists pre ty req mask post, vds = (pre ++ (k, ty, req, mask) :: post)%list /\
       ~ In k (variable_names post) /\
       read_environment_variable env (prefix ++ k) ty req mask None = IoRet val None).
Proof.
  unfold read_environment_variables. intros H.
  rewrite io_bind_wl_none in H. cbv beta in H.
  match type of H with context [fold_left ?F _ _] => set (F0 := F) in H end.
  set (P := fun (l : list (string * typ * bool * bool)) (vars : list (string * pyval)) =>
    NoDup (map fst vars) /\
    (forall k, In k (map fst vars) <-> In k (variable_names l)) /\
    (forall k val, In (k, val) vars ->
       exists pre ty req mask post, l = (pre ++ (k, ty, req, mask) :: post)%list /\
         ~ In k (variable_names post) /\
         read_environment_variable env (prefix ++ k) ty req mask None = IoRet val None)).
  assert (G : forall l vs lg', fold_left F0 l (ret []) None = IoRet vs lg' -> lg' = None /\ P l vs).
  { induction l as [|vd l IH] using rev_ind; intros vs lg' Hf.
    - cbn [fold_left] in Hf. injection Hf as <- <-. split; [reflexivity|].
      split; [constructor|]. split; [intros k; reflexivity | intros k val []].
    - rewrite fold_left_app in Hf. cbn [fold_left] in Hf.
      destruct vd as [[[nm ty] req] mask].
      unfold F0 in Hf. cbv beta iota in Hf. fold F0 in Hf.
      unfold io_bind in Hf.
      destruct (fold_left F0 l (ret []) None) as [v0 lg0| | |] eqn:E0; try discriminate.
      destruct (IH v0 lg0 eq_refl) as (-> & Hnd & Hk & Hv).
      destruct (read_environment_variable env (prefix ++ nm) ty req mask None)
        as [v lg1| | |] eqn:E1; try discriminate.
      pose proof (read_none_logger _ _ _ _ _ _ _ E1) as ->.
      rewrite ret_apply in Hf. injection Hf as <- <-.
      split; [reflexivity|]. split; [|split].
      + exact (dict_set_nodup v0 nm v Hnd).
      + intros k. rewrite dict_set_keys, Hk. unfold variable_names.
        rewrite map_app, in_app_iff. cbn [map In fst]. intuition congruence.
      + intros k val Hin. destruct (dict_set_in v0 nm v k val Hnd Hin) as [[-> ->]|[Hne Hin']].
        * exists l, ty, req, mask, []. split; [reflexivity|]. split; [intros []|exact E1].
        * destruct (Hv k val Hin') as (pre & ty' & req' & mask' & post & El & Hnp & Er).
          exists pre, ty', req', mask', (post ++ [(nm, ty, req, mask)])%list.
          split; [rewrite El, <- app_assoc; reflexivity|]. split; [|exact Er].
          unfold variable_names in *. rewrite map_app, in_app_iff. cbn [map In fst].
          intuition congruence. }
  unfold io_bind in H.
  destruct (fold_left F0 vds (ret []) None) as [vs lg'| | |] eqn:Ef; try discriminate.
  destruct (G vds vs lg' Ef) as (-> & HP).
  cbn [with_logger] in H. rewrite ret_apply in H. injection H as <-. exact HP.
Qed.

End IoExtras.
End IoExtras.

(** * Witnesses of the further properties *)

Module ExtraExamples.
Import Logger Views ViewsMore LoggerLog PprintMore Io IoViews Concrete Concrete2
       LoggerExtras IoExtras.
#[local] Existing Instance M0.
#[local] Existing Instance CastsEx.

Lemma quiet_eq : init c_quiet 1 "Log" "Log" "" "prior" "__main__.main" = Ret quiet_state.
Proof. vm_compute. reflexivity. Qed.

Lemma annot_eq : init c_annot 1 "Log" "Log" "" "" "__main__.main" = Ret annot_state.
Proof. vm_compute. reflexivity. Qed.

(** X1: "INFO" is not a level value: [log] raises [ValueError]. *)
Lemma log_level_dispatch_witness :
  reachable fresh_state /\
  log fresh_state (LvStr "INFO") "m" "" "" None None no_traceback "k" = Raise ValueError.
Proof.
  split; [exact Examples.fresh_reachable|].
  apply (proj1 (log_level_dispatch fresh_state (LvStr "INFO") "m" "" "" None None no_traceback "k"
                  Examples.fresh_reachable)).
  reflexivity.
Defined.

(** X4: after a closed and an open section the counters are [1; 2; 1]. *)
Lemma section_numbers_keep_root_witness :
  init c0 1 "Log" "Log" "" "" "__main__.main" = Ret fresh_state /\
  run fresh_state ops_ex = Ret (run_state fresh_state ops_ex) /\
  rooted_at 1 (next_section_num (run_state fresh_state ops_ex)).
Proof.
  assert (H : run fresh_state ops_ex = Ret (run_state fresh_state ops_ex)) by (vm_compute; reflexivity).
  split; [exact Examples.fresh_eq|]. split; [exact H|].
  exact (proj1 (section_numbers_keep_root c0 1 "Log" "Log" "" "" "__main__.main" fresh_state ops_ex
                  (run_state fresh_state ops_ex) Examples.fresh_eq H)).
Defined.

(** X5 *)
Lemma calls_only_append_witness :
  run fresh_state ops_ex = Ret (run_state fresh_state ops_ex) /\
  grows fresh_state (run_state fresh_state ops_ex).
Proof.
  assert (H : run fresh_state ops_ex = Ret (run_state fresh_state ops_ex)) by (vm_compute; reflexivity).
  split; [exact H|]. exact (calls_only_append fresh_state ops_ex _ H).
Defined.

(** X6: the prior file content "prior" is kept and nothing is printed,
    also when [critical] ends the process. *)
Lemma realtime_off_writes_nothing_witness :
  init c_quiet 1 "Log" "Log" "" "prior" "__main__.main" = Ret quiet_state /\
  realtime_output c_quiet = false /\
  run quiet_state ops_exit = Exit (Some 1%Z) /\
  run_end quiet_state ops_exit = Ret (end_state quiet_state ops_exit) /\
  html_file (end_state quiet_state ops_exit) = "prior" /\ stdout (end_state quiet_state ops_exit) = [].
Proof.
  assert (H : run_end quiet_state ops_exit = Ret (end_state quiet_state ops_exit))
    by (vm_compute; reflexivity).
  destruct (realtime_off_writes_nothing c_quiet 1 "Log" "Log" "" "prior" "__main__.main" quiet_state
              ops_exit (end_state quiet_state ops_exit) quiet_eq eq_refl H) as [Hf Hs].
  split; [exact quiet_eq|]. split; [reflexivity|]. split; [vm_compute; reflexivity|].
  split; [exact H|]. split; [exact Hf | exact (Hs eq_refl)].
Defined.

(** X7 *)
Lemma annotation_printed_without_realtime_witness :
  reachable annot_state /\ realtime_output (cfg annot_state) = false /\
  github_console (cfg annot_state) = true /\
  exists s', annotated NOTICE Pprint.notice annot_state "m" "" "" = Ret s' /\
    stdout s' = (stdout annot_state
                 ++ [Pprint.github_log Pprint.notice
                       (snd (format_entry (cfg annot_state) NOTICE "m" "" ""))
                       (curr_section annot_state) "" 0 0 0 0])%list.
Proof.
  assert (Hr : reachable annot_state) by exact (reachable_init _ _ _ _ _ _ _ _ annot_eq).
  split; [exact Hr|]. split; [vm_compute; reflexivity|]. split; [vm_compute; reflexivity|].
  apply (annotation_printed_without_realtime NOTICE Pprint.notice annot_state "m" "" "" Hr);
    vm_compute; reflexivity.
Defined.

(** X8 *)
Lemma github_off_no_groups_witness :
  init c_quiet 1 "Log" "Log" "" "prior" "__main__.main" = Ret quiet_state /\
  github_console c_quiet = false /\
  run quiet_state ops_ex = Ret (run_state quiet_state ops_ex) /\
  open_grouped_sections (run_state quiet_state ops_ex) = 0%Z.
Proof.
  assert (H : run quiet_state ops_ex = Ret (run_state quiet_state ops_ex)) by (vm_compute; reflexivity).
  split; [exact quiet_eq|]. split; [reflexivity|]. split; [exact H|].
  exact (proj1 (github_off_no_groups c_quiet 1 "Log" "Log" "" "prior" "__main__.main" quiet_state
                  ops_ex (run_state quiet_state ops_ex) quiet_eq eq_refl H)).
Defined.

(** X12: "True" reads as [True]. *)
Lemma read_bool_variable_witness :
  env_ex "FLAG" = Some "True" /\
  read_environment_variable env_ex "FLAG" TBool true false None = IoRet (PBool true) None.
Proof.
  split; [reflexivity|].
  apply (proj1 (read_bool_variable env_ex "FLAG" true false "True" eq_refl)). reflexivity.
Defined.

(** X13: a missing required variable exits with the default code 1. *)
Lemma missing_variable_witness :
  env_ex "MISSING" = None /\ reachable fresh_state /\
  read_environment_variable env_ex "MISSING" TStr true false (Some fresh_state) = IoExit (Some 1%Z).
Proof.
  split; [reflexivity|]. split; [exact Examples.fresh_reachable|].
  destruct (missing_variable env_ex "MISSING" TStr false fresh_state eq_refl Examples.fresh_reachable)
    as (_ & _ & _ & Hx & _).
  apply Hx. vm_compute. reflexivity.
Defined.

(** X14 *)
Lemma read_logger_transparent_witness :
  reachable fresh_state /\
  read_environment_variable env_ex "NUM" TInt true false (Some fresh_state) =
    IoRet (PInt 1) (read_logger env_ex "NUM" TInt true false fresh_state) /\
  read_environment_variable env_ex "NUM" TInt true false None = IoRet (PInt 1) None.
Proof.
  assert (H : read_environment_variable env_ex "NUM" TInt true false (Some fresh_state) =
              IoRet (PInt 1) (read_logger env_ex "NUM" TInt true false fresh_state))
    by (vm_compute; reflexivity).
  split; [exact Examples.fresh_reachable|]. split; [exact H|].
  exact (proj1 (read_logger_transparent env_ex "NUM" TInt true false fresh_state _ _
                  Examples.fresh_reachable H)).
Defined.

(** X15: the section of the read stays open: the counters are [1; 1; 1]. *)
Lemma unsupported_type_leaves_section_open_witness :
  env_ex "FLAG" = Some "True" /\ reachable fresh_state /\
  exists s', read_environment_variable env_ex "FLAG" (TOther "set" "<class 'set'>") true false
               (Some fresh_state) =
    IoRaise (PyTypeError ("The specified type '<class 'set'>' for environment variable 'FLAG'"
                          ++ " is not supported.")) (Some s') /\
    next_section_num s' = [1%Z; 1%Z; 1%Z].
Proof.
  split; [reflexivity|]. split; [exact Examples.fresh_reachable|].
  destruct (unsupported_type_leaves_section_open env_ex "FLAG" "set" "<class 'set'>" true false
              fresh_state "True" eq_refl Examples.fresh_reachable) as (s' & E & _ & Hn & _).
  exists s'. split; [exact E|]. rewrite Hn. vm_compute. reflexivity.
Defined.

(** X16: the masked values "abc" and "xyz" leave the same logger. *)
Lemma masked_value_not_logged_witness :
  reachable fresh_state /\ env_a "TOKEN" = Some "abc" /\ env_b "TOKEN" = Some "xyz" /\
  read_logger env_a "TOKEN" TStr true true fresh_state =
  read_logger env_b "TOKEN" TStr true true fresh_state.
Proof.
  assert (H1 : read_environment_variable env_a "TOKEN" TStr true true (Some fresh_state) =
               IoRet (PStr "abc") (read_logger env_a "TOKEN" TStr true true fresh_state))
    by (vm_compute; reflexivity).
  assert (H2 : read_environment_variable env_b "TOKEN" TStr true true (Some fresh_state) =
               IoRet (PStr "xyz") (read_logger env_b "TOKEN" TStr true true fresh_state))
    by (vm_compute; reflexivity).
  split; [exact Examples.fresh_reachable|]. split; [reflexivity|]. split; [reflexivity|].
  exact (masked_value_not_logged env_a env_b "TOKEN" TStr true fresh_state "abc" "xyz" _ _ _ _
           Examples.fresh_reachable eq_refl eq_refl H1 H2).
Defined.

(** X17: "FLAG" read twice keeps its first place and its last value. *)
Lemma read_variables_without_logger_witness :
  read_environment_variables env_ex
    [("FLAG", TBool, true, false); ("NUM", TInt, true, false); ("FLAG", TStr, false, false)]
    "" "Inputs" None = IoRet [("FLAG", PStr "True"); ("NUM", PInt 1)] None /\
  NoDup (map fst [("FLAG", @PStr CastsEx "True"); ("NUM", PInt 1)]).
Proof.
  assert (H : read_environment_variables env_ex
                [("FLAG", TBool, true, false); ("NUM", TInt, true, false); ("FLAG", TStr, false, false)]
                "" "Inputs" None = IoRet [("FLAG", PStr "True"); ("NUM", PInt 1)] None)
    by (vm_compute; reflexivity).
  split; [exact H|].
  exact (proj1 (read_variables_without_logger env_ex _ "" "Inputs" _ H)).
Defined.

End ExtraExamples.
